(** * The normalisation and aggregation pipeline of the service dashboards

    Two Streamlit programs are embedded here, [service_dashboard.py] (module
    [Service], fed from a JSON endpoint) and [simple_dashboard.py] (module
    [Simple], fed from an uploaded CSV file).  Both run the same pipeline over
    a pandas DataFrame: [normalize_dataframe], [calculate_kpis] and the three
    group breakdowns.

    Conventions of the embedding.
    - A DataFrame is a row count with an ordered list of labelled columns.  The
      model is faithful for frames whose labels are pairwise different (pandas
      answers [df[label]] with a frame, not a column, on a repeated label) and
      whose columns all have the row count as length; those two conditions are
      [frame_ok].
    - A cell holds a Python object: text, an integer, a boolean, [None] or the
      float NaN.  A text is the string of the bytes of its UTF-8 encoding:
      [strip] removes the white space of Unicode, the length and the slices
      count characters, not bytes.  [lower] acts on the ASCII letters; the
      programs only look for ASCII words in a lower-cased text, and no other
      character lower-cases to a letter of those words.
    - A column is the list of its cells.  pandas holds a column of integers
      with a missing cell among them as a column of floats, and writes such
      an integer with a decimal point ([astype_str]).  A float holds an
      integer exactly up to 2^53 in absolute value; floats that are not
      integers, other than NaN, are not modelled.  Group keys and counted
      values are compared as the cells are written: the model is faithful
      for columns of names, where Python's [1 == True] plays no part.
    - A Python exception is a value of [exn]; code that can raise returns a
      [result].
    - Rates are binary64 numbers in the programs.  They are computed here in
      exact rational arithmetic and rounded half-to-even to one decimal.
    - Where pandas leaves an order open (rows of equal [Total_Students] after
      the sort, values of equal frequency in [value_counts]) the model picks
      one; no property below depends on the pick. *)

From Stdlib Require Import String Ascii List ZArith QArith Qround Lia Lqa Bool
  DecimalString Sorted Permutation.
Import ListNotations.
Open Scope string_scope.
Open Scope Z_scope.

(** ** Python text *)

Module Text.

(** The ASCII characters for which [str.isspace] holds. *)
Definition is_space (c : ascii) : bool :=
  let n := nat_of_ascii c in
  ((9 <=? n) && (n <=? 13) || (28 <=? n) && (n <=? 32))%nat.

(** The other characters for which [str.isspace] holds, by their encoding.
    In two bytes: U+0085 and U+00A0. *)
Definition is_space2 (a b : ascii) : bool :=
  let a := nat_of_ascii a in
  let b := nat_of_ascii b in
  ((a =? 194) && ((b =? 133) || (b =? 160)))%nat.

(** In three bytes: U+1680, U+2000 to U+200A, U+2028, U+2029, U+202F, U+205F
    and U+3000. *)
Definition is_space3 (a b c : ascii) : bool :=
  let a := nat_of_ascii a in
  let b := nat_of_ascii b in
  let c := nat_of_ascii c in
  ((a =? 225) && (b =? 154) && (c =? 128) ||
   (a =? 226) && (b =? 128) &&
     ((128 <=? c) && (c <=? 138) || (c =? 168) || (c =? 169) || (c =? 175)) ||
   (a =? 226) && (b =? 129) && (c =? 159) ||
   (a =? 227) && (b =? 128) && (c =? 128))%nat.

(** A byte that is not the first of a character. *)
Definition continuation (c : ascii) : bool :=
  let n := nat_of_ascii c in ((128 <=? n) && (n <? 192))%nat.

(** A byte of white space or of a character outside ASCII: what [strip] can
    remove is made of such bytes. *)
Definition blank (c : ascii) : bool :=
  is_space c || (128 <=? nat_of_ascii c)%nat.

Definition lower_char (c : ascii) : ascii :=
  let n := nat_of_ascii c in
  if ((65 <=? n) && (n <=? 90))%nat then ascii_of_nat (n + 32) else c.

(** [s.lower()] *)
Fixpoint lower (s : string) : string :=
  match s with
  | EmptyString => EmptyString
  | String c s' => String (lower_char c) (lower s')
  end.

(** The bytes without the white space they begin with; [space2] and
    [space3] tell the white space of two and of three bytes. *)
Fixpoint strip_chars (space2 : ascii -> ascii -> bool)
  (space3 : ascii -> ascii -> ascii -> bool) (l : list ascii) : list ascii :=
  match l with
  | a :: l1 =>
      if is_space a then strip_chars space2 space3 l1
      else
        match l1 with
        | b :: l2 =>
            if space2 a b then strip_chars space2 space3 l2
            else
              match l2 with
              | c :: l3 =>
                  if space3 a b c then strip_chars space2 space3 l3 else l
              | [] => l
              end
        | [] => l
        end
  | [] => []
  end.

(** [s.lstrip()] *)
Definition lstrip_chars : list ascii -> list ascii :=
  strip_chars is_space2 is_space3.

(** [s.rstrip()] on the bytes in reverse order. *)
Definition rstrip_chars_rev : list ascii -> list ascii :=
  strip_chars (fun b a => is_space2 a b) (fun c b a => is_space3 a b c).

(** [s.strip()] *)
Definition strip (s : string) : string :=
  string_of_list_ascii
    (rev (rstrip_chars_rev (rev (lstrip_chars (list_ascii_of_string s))))).

(** [len(s)]: the characters, one for every byte that begins one. *)
Fixpoint len (s : string) : nat :=
  match s with
  | EmptyString => 0
  | String c s' => if continuation c then len s' else S (len s')
  end.

(** [s[:n]]: the first [n] characters. *)
Fixpoint take (n : nat) (s : string) : string :=
  match s with
  | EmptyString => EmptyString
  | String c s' =>
      if continuation c then String c (take n s')
      else
        match n with
        | O => EmptyString
        | S n' => String c (take n' s')
        end
  end.

(** [needle in s] *)
Fixpoint contains (needle s : string) : bool :=
  String.prefix needle s ||
  match s with
  | EmptyString => false
  | String _ s' => contains needle s'
  end.

(** [s in l] for a list of strings *)
Definition mem (s : string) (l : list string) : bool :=
  existsb (String.eqb s) l.

(** The no-break space U+00A0 and the letter e with an acute accent U+00E9,
    two bytes each; the em space U+2003, three bytes. *)
Definition nbsp : string :=
  String (ascii_of_nat 194) (String (ascii_of_nat 160) EmptyString).
Definition em_space : string :=
  String (ascii_of_nat 226)
    (String (ascii_of_nat 128) (String (ascii_of_nat 131) EmptyString)).
Definition e_acute : string :=
  String (ascii_of_nat 195) (String (ascii_of_nat 169) EmptyString).

(** What [needle in s] means: [s] is [needle] between two other texts. *)
Definition Substring (needle s : string) : Prop :=
  exists pre post, s = pre ++ needle ++ post.

End Text.

(** ** Cell values *)

Inductive value : Type :=
| VStr (s : string)
| VInt (z : Z)
| VBool (b : bool)
| VNone
| VNaN.

Definition value_eq_dec (v w : value) : {v = w} + {v <> w}.
Proof.
  decide equality; [apply string_dec | apply Z.eq_dec | apply bool_dec].
Defined.

Definition value_eqb (v w : value) : bool :=
  if value_eq_dec v w then true else false.

(** [str(x)] *)
Definition str (x : value) : string :=
  match x with
  | VStr s => s
  | VInt z => NilZero.string_of_int (Z.to_int z)
  | VBool true => "True"
  | VBool false => "False"
  | VNone => "None"
  | VNaN => "nan"
  end.

(** [bool(x)]: empty text, zero, [False] and [None] are falsy; NaN is a
    non-zero float, hence truthy. *)
Definition truthy (x : value) : bool :=
  match x with
  | VStr s => negb (String.eqb s "")
  | VInt z => negb (z =? 0)
  | VBool b => b
  | VNone => false
  | VNaN => true
  end.

(** [pd.notna(x)] *)
Definition notna (x : value) : bool :=
  match x with
  | VNone | VNaN => false
  | _ => true
  end.

(** [x == 'text'] on one cell *)
Definition eq_text (t : string) (x : value) : bool :=
  match x with
  | VStr s => String.eqb s t
  | _ => false
  end.

(** [x != 'text'] on one cell *)
Definition ne_text (t : string) (x : value) : bool := negb (eq_text t x).

Definition STARTED : value := VStr "Started".
Definition NOT_STARTED : value := VStr "Not Started".
Definition COMPLETED : value := VStr "Completed".
Definition IN_PROGRESS : value := VStr "In Progress".

(** ** Exceptions *)

Inductive exn : Type :=
| KeyError (label : string)
| IndexError
| TypeError
| ValueError.

Inductive result (A : Type) : Type :=
| Ok (a : A)
| Raise (e : exn).
Arguments Ok {A} a.
Arguments Raise {A} e.

Definition bind {A B : Type} (r : result A) (k : A -> result B) : result B :=
  match r with
  | Ok a => k a
  | Raise e => Raise e
  end.

Notation "x <- r ;; k" := (bind r (fun x => k))
  (at level 61, r at next level, right associativity).

(** ** DataFrames *)

Definition column : Type := list value.

Record DataFrame : Type := {
  nrows : nat;
  columns : list (string * column)
}.

(** [df.columns] *)
Definition labels (df : DataFrame) : list string := map fst (columns df).

(** [df.empty]: one of the two axes has length zero. *)
Definition empty (df : DataFrame) : bool :=
  (nrows df =? 0)%nat ||
  match columns df with [] => true | _ :: _ => false end.

(** [label in df.columns] *)
Definition has_column (l : string) (df : DataFrame) : bool :=
  Text.mem l (labels df).

Fixpoint lookup (l : string) (cs : list (string * column)) : option column :=
  match cs with
  | [] => None
  | (l', c) :: cs' => if String.eqb l l' then Some c else lookup l cs'
  end.

(** [df[l]] guarded by [l in df.columns]: [None] when the label is absent. *)
Definition get_col (l : string) (df : DataFrame) : option column :=
  lookup l (columns df).

Fixpoint assign (l : string) (c : column) (cs : list (string * column))
  : list (string * column) :=
  match cs with
  | [] => [(l, c)]
  | (l', c') :: cs' =>
      if String.eqb l l' then (l, c) :: cs' else (l', c') :: assign l c cs'
  end.

(** [df[l] = c]: replaces the column in place, or appends a new last one. *)
Definition set_col (l : string) (c : column) (df : DataFrame) : DataFrame :=
  {| nrows := nrows df; columns := assign l c (columns df) |}.

(** [df[l] = x] for a scalar [x], broadcast over the rows. *)
Definition set_scalar (l : string) (x : value) (df : DataFrame) : DataFrame :=
  set_col l (repeat x (nrows df)) df.

(** [df.rename(columns=f)] *)
Definition rename_columns (f : string -> string) (df : DataFrame) : DataFrame :=
  {| nrows := nrows df;
     columns := map (fun lc => (f (fst lc), snd lc)) (columns df) |}.

(** The renaming a dict [{old: new, ...}] stands for. *)
Fixpoint rename_label (mapping : list (string * string)) (l : string) : string :=
  match mapping with
  | [] => l
  | (old, new) :: m => if String.eqb l old then new else rename_label m l
  end.

(** No new name of a renaming dict is one of its old names. *)
Definition new_names_fresh (mapping : list (string * string)) : bool :=
  forallb (fun new => negb (Text.mem new (map fst mapping)))
    (map snd mapping).

(** The cell of column [l] in row [i]. *)
Definition cell (l : string) (i : nat) (df : DataFrame) : option value :=
  match get_col l df with
  | Some c => nth_error c i
  | None => None
  end.

(** The dtype of a column: integers with a missing cell among them, and
    nothing else, are held as floats; so are missing cells with a NaN among
    them. *)
Definition float_column (c : column) : bool :=
  forallb (fun x => match x with
                    | VInt _ | VNone | VNaN => true
                    | VStr _ | VBool _ => false
                    end) c &&
  existsb (fun x => negb (notna x)) c &&
  existsb (fun x => match x with
                    | VInt _ | VNaN => true
                    | _ => false
                    end) c.

(** [str(x)] for a cell [x] of the column [c].  In a column of floats an
    integer is written with ".0" and a missing cell is "nan".  (The digits
    are those of the float up to 2^53 in absolute value; beyond, Python
    writes the digits of a neighbour and then an exponent.) *)
Definition text_in (c : column) (x : value) : string :=
  if float_column c
  then match x with
       | VInt _ => str x ++ ".0"
       | _ => "nan"
       end
  else str x.

(** A byte of the text of a number: a sign, a digit or the point, no white
    space and no letter. *)
Definition no_letter (ch : ascii) : Prop :=
  ((32 <? nat_of_ascii ch) && (nat_of_ascii ch <? 65))%nat = true.

(** [c.astype(str)] *)
Definition astype_str (c : column) : list string := map (text_in c) c.

(** [df[l].astype(str)[i]] *)
Definition cell_text (l : string) (i : nat) (df : DataFrame) : option string :=
  match get_col l df with
  | Some c => nth_error (astype_str c) i
  | None => None
  end.

(** Pairwise different labels, and every column as long as the index. *)
Definition frame_ok (df : DataFrame) : Prop :=
  NoDup (labels df) /\
  Forall (fun lc => length (snd lc) = nrows df) (columns df).

(** [df.loc[mask, l] = x] on the column [c] of label [l]. *)
Fixpoint loc_assign (mask : list bool) (x : value) (c : column) : column :=
  match mask, c with
  | m :: mask', y :: c' => (if m then x else y) :: loc_assign mask' x c'
  | _, _ => c
  end.

(** [(c == 'text').sum()] and [len(df[c == 'text'])] *)
Definition count_text (t : string) (c : column) : Z :=
  Z.of_nat (length (filter (eq_text t) c)).

(** [c.sum()]: booleans add as 0 and 1, missing cells are skipped, text does
    not add to a number. *)
Fixpoint column_sum (c : column) : result Z :=
  match c with
  | [] => Ok 0
  | x :: c' =>
      s <- column_sum c' ;;
      match x with
      | VBool b => Ok (Z.b2z b + s)
      | VInt z => Ok (z + s)
      | VNone | VNaN => Ok s
      | VStr _ => Raise TypeError
      end
  end.

(** [c.astype(int).sum()]: a missing cell does not convert.  Text converts
    when it spells an integer; the model takes text not to. *)
Fixpoint sum_as_int (c : column) : result Z :=
  match c with
  | [] => Ok 0
  | x :: c' =>
      s <- sum_as_int c' ;;
      match x with
      | VBool b => Ok (Z.b2z b + s)
      | VInt z => Ok (z + s)
      | VNone => Raise TypeError
      | VNaN | VStr _ => Raise ValueError
      end
  end.

(** [c.count()]: the cells that are not missing. *)
Definition count_notna (c : column) : Z :=
  Z.of_nat (length (filter notna c)).

(** ** Rates *)

(** [round(q)], half to even. *)
Definition round_half_even (q : Q) : Z :=
  let f := Qfloor q in
  let r := (q - inject_Z f)%Q in
  match (r ?= 1 # 2)%Q with
  | Lt => f
  | Gt => f + 1
  | Eq => if Z.even f then f else f + 1
  end.

(** [round(q, 1)] *)
Definition round1 (q : Q) : Q := (round_half_even (q * 10) # 10)%Q.

(** [round(n / d * 100, 1)] *)
Definition percent (n d : Z) : Q :=
  round1 (inject_Z n / inject_Z d * 100)%Q.

(** [np.where(d > 0, (n / d * 100).round(1), 0)] on one row; NumPy evaluates
    the quotient on a zero [d] to an infinity or a NaN without raising, and
    [np.where] then picks the 0. *)
Definition rate_or_zero (n d : Z) : Q :=
  if 0 <? d then percent n d else 0%Q.

(** ** Sorting and grouping *)

Section Sorting.
Context {A : Type} (key : A -> Z).

Fixpoint insert_desc (x : A) (l : list A) : list A :=
  match l with
  | [] => [x]
  | y :: l' => if key y <=? key x then x :: l else y :: insert_desc x l'
  end.

(** [sort_values(key, ascending=False)].  pandas sorts with an unstable
    sort: the order among rows of equal key is not specified.  Here such
    rows keep the order they had. *)
Definition sort_desc (l : list A) : list A := fold_right insert_desc [] l.
End Sorting.

(** The group keys of [groupby(label)]: each value of the column that is not
    missing, once. *)
Definition group_keys (keys : column) : list value :=
  nodup value_eq_dec (filter notna keys).

(** The cells of column [c] in the rows whose key is [k]. *)
Definition group_cells (k : value) (keys c : column) : column :=
  map snd (filter (fun kc => value_eqb (fst kc) k) (combine keys c)).

(** [df[l]] inside an aggregation: a missing label raises. *)
Definition require (l : string) (df : DataFrame) : result column :=
  match get_col l df with
  | Some c => Ok c
  | None => Raise (KeyError l)
  end.

(** [c.value_counts()]: the values that are not missing with their number of
    occurrences, most frequent first. *)
Definition value_counts (c : column) : list (value * Z) :=
  sort_desc snd
    (map (fun k => (k, Z.of_nat (length (filter (value_eqb k) c))))
         (group_keys c)).

(** [str(df[l].value_counts().index[0])[:20] if l in df.columns and not
    df[l].empty else 'N/A'] *)
Definition top_value (l : string) (df : DataFrame) : result string :=
  match get_col l df with
  | Some c =>
      if (length c =? 0)%nat then Ok "N/A"
      else match value_counts c with
           | (v, _) :: _ => Ok (Text.take 20 (text_in c v))
           | [] => Raise IndexError
           end
  | None => Ok "N/A"
  end.

(** ** What both programs share: the result types of the aggregator *)

(** The dict [calculate_kpis] returns. *)
Record kpis : Type := {
  total_students : Z;
  started : Z;
  not_started : Z;
  completed : Z;
  in_progress : Z;
  start_rate : Q;
  completion_rate : Q;
  top_tutor : string;
  top_team : string;
  top_course : string
}.

(** One row of a breakdown.  [In_Progress] and [Start_Rate_pct] are columns
    of the tutor breakdown only. *)
Record stats : Type := {
  Key : value;
  Total_Students : Z;
  Started : Z;
  Completed : Z;
  In_Progress : option Z;
  Start_Rate_pct : option Q;
  Completion_Rate_pct : Q
}.

Fixpoint map_result {A B : Type} (f : A -> result B) (l : list A)
  : result (list B) :=
  match l with
  | [] => Ok []
  | a :: l' => b <- f a ;; bs <- map_result f l' ;; Ok (b :: bs)
  end.

(** [lambda x: 'Completed' if x else 'In Progress'] *)
Definition completion_status (x : value) : value :=
  if truthy x then COMPLETED else IN_PROGRESS.

(** [calculate_kpis] is the same text in both programs. *)
Definition calculate_kpis (df : DataFrame) : result (option kpis) :=
  if empty df then Ok None
  else
    let total := Z.of_nat (nrows df) in
    let started :=
      match get_col "Status_Clean" df with
      | Some c => count_text "Started" c
      | None => 0
      end in
    let not_started := total - started in
    completed <-
      match get_col "Is_Completed" df with
      | Some c => column_sum c
      | None => Ok 0
      end ;;
    let in_progress := started - completed in
    let start_rate := if 0 <? total then percent started total else 0%Q in
    let completion_rate :=
      if 0 <? total then percent completed total else 0%Q in
    top_tutor <- top_value "Tutor" df ;;
    top_team <- top_value "Team" df ;;
    top_course <- top_value "Course" df ;;
    Ok (Some {| total_students := total;
                started := started;
                not_started := not_started;
                completed := completed;
                in_progress := in_progress;
                start_rate := start_rate;
                completion_rate := completion_rate;
                top_tutor := top_tutor;
                top_team := top_team;
                top_course := top_course |}).

(** [df.groupby(label).agg(...)] followed by the rate columns and the sort.
    The three breakdowns differ in two points only: the tutor breakdown has
    the further columns [In_Progress] and [Start_Rate_%] ([tutor] below), and
    the aggregation [sum] of [Is_Completed].  A label of the aggregation that
    is not a column raises [KeyError]; the model reports the first one. *)
Definition breakdown (tutor : bool) (sum : column -> result Z)
  (label : string) (df : DataFrame) : result (list stats) :=
  if empty df || negb (has_column label df) then Ok []
  else
    keys <- require label df ;;
    names <- require "Student_Name" df ;;
    status <- require "Status_Clean" df ;;
    done <- require "Is_Completed" df ;;
    cstatus <- (if tutor then require "Completion_Status" df else Ok []) ;;
    rows <- map_result (fun k =>
        let total := count_notna (group_cells k keys names) in
        let started := count_text "Started" (group_cells k keys status) in
        completed <- sum (group_cells k keys done) ;;
        Ok {| Key := k;
              Total_Students := total;
              Started := started;
              Completed := completed;
              In_Progress :=
                if tutor
                then Some (count_text "In Progress" (group_cells k keys cstatus))
                else None;
              Start_Rate_pct :=
                if tutor then Some (rate_or_zero started total) else None;
              Completion_Rate_pct := rate_or_zero completed started |})
      (group_keys keys) ;;
    Ok (sort_desc Total_Students rows).

(** ** service_dashboard.py *)

Module Service.

Definition column_mapping : list (string * string) :=
  [ ("sl_no", "SL_NO");
    ("student_name", "Student_Name");
    ("course", "Course");
    ("contact_number", "Contact");
    ("package_hours", "Package_Hours");
    ("mail_id", "Email");
    ("joining_date", "Joining_Date");
    ("status", "Status");
    ("started_date", "Started_Date");
    ("completed_date", "Completed_Date");
    ("tutor_name", "Tutor");
    ("team_name", "Team");
    ("sheet_name", "Month");
    ("new_old", "New_Old") ].

Definition clean_status (x : value) : value :=
  let s := Text.strip (Text.lower (str x)) in
  if Text.contains "started" s && negb (Text.contains "not" s) then STARTED
  else if Text.contains "yes" s then STARTED
  else NOT_STARTED.

(** [.str.strip().str.len() > 4] on one text of
    [df['Started_Date'].astype(str)] *)
Definition has_start_date (s : string) : bool :=
  (4 <? Text.len (Text.strip s))%nat.

(** [lambda x: bool(x) and str(x).strip() not in ['', 'nan', 'None', 'NaT']].
    A number is completed unless it is zero, as an integer and as a float
    ([service_is_completed_number]); a missing cell is not, as [None] and as
    NaN. *)
Definition is_completed (x : value) : value :=
  VBool (truthy x &&
         negb (Text.mem (Text.strip (str x)) [""; "nan"; "None"; "NaT"])).

(** [df.rename(columns=column_mapping)] *)
Definition renamed (df : DataFrame) : DataFrame :=
  rename_columns (rename_label column_mapping) df.

(** The table after the renaming and the status classification, before the
    cross-verification with the start dates.  [clean_status] takes [str] of
    the cell as it is written here; in a column of floats Python's [str(x)]
    is the text [text_in], which classifies the same
    ([clean_status_of_column_text]). *)
Definition classify (df : DataFrame) : DataFrame :=
  let df := renamed df in
  match get_col "Status" df with
  | Some c => set_col "Status_Clean" (map clean_status c) df
  | None => df
  end.

Definition cross_verify (df : DataFrame) : DataFrame :=
  match get_col "Started_Date" df, get_col "Status_Clean" df with
  | Some sd, Some sc =>
      set_col "Status_Clean"
        (loc_assign (map has_start_date (astype_str sd)) STARTED sc) df
  | _, _ => df
  end.

(** The classification and the cross-verification of a table that already
    has its canonical labels. *)
Definition status_stage (d : DataFrame) : DataFrame :=
  cross_verify
    match get_col "Status" d with
    | Some c => set_col "Status_Clean" (map clean_status c) d
    | None => d
    end.

Definition add_completion (df : DataFrame) : DataFrame :=
  match get_col "Completed_Date" df with
  | Some c =>
      let done := map is_completed c in
      set_col "Completion_Status" (map completion_status done)
        (set_col "Is_Completed" done df)
  | None =>
      set_scalar "Completion_Status" IN_PROGRESS
        (set_scalar "Is_Completed" (VBool false) df)
  end.

Definition normalize_dataframe (df : DataFrame) : DataFrame :=
  if empty df then df
  else add_completion (cross_verify (classify df)).

Definition create_tutor_performance := breakdown true column_sum "Tutor".
Definition create_team_performance := breakdown false column_sum "Team".
(** [Completed=('Is_Completed', lambda x: x.astype(int).sum())] *)
Definition create_course_analysis := breakdown false sum_as_int "Course".

End Service.

(** ** simple_dashboard.py *)

Module Simple.

Definition column_mapping : list (string * string) :=
  [ ("SL NO", "SL_NO");
    ("STUDENT NAME", "Student_Name");
    ("COURSE", "Course");
    ("CONTACT NUMBER", "Contact");
    ("PACKAGE (HOURS)", "Package_Hours");
    ("MAIL ID", "Email");
    ("JOINING DATE", "Joining_Date");
    ("INDIVIDUAL - STARTED / NOT STARTED", "Status");
    (" STARTED DATE", "Started_Date");
    ("COURSE COMPLETED DATE", "Completed_Date");
    ("TUTOR NAME", "Tutor");
    ("TEAM NAME", "Team") ].

(** One turn of the renaming loop. *)
Definition rename_if_present (df : DataFrame) (on : string * string)
  : DataFrame :=
  if has_column (fst on) df then rename_columns (rename_label [on]) df
  else df.

(** [lambda x: 'Started' if 'start' in x or 'yes' in x else 'Not Started']
    after [astype(str).str.lower()] *)
Definition clean_status (x : value) : value :=
  let s := Text.lower (str x) in
  if Text.contains "start" s || Text.contains "yes" s then STARTED
  else NOT_STARTED.

(** [df['Completed_Date'].notna() & (df['Completed_Date'] != '')] on one
    cell *)
Definition is_completed (x : value) : value :=
  VBool (notna x && ne_text "" x).

(** The renaming loop over [column_mapping.items()]. *)
Definition renamed (df : DataFrame) : DataFrame :=
  fold_left rename_if_present column_mapping df.

(** What the loop over the dict [mapping] makes of one label. *)
Definition rename_loop_label (mapping : list (string * string)) (l : string)
  : string :=
  fold_left (fun l on => rename_label [on] l) mapping l.

Definition classify (df : DataFrame) : DataFrame :=
  let df := renamed df in
  match get_col "Status" df with
  | Some c => set_col "Status_Clean" (map clean_status c) df
  | None => df
  end.

(** The classification of a table that already has its canonical labels. *)
Definition status_stage (d : DataFrame) : DataFrame :=
  match get_col "Status" d with
  | Some c => set_col "Status_Clean" (map clean_status c) d
  | None => d
  end.

Definition add_completion (df : DataFrame) : DataFrame :=
  match get_col "Completed_Date" df with
  | Some c =>
      let done := map is_completed c in
      set_col "Completion_Status" (map completion_status done)
        (set_col "Is_Completed" done df)
  | None => df
  end.

Definition normalize_dataframe (df : DataFrame) : DataFrame :=
  if empty df then df
  else add_completion (classify df).

Definition create_tutor_performance := breakdown true column_sum "Tutor".
Definition create_team_performance := breakdown false column_sum "Team".
Definition create_course_analysis := breakdown false column_sum "Course".

End Simple.

(** ** The source adapters *)

(** A decoded JSON document. *)
#[warnings="-register-all"]
Inductive json : Type :=
| JNull
| JBool (b : bool)
| JNum (z : Z)
| JStr (s : string)
| JArr (items : list json)
| JObj (members : list (string * json)).

(** What [requests.get] followed by [raise_for_status] and [json] comes to:
    an exception of one of the three calls with its message [str(e)], or the
    decoded body. *)
Inductive response : Type :=
| TransportError (message : string)
| HTTPError (message : string)
| JSONDecodeError (message : string)
| Body (data : json).

Fixpoint member (k : string) (ms : list (string * json)) : option json :=
  match ms with
  | [] => None
  | (k', j) :: ms' => if String.eqb k k' then Some j else member k ms'
  end.

Section Adapters.
(** [pd.DataFrame(x)]: the frame, or the message of the exception. *)
Variable DataFrame_of : json -> string + DataFrame.
(** The message of the [AttributeError] that [data.get] raises on a
    document that is not an object. *)
Variable no_get : json -> string.
(** [pd.read_csv(f)] on the uploaded files of type [file]. *)
Variable file : Type.
Variable read_csv : file -> string + DataFrame.

(** The second component is a Python object: [JNull] is [None]. *)
Definition fetch_data_from_sheets (r : response) : option DataFrame * json :=
  match r with
  | TransportError message
  | HTTPError message
  | JSONDecodeError message => (None, JStr message)
  | Body data =>
      match data with
      | JObj members =>
          match member "data" members with
          | Some rows =>
              match DataFrame_of rows with
              | inr df => (Some df, JNull)
              | inl message => (None, JStr message)
              end
          | None =>
              match member "error" members with
              | Some e => (None, e)
              | None => (None, JStr "Unknown error")
              end
          end
      | _ => (None, JStr (no_get data))
      end
  end.

Definition load_csv_file (f : file) : option DataFrame * json :=
  match read_csv f with
  | inr df => (Some df, JNull)
  | inl message => (None, JStr message)
  end.

(** The contract of an adapter: a table and [None], or [None] and an error
    text. *)
Definition table_or_error (p : option DataFrame * json) : Prop :=
  (exists df, p = (Some df, JNull)) \/ (exists message, p = (None, JStr message)).
End Adapters.

(** ** The rules of the specification, in its own words *)

Module Spec.

(** The status text "contains 'started' without containing 'not', or contains
    'yes'", on the lower-cased and trimmed text. *)
Definition started_text (x : value) : Prop :=
  let s := Text.strip (Text.lower (str x)) in
  (Text.Substring "started" s /\ ~ Text.Substring "not" s) \/
  Text.Substring "yes" s.

(** The rule of the file variant: the lower-cased text contains 'start' or
    contains 'yes'. *)
Definition start_or_yes_text (x : value) : Prop :=
  let s := Text.lower (str x) in
  Text.Substring "start" s \/ Text.Substring "yes" s.

(** A status that is one of the two canonical values. *)
Definition two_valued (v : option value) : Prop :=
  v = Some STARTED \/ v = Some NOT_STARTED.

(** The completion date "is present, non-null, and its string cast, after
    trimming, is not one of the sentinel strings". *)
Definition sentinels : list string := [""; "nan"; "None"; "NaT"].

Definition completion_recorded (x : value) : Prop :=
  notna x = true /\ ~ In (Text.strip (str x)) sentinels.

(** The rule of the URL variant reads "non-null" as Python truth. *)
Definition truthy_completion_recorded (x : value) : Prop :=
  truthy x = true /\ ~ In (Text.strip (str x)) sentinels.

(** The rule of the file variant: present and not the empty text. *)
Definition present_not_empty_text (x : value) : Prop :=
  notna x = true /\ x <> VStr "".

(** A cell that holds text or is missing, as the cells of a date column
    are. *)
Definition text_or_missing (x : value) : Prop :=
  match x with
  | VStr _ | VNone | VNaN => True
  | VInt _ | VBool _ => False
  end.

(** "Its trimmed string representation has length strictly greater than 4
    characters", of the string representation [s]. *)
Definition start_date_recorded (s : string) : Prop :=
  (4 < Text.len (Text.strip s))%nat.

(** A value between 0 and 100. *)
Definition percentage (q : Q) : Prop := (0 <= q /\ q <= 100)%Q.

(** Rows in descending order of [Total_Students]. *)
Definition descending (rows : list stats) : Prop :=
  Sorted (fun a b => Total_Students b <= Total_Students a) rows.

(** The records that have both a group key and a student name. *)
Definition keyed_and_named (keys names : column) : Z :=
  Z.of_nat
    (length (filter (fun kn => notna (fst kn) && notna (snd kn))
               (combine keys names))).

(** The sum of the [Total_Students] column. *)
Definition sum_totals (rows : list stats) : Z :=
  fold_right (fun r acc => Total_Students r + acc) 0 rows.

(** The row the aggregation computes for the group of key [k]. *)
Definition row_of (tutor : bool) (sum : column -> result Z)
  (keys names status done cstatus : column) (k : value) (r : stats) : Prop :=
  sum (group_cells k keys done) = Ok (Completed r) /\
  Key r = k /\
  Total_Students r = count_notna (group_cells k keys names) /\
  Started r = count_text "Started" (group_cells k keys status) /\
  In_Progress r =
    (if tutor
     then Some (count_text "In Progress" (group_cells k keys cstatus))
     else None) /\
  Start_Rate_pct r =
    (if tutor then Some (rate_or_zero (Started r) (Total_Students r))
     else None) /\
  Completion_Rate_pct r = rate_or_zero (Completed r) (Started r).

(** Every cell of the column [l], when there is one, is a boolean. *)
Definition boolean_column (l : string) (df : DataFrame) : Prop :=
  forall c, get_col l df = Some c -> Forall (fun x => exists b, x = VBool b) c.

End Spec.

(** ** Sample tables *)

Module Examples.

(** The three records of the specification's example, as the endpoint and as
    a CSV file deliver them. *)
Definition three_records_url : DataFrame :=
  {| nrows := 3;
     columns :=
       [ ("status", [VStr "Started"; VStr "not started"; VStr "yes"]);
         ("completed_date", [VStr "2023-01-01"; VStr ""; VStr "NaT"]) ] |}.

Definition three_records_csv : DataFrame :=
  {| nrows := 3;
     columns :=
       [ ("INDIVIDUAL - STARTED / NOT STARTED",
          [VStr "Started"; VStr "not started"; VStr "yes"]);
         ("COURSE COMPLETED DATE",
          [VStr "2023-01-01"; VStr ""; VStr "NaT"]) ] |}.

(** One record labelled "Not Started" with a recorded start date. *)
Definition labelled_not_started_url : DataFrame :=
  {| nrows := 1;
     columns :=
       [ ("status", [VStr "Not Started"]);
         ("started_date", [VStr "2024-03-01"]) ] |}.

Definition labelled_not_started_csv : DataFrame :=
  {| nrows := 1;
     columns :=
       [ ("INDIVIDUAL - STARTED / NOT STARTED", [VStr "Not Started"]);
         (" STARTED DATE", [VStr "2024-03-01"]) ] |}.

(** One record labelled "Pending" with a recorded start date. *)
Definition pending_csv : DataFrame :=
  {| nrows := 1;
     columns :=
       [ ("INDIVIDUAL - STARTED / NOT STARTED", [VStr "Pending"]);
         (" STARTED DATE", [VStr "2024-03-01"]) ] |}.

(** One record whose tutor is not assigned: [null] in the JSON document, an
    empty field in the CSV file. *)
Definition unassigned_url : DataFrame :=
  {| nrows := 1;
     columns :=
       [ ("student_name", [VStr "Asha"]);
         ("status", [VStr "Started"]);
         ("tutor_name", [VNone]) ] |}.

Definition unassigned_csv : DataFrame :=
  {| nrows := 1;
     columns :=
       [ ("STUDENT NAME", [VStr "Asha"]);
         ("INDIVIDUAL - STARTED / NOT STARTED", [VStr "Started"]);
         ("TUTOR NAME", [VNaN]) ] |}.

(** One record with a completion date, no start date, and a status text
    that classifies as 'Not Started'. *)
Definition completed_unstarted_url : DataFrame :=
  {| nrows := 1;
     columns :=
       [ ("status", [VStr "Not Started"]);
         ("completed_date", [VStr "2024-05-01"]) ] |}.

Definition completed_unstarted_csv : DataFrame :=
  {| nrows := 1;
     columns :=
       [ ("INDIVIDUAL - STARTED / NOT STARTED", [VStr "Pending"]);
         ("COURSE COMPLETED DATE", [VStr "2024-05-01"]) ] |}.

(** Three records of one tutor: one started and open, two completed with a
    status text that classifies as 'Not Started'. *)
Definition late_completions_url : DataFrame :=
  {| nrows := 3;
     columns :=
       [ ("student_name", [VStr "Asha"; VStr "Binu"; VStr "Chitra"]);
         ("status", [VStr "Started"; VStr "Not Started"; VStr "Not Started"]);
         ("completed_date", [VStr ""; VStr "2024-01-10"; VStr "2024-02-10"]);
         ("tutor_name", [VStr "Ravi"; VStr "Ravi"; VStr "Ravi"]) ] |}.

(** Two records, the second without a tutor. *)
Definition one_unassigned_url : DataFrame :=
  {| nrows := 2;
     columns :=
       [ ("student_name", [VStr "Asha"; VStr "Binu"]);
         ("status", [VStr "Started"; VStr "Started"]);
         ("tutor_name", [VStr "Ravi"; VNone]) ] |}.

(** A CSV file without the completion-date column, and a JSON document
    without student names. *)
Definition no_completion_csv : DataFrame :=
  {| nrows := 1;
     columns :=
       [ ("STUDENT NAME", [VStr "Asha"]);
         ("INDIVIDUAL - STARTED / NOT STARTED", [VStr "Started"]);
         ("TUTOR NAME", [VStr "Ravi"]) ] |}.

Definition no_name_url : DataFrame :=
  {| nrows := 1;
     columns :=
       [ ("status", [VStr "Started"]);
         ("tutor_name", [VStr "Ravi"]) ] |}.

End Examples.

(** ** The rest of the two programs: pages, filter, report, session *)

(** *** Row selection and the values of a column *)

(** [c[mask]] on one column *)
Fixpoint select_rows (mask : list bool) (c : column) : column :=
  match mask, c with
  | m :: mask', x :: c' =>
      if m then x :: select_rows mask' c' else select_rows mask' c'
  | _, _ => []
  end.

(** [df[mask]]: the rows where the mask holds, every column kept. *)
Definition filter_rows (mask : list bool) (df : DataFrame) : DataFrame :=
  {| nrows := length (filter (fun m : bool => m) mask);
     columns := map (fun lc => (fst lc, select_rows mask (snd lc))) (columns df) |}.

(** [c.unique()]: the values in order of first appearance. *)
Fixpoint unique (c : column) : column :=
  match c with
  | [] => []
  | x :: c' => x :: filter (fun y => negb (value_eqb y x)) (unique c')
  end.



(** [rows.head(n)] *)
Definition head (n : nat) (rows : list stats) : list stats := firstn n rows.

(** *** Texts of numbers *)

Definition comma : ascii := ","%char.

Definition not_comma (c : ascii) : bool := negb (Ascii.eqb c comma).

(** Commas between groups of three digits, on the digits in reverse. *)
Fixpoint group3 (rev_digits : list ascii) : list ascii :=
  match rev_digits with
  | a :: b :: c :: ((_ :: _) as rest) => a :: b :: c :: comma :: group3 rest
  | _ => rev_digits
  end.

(** [f"{n:,}"] *)
Definition format_thousands (n : Z) : string :=
  ((if n <? 0 then "-" else EmptyString) ++
   string_of_list_ascii
     (rev (group3 (rev (list_ascii_of_string (str (VInt (Z.abs n)))))))).

(** [s.replace(',', '')] *)
Fixpoint remove_commas (s : string) : string :=
  match s with
  | EmptyString => EmptyString
  | String c s' =>
      if Ascii.eqb c comma then remove_commas s' else String c (remove_commas s')
  end.

(** [f"{q}"] for a rate, a number of tenths. *)
Definition format_rate (q : Q) : string :=
  let t := Qfloor (q * 10) in
  ((if t <? 0 then "-" else EmptyString) ++
   str (VInt (Z.abs t / 10)) ++ "." ++ str (VInt (Z.abs t mod 10))).

(** *** The cards *)

Definition dquote : string := String "034"%char EmptyString.
Definition newline : string := String "010"%char EmptyString.

(** [render_kpi_row], the same in both programs *)
Definition render_kpi_row (kpis : list string) : string :=
  "<div class=" ++ dquote ++ "kpi-container" ++ dquote ++ ">" ++
  String.concat EmptyString kpis ++ "</div>".

Module ServicePage.

Definition render_kpi (title value subtitle color_class : string) : string :=
  "<div class=" ++ dquote ++ "kpi-box " ++ color_class ++ dquote ++ ">" ++
  "<div class=" ++ dquote ++ "kpi-title" ++ dquote ++ ">" ++ title ++ "</div>" ++
  "<div class=" ++ dquote ++ "kpi-value" ++ dquote ++ ">" ++ value ++ "</div>" ++
  "<div class=" ++ dquote ++ "kpi-sub" ++ dquote ++ ">" ++ subtitle ++ "</div>" ++
  "</div>".

(** The row of four cards of [main]; the summary of an empty table is the
    empty dict, and its first lookup raises. *)
Definition kpi_cards (k : option kpis) : result string :=
  match k with
  | None => Raise (KeyError "total_students")
  | Some k =>
      Ok (render_kpi_row
            [ render_kpi "Total Students" (format_thousands (total_students k))
                "Enrolled" "kpi-box-blue";
              render_kpi "Started" (format_thousands (started k))
                (format_rate (start_rate k) ++ "% start rate") "kpi-box-green";
              render_kpi "Completed" (format_thousands (completed k))
                (format_rate (completion_rate k) ++ "% completion")
                "kpi-box-purple";
              render_kpi "In Progress" (format_thousands (in_progress k))
                "Active students" "kpi-box-orange" ])
  end.


(** The table of the page for the month selected. *)
Definition filter_month (selected : string) (df : DataFrame) : DataFrame :=
  match get_col "Month" df with
  | Some c =>
      if negb (String.eqb selected "All Time")
      then filter_rows (map (eq_text selected) c) df
      else df
  | None => df
  end.


End ServicePage.

Module SimplePage.

Definition render_kpi (title value subtitle color_class : string) : string :=
  newline ++
  "    <div class=" ++ dquote ++ "kpi-box " ++ color_class ++ dquote ++ ">" ++
  newline ++
  "        <div class=" ++ dquote ++ "kpi-title" ++ dquote ++ ">" ++ title ++
  "</div>" ++ newline ++
  "        <div class=" ++ dquote ++ "kpi-value" ++ dquote ++ ">" ++ value ++
  "</div>" ++ newline ++
  "        <div class=" ++ dquote ++ "kpi-sub" ++ dquote ++ ">" ++ subtitle ++
  "</div>" ++ newline ++
  "    </div>" ++ newline ++ "    ".

Definition kpi_cards (k : option kpis) : result string :=
  match k with
  | None => Raise (KeyError "total_students")
  | Some k =>
      Ok (render_kpi_row
            [ render_kpi "Total Students" (format_thousands (total_students k))
                "Enrolled" "kpi-box-blue";
              render_kpi "Started" (format_thousands (started k))
                (format_rate (start_rate k) ++ "% start rate") "kpi-box-green";
              render_kpi "Completed" (format_thousands (completed k))
                (format_rate (completion_rate k) ++ "% completion")
                "kpi-box-purple";
              render_kpi "In Progress" (format_thousands (in_progress k))
                "Active students" "kpi-box-orange" ])
  end.

End SimplePage.

(** *** The spreadsheet report *)

(** A value of the summary sheet. *)
Inductive metric : Type :=
| Count (n : Z)
| Rate (q : Q).

Inductive sheet : Type :=
| SummarySheet (rows : list (string * metric))
| DataSheet (df : DataFrame)
| StatsSheet (rows : list stats).

(** [create_excel_report], the same in both programs.  The value is the
    workbook handed to the writer, sheet by sheet in the order written; the
    bytes returned are the writer's serialisation of it.  [kpis] is the dict
    of [calculate_kpis], [None] for the empty dict. *)
Definition create_excel_report (df : DataFrame) (kpis : option kpis)
  (tutor_perf team_perf course_analysis : list stats)
  : result (list (string * sheet)) :=
  match kpis with
  | None => Raise (KeyError "total_students")
  | Some k =>
      Ok ([ ("Executive Summary",
             SummarySheet
               [ ("Total Students", Count (total_students k));
                 ("Started", Count (started k));
                 ("Not Started", Count (not_started k));
                 ("Completed", Count (completed k));
                 ("In Progress", Count (in_progress k));
                 ("Start Rate %", Rate (start_rate k));
                 ("Completion Rate %", Rate (completion_rate k)) ]) ]
          ++ (if empty df then [] else [("Raw Data", DataSheet df)])
          ++ match tutor_perf with
             | [] => []
             | _ :: _ => [("Tutor Performance", StatsSheet tutor_perf)]
             end
          ++ match team_perf with
             | [] => []
             | _ :: _ => [("Team Performance", StatsSheet team_perf)]
             end
          ++ match course_analysis with
             | [] => []
             | _ :: _ => [("Course Analysis", StatsSheet course_analysis)]
             end)%list
  end.

(** *** The session *)

(** [st.session_state.data_df] *)
Record session : Type := { data_df : option DataFrame }.

(** What the sidebar reports after a load. *)
Inductive notice : Type :=
| Loaded (records : nat)
| LoadError (error : json).

(** A fresh session, and the session after the Clear button. *)
Definition cleared : session := {| data_df := None |}.

(** [data_df is not None and not data_df.empty]: the dashboard is shown. *)
Definition shows_dashboard (s : session) : bool :=
  match data_df s with
  | Some df => negb (empty df)
  | None => false
  end.

(** The body of a load button, for a source adapter that has answered with
    [loaded] and the [normalize_dataframe] of the program. *)
Definition on_load (normalize : DataFrame -> DataFrame)
  (loaded : option DataFrame * json) (s : session) : session * notice :=
  match loaded with
  | (Some df, _) =>
      let df := normalize df in
      ({| data_df := Some df |}, Loaded (nrows df))
  | (None, error) => (s, LoadError error)
  end.

(** What the user does in the sidebar. *)
Inductive action : Type :=
| Load (loaded : option DataFrame * json)
| Clear.

Definition step (normalize : DataFrame -> DataFrame) (s : session) (a : action)
  : session :=
  match a with
  | Load loaded => fst (on_load normalize loaded s)
  | Clear => cleared
  end.

(** A run of the program over a sequence of actions. *)
Definition run (normalize : DataFrame -> DataFrame) (actions : list action)
  : session :=
  fold_left (step normalize) actions cleared.

(** The content of the page of simple_dashboard for a stored table: the
    summary, the cards, the three breakdowns and the report. *)
Definition simple_page (df : DataFrame)
  : result (string * list (string * sheet)) :=
  kpis <- calculate_kpis df ;;
  cards <- SimplePage.kpi_cards kpis ;;
  tutor_perf <- Simple.create_tutor_performance df ;;
  team_perf <- Simple.create_team_performance df ;;
  course_analysis <- Simple.create_course_analysis df ;;
  report <- create_excel_report df kpis tutor_perf team_perf course_analysis ;;
  Ok (cards, report).

(** The columns [normalize_dataframe] derives. *)
Definition derived_labels : list string :=
  ["Status_Clean"; "Is_Completed"; "Completion_Status"].


(** *** More sample tables *)

Module MoreExamples.

(** Three records of two months, as the endpoint delivers them; and two
    records whose month is a number. *)
Definition monthly_url : DataFrame :=
  {| nrows := 3;
     columns :=
       [ ("student_name", [VStr "Asha"; VStr "Binu"; VStr "Chitra"]);
         ("status", [VStr "Started"; VStr "Not Started"; VStr "yes"]);
         ("sheet_name", [VStr "Jan"; VStr "Feb"; VStr "Jan"]) ] |}.


(** A CSV file with every column the pages read. *)
Definition complete_csv : DataFrame :=
  {| nrows := 2;
     columns :=
       [ ("STUDENT NAME", [VStr "Asha"; VStr "Binu"]);
         ("COURSE", [VStr "Maths"; VStr "Maths"]);
         ("INDIVIDUAL - STARTED / NOT STARTED", [VStr "Started"; VStr "No"]);
         ("COURSE COMPLETED DATE", [VStr "2024-05-01"; VNaN]);
         ("TUTOR NAME", [VStr "Ravi"; VStr "Sita"]);
         ("TEAM NAME", [VStr "A"; VStr "A"]) ] |}.

End MoreExamples.

(** * Properties *)

(** ** Text *)

Example str_examples :
  str (VInt (-42)) = "-42" /\ str (VInt 0) = "0" /\
  Text.strip " 2024-03-01  " = "2024-03-01" /\
  Text.lower "Not Started" = "not started" /\
  Text.contains "start" "not started" = true /\
  Text.contains "yes" "ye s" = false.
Proof. repeat split. Qed.

Example unicode_examples :
  Text.strip (Text.nbsp ++ " 2024" ++ Text.nbsp ++ Text.nbsp) = "2024" /\
  Text.strip (Text.em_space ++ "2024-03" ++ Text.em_space ++ " ") =
    "2024-03" /\
  Text.strip (Text.e_acute ++ " ") = Text.e_acute /\
  Text.len ("2024" ++ Text.nbsp ++ Text.nbsp) = 6%nat /\
  Text.len ("Jos" ++ Text.e_acute) = 4%nat /\
  Text.take 4 ("Jos" ++ Text.e_acute ++ " Pe") = "Jos" ++ Text.e_acute /\
  Service.has_start_date ("2024" ++ Text.nbsp ++ Text.nbsp) = false /\
  Service.has_start_date ("2024-" ++ Text.nbsp) = true /\
  Service.is_completed (VStr Text.nbsp) = VBool false /\
  Simple.is_completed (VStr Text.nbsp) = VBool true.
Proof. repeat split. Qed.

Example astype_str_examples :
  astype_str [VInt 1234; VNone] = ["1234.0"; "nan"] /\
  astype_str [VInt 1234; VInt 5] = ["1234"; "5"] /\
  astype_str [VInt 1234; VStr "x"; VNone] = ["1234"; "x"; "None"] /\
  astype_str [VBool false; VNone] = ["False"; "None"] /\
  map Service.has_start_date (astype_str [VInt 1234; VNone]) = [true; false] /\
  map Service.has_start_date (astype_str [VInt 1234; VInt 5]) = [false; false].
Proof. repeat split. Qed.

Example percent_examples :
  percent 2 3 = (667 # 10)%Q /\ percent 1 3 = (333 # 10)%Q /\
  percent 1 8 = (125 # 10)%Q /\ percent 2 1 = (2000 # 10)%Q /\
  percent 0 5 = (0 # 10)%Q /\ percent 5 5 = (1000 # 10)%Q.
Proof. repeat split. Qed.

Lemma prefix_app (n s : string) :
  String.prefix n s = true <-> exists post, s = n ++ post.
Proof.
  revert s; induction n as [|c n IH]; intros s; simpl.
  - split; [intros _; exists s; reflexivity | destruct s; reflexivity].
  - destruct s as [|d s]; simpl.
    + split; [discriminate | intros [post H]; discriminate].
    + destruct (ascii_dec c d) as [->|Hne].
      * rewrite IH. split; intros [post H]; exists post.
        -- now subst.
        -- now inversion H.
      * split; [discriminate | intros [post H]; inversion H; congruence].
Qed.

Lemma contains_Substring (n s : string) :
  Text.contains n s = true <-> Text.Substring n s.
Proof.
  unfold Text.Substring.
  induction s as [|c s IH].
  - cbn [Text.contains]. rewrite orb_false_r, prefix_app. split.
    + intros [post H]; exists "", post; exact H.
    + intros [pre [post H]]. destruct pre; [exists post; exact H | discriminate].
  - cbn [Text.contains]. rewrite orb_true_iff, IH, prefix_app. split.
    + intros [[post H] | [pre [post H]]].
      * exists "", post; exact H.
      * exists (String c pre), post; simpl; now rewrite H.
    + intros [pre [post H]]. destruct pre as [|d pre].
      * left; exists post; exact H.
      * right; exists pre, post. simpl in H. now inversion H.
Qed.

Lemma not_contains_Substring (n s : string) :
  Text.contains n s = false <-> ~ Text.Substring n s.
Proof.
  rewrite <- contains_Substring. destruct (Text.contains n s); split; intros;
    try reflexivity; try discriminate; congruence.
Qed.

Lemma mem_In (s : string) (l : list string) :
  Text.mem s l = true <-> In s l.
Proof.
  unfold Text.mem. rewrite existsb_exists. split.
  - intros [t [Hin Heq]]. apply String.eqb_eq in Heq. now subst.
  - intros Hin. exists s. split; [exact Hin | apply String.eqb_refl].
Qed.

(** ** Column assignment and lookup *)

Lemma lookup_assign_eq l c cs : lookup l (assign l c cs) = Some c.
Proof.
  induction cs as [|[l' c'] cs IH]; simpl.
  - now rewrite String.eqb_refl.
  - destruct (String.eqb l l') eqn:E; simpl.
    + now rewrite String.eqb_refl.
    + now rewrite E.
Qed.

Lemma lookup_assign_neq l l' c cs :
  String.eqb l l' = false -> lookup l (assign l' c cs) = lookup l cs.
Proof.
  intros Hne. induction cs as [|[l2 c2] cs IH]; simpl.
  - now rewrite Hne.
  - destruct (String.eqb l' l2) eqn:E; simpl.
    + apply String.eqb_eq in E; subst. now rewrite Hne.
    + now rewrite IH.
Qed.

Lemma assign_same l c cs : lookup l cs = Some c -> assign l c cs = cs.
Proof.
  induction cs as [|[l2 c2] cs IH]; simpl; [discriminate|].
  destruct (String.eqb l l2) eqn:E.
  - apply String.eqb_eq in E; subst. now intros [= ->].
  - intros H. now rewrite IH.
Qed.

Lemma assign_assign l c c' cs : assign l c (assign l c' cs) = assign l c cs.
Proof.
  induction cs as [|[l2 c2] cs IH]; simpl.
  - now rewrite String.eqb_refl.
  - destruct (String.eqb l l2) eqn:E; simpl.
    + now rewrite String.eqb_refl.
    + now rewrite E, IH.
Qed.

Lemma get_set_eq l c df : get_col l (set_col l c df) = Some c.
Proof. apply lookup_assign_eq. Qed.

Lemma get_set_neq l l' c df :
  String.eqb l l' = false -> get_col l (set_col l' c df) = get_col l df.
Proof. apply lookup_assign_neq. Qed.

Lemma set_col_same l c df : get_col l df = Some c -> set_col l c df = df.
Proof.
  intros H. destruct df as [n cs]. unfold set_col; simpl.
  f_equal. now apply assign_same.
Qed.

Lemma set_col_set_col l c c' df :
  set_col l c (set_col l c' df) = set_col l c df.
Proof. unfold set_col; simpl. f_equal. apply assign_assign. Qed.

Lemma nrows_set_col l c df : nrows (set_col l c df) = nrows df.
Proof. reflexivity. Qed.

Lemma has_column_get l df :
  has_column l df = true <-> get_col l df <> None.
Proof.
  unfold has_column, get_col, labels. destruct df as [n cs]; simpl.
  induction cs as [|[l2 c2] cs IH]; simpl.
  - split; [discriminate | congruence].
  - destruct (String.eqb l l2); simpl; [split; [discriminate|reflexivity]|].
    exact IH.
Qed.

Lemma has_column_false l df :
  has_column l df = false <-> get_col l df = None.
Proof.
  pose proof (has_column_get l df) as H.
  destruct (has_column l df), (get_col l df); split; intros; try reflexivity;
    try discriminate.
  - exfalso. apply (proj1 H); reflexivity.
  - exfalso. assert (false = true) by (apply H; discriminate). discriminate.
Qed.

Lemma lookup_In l c cs : lookup l cs = Some c -> In (l, c) cs.
Proof.
  induction cs as [|[l2 c2] cs IH]; simpl; [discriminate|].
  destruct (String.eqb l l2) eqn:E.
  - apply String.eqb_eq in E; subst. intros [= ->]. now left.
  - intros H; right; auto.
Qed.

Lemma get_col_length l c df :
  frame_ok df -> get_col l df = Some c -> length c = nrows df.
Proof.
  intros [_ Hlen] H. apply lookup_In in H.
  rewrite Forall_forall in Hlen. exact (Hlen _ H).
Qed.

Lemma cell_not_empty l i x df :
  frame_ok df -> cell l i df = Some x -> empty df = false.
Proof.
  intros Hok H. unfold cell in H.
  destruct (get_col l df) as [c|] eqn:E; [|discriminate].
  pose proof (get_col_length _ _ _ Hok E) as Hlen.
  assert (i < length c)%nat by (apply nth_error_Some; congruence).
  unfold empty. destruct df as [n cs]; simpl in *.
  destruct cs; [discriminate|].
  rewrite orb_false_r. apply Nat.eqb_neq. lia.
Qed.

Lemma empty_rename_columns f df : empty (rename_columns f df) = empty df.
Proof. destruct df as [n [|c cs]]; reflexivity. Qed.

Lemma empty_set_col l c df : empty df = false -> empty (set_col l c df) = false.
Proof.
  destruct df as [n cs]; unfold empty; simpl.
  destruct (n =? 0)%nat; simpl; [discriminate|].
  destruct cs as [|[l2 c2] cs]; simpl; [discriminate|].
  now destruct (String.eqb l l2).
Qed.

Lemma nth_error_loc_assign mask x c i :
  length mask = length c ->
  nth_error (loc_assign mask x c) i =
  match nth_error mask i, nth_error c i with
  | Some true, Some _ => Some x
  | _, o => o
  end.
Proof.
  revert c i; induction mask as [|m mask IH]; intros [|y c] i Hlen;
    try discriminate.
  - destruct i; reflexivity.
  - destruct i as [|i]; simpl.
    + now destruct m.
    + apply IH. simpl in Hlen. lia.
Qed.

Lemma length_loc_assign mask x c : length (loc_assign mask x c) = length c.
Proof.
  revert c; induction mask as [|m mask IH]; intros [|y c]; simpl; auto.
Qed.

Lemma loc_assign_idem mask x c :
  loc_assign mask x (loc_assign mask x c) = loc_assign mask x c.
Proof.
  revert c; induction mask as [|m mask IH]; intros [|y c]; simpl; auto.
  rewrite IH. now destruct m.
Qed.

(** ** Status classification *)

Lemma service_clean_status_two_valued x :
  Service.clean_status x = STARTED \/ Service.clean_status x = NOT_STARTED.
Proof.
  unfold Service.clean_status.
  destruct (_ && _); [now left|]. destruct (Text.contains "yes" _); auto.
Qed.

Lemma service_clean_status_spec x :
  Service.clean_status x = STARTED <-> Spec.started_text x.
Proof.
  unfold Service.clean_status, Spec.started_text; cbv zeta.
  set (s := Text.strip (Text.lower (str x))).
  rewrite <- not_contains_Substring, <- !contains_Substring.
  destruct (Text.contains "started" s), (Text.contains "not" s),
    (Text.contains "yes" s); simpl; split; intros H;
    try reflexivity; try discriminate; try tauto;
    try (now left); try (now right);
    destruct H as [[? ?]|?]; discriminate.
Qed.

Lemma simple_clean_status_two_valued x :
  Simple.clean_status x = STARTED \/ Simple.clean_status x = NOT_STARTED.
Proof. unfold Simple.clean_status. destruct (_ || _); auto. Qed.

Lemma simple_clean_status_spec x :
  Simple.clean_status x = STARTED <-> Spec.start_or_yes_text x.
Proof.
  unfold Simple.clean_status, Spec.start_or_yes_text; cbv zeta.
  rewrite <- !contains_Substring, <- orb_true_iff.
  destruct (_ || _); split; intros; try reflexivity; discriminate.
Qed.

(** ** The stages of [normalize_dataframe], column by column *)

Ltac other_label := rewrite get_set_neq by reflexivity.

Lemma service_add_completion_get l d :
  String.eqb l "Is_Completed" = false ->
  String.eqb l "Completion_Status" = false ->
  get_col l (Service.add_completion d) = get_col l d.
Proof.
  intros H1 H2. unfold Service.add_completion, set_scalar.
  destruct (get_col "Completed_Date" d); now rewrite !get_set_neq.
Qed.

Lemma simple_add_completion_get l d :
  String.eqb l "Is_Completed" = false ->
  String.eqb l "Completion_Status" = false ->
  get_col l (Simple.add_completion d) = get_col l d.
Proof.
  intros H1 H2. unfold Simple.add_completion.
  destruct (get_col "Completed_Date" d); [now rewrite !get_set_neq | easy].
Qed.

Lemma service_cross_verify_get l d :
  String.eqb l "Status_Clean" = false ->
  get_col l (Service.cross_verify d) = get_col l d.
Proof.
  intros H. unfold Service.cross_verify.
  destruct (get_col "Started_Date" d), (get_col "Status_Clean" d);
    try reflexivity. now rewrite get_set_neq.
Qed.

Lemma service_classify_get l df :
  String.eqb l "Status_Clean" = false ->
  get_col l (Service.classify df) = get_col l (Service.renamed df).
Proof.
  intros H. unfold Service.classify; cbv zeta.
  destruct (get_col "Status" (Service.renamed df)); [|reflexivity].
  now rewrite get_set_neq.
Qed.

Lemma simple_classify_get l df :
  String.eqb l "Status_Clean" = false ->
  get_col l (Simple.classify df) = get_col l (Simple.renamed df).
Proof.
  intros H. unfold Simple.classify; cbv zeta.
  destruct (get_col "Status" (Simple.renamed df)); [|reflexivity].
  now rewrite get_set_neq.
Qed.

Lemma service_empty_renamed df : empty (Service.renamed df) = empty df.
Proof. apply empty_rename_columns. Qed.

Lemma simple_rename_if_present_empty df on :
  empty (Simple.rename_if_present df on) = empty df.
Proof.
  unfold Simple.rename_if_present.
  destruct (has_column (fst on) df); [apply empty_rename_columns | reflexivity].
Qed.

Lemma simple_empty_renamed df : empty (Simple.renamed df) = empty df.
Proof.
  unfold Simple.renamed. generalize Simple.column_mapping as m.
  intros m; revert df; induction m as [|on m IH]; intros df; simpl;
    [reflexivity|].
  now rewrite IH, simple_rename_if_present_empty.
Qed.

Lemma cell_get l i x df :
  cell l i df = Some x ->
  exists c, get_col l df = Some c /\ nth_error c i = Some x.
Proof.
  unfold cell. destruct (get_col l df) as [c|]; [|discriminate].
  intros H; now exists c.
Qed.

Lemma length_astype_str c : length (astype_str c) = length c.
Proof. apply length_map. Qed.

Lemma nth_error_astype_str c i :
  nth_error (astype_str c) i = option_map (text_in c) (nth_error c i).
Proof. apply nth_error_map. Qed.

(** The final [Status_Clean] of a record of the URL variant: the start date
    decides when it is recorded, the status text otherwise. *)
Lemma service_status_clean_cell df i x :
  frame_ok (Service.renamed df) ->
  cell "Status" i (Service.renamed df) = Some x ->
  cell "Status_Clean" i (Service.normalize_dataframe df) =
  Some (match cell_text "Started_Date" i (Service.renamed df) with
        | Some t =>
            if Service.has_start_date t then STARTED
            else Service.clean_status x
        | None => Service.clean_status x
        end).
Proof.
  intros Hok Hx.
  pose proof (cell_not_empty _ _ _ _ Hok Hx) as Hne.
  rewrite service_empty_renamed in Hne.
  unfold Service.normalize_dataframe. rewrite Hne.
  destruct (cell_get _ _ _ _ Hx) as [st [Hst Hi]].
  unfold cell at 1. rewrite service_add_completion_get by reflexivity.
  unfold Service.cross_verify, Service.classify; cbv zeta. rewrite Hst.
  other_label. rewrite get_set_eq. unfold cell, cell_text.
  destruct (get_col "Started_Date" (Service.renamed df)) as [sd|] eqn:Hsd.
  - rewrite get_set_eq.
    pose proof (get_col_length _ _ _ Hok Hsd) as L1.
    pose proof (get_col_length _ _ _ Hok Hst) as L2.
    rewrite nth_error_loc_assign
      by (rewrite !length_map, length_astype_str; congruence).
    rewrite !nth_error_map, Hi. simpl.
    assert (i < length (astype_str sd))%nat as Hlt.
    { rewrite length_astype_str, L1, <- L2. apply nth_error_Some. congruence. }
    apply nth_error_Some in Hlt.
    destruct (nth_error (astype_str sd) i) as [t|]; [|congruence]. simpl.
    now destruct (Service.has_start_date t).
  - rewrite get_set_eq, nth_error_map, Hi. reflexivity.
Qed.

Lemma service_classified_cell df i x :
  cell "Status" i (Service.renamed df) = Some x ->
  cell "Status_Clean" i (Service.classify df) = Some (Service.clean_status x).
Proof.
  intros Hx. destruct (cell_get _ _ _ _ Hx) as [st [Hst Hi]].
  unfold cell, Service.classify; cbv zeta. rewrite Hst, get_set_eq.
  now rewrite nth_error_map, Hi.
Qed.

Lemma simple_status_clean_cell df i x :
  frame_ok (Simple.renamed df) ->
  cell "Status" i (Simple.renamed df) = Some x ->
  cell "Status_Clean" i (Simple.normalize_dataframe df) =
  Some (Simple.clean_status x).
Proof.
  intros Hok Hx.
  pose proof (cell_not_empty _ _ _ _ Hok Hx) as Hne.
  rewrite simple_empty_renamed in Hne.
  unfold Simple.normalize_dataframe. rewrite Hne.
  destruct (cell_get _ _ _ _ Hx) as [st [Hst Hi]].
  unfold cell. rewrite simple_add_completion_get by reflexivity.
  unfold Simple.classify; cbv zeta. rewrite Hst, get_set_eq.
  now rewrite nth_error_map, Hi.
Qed.

Ltac frame_ok_tac :=
  split; [repeat constructor; simpl; intuition discriminate
         | repeat constructor].

(** ** C1: the status classification *)

(** C1, as the code has it.  In both variants every record of a table with a
    status column gets a [Status_Clean] that is 'Started' or 'Not Started'.
    In the URL variant, before the cross-verification, it is 'Started' exactly
    when the lower-cased, trimmed status text contains 'started' without
    containing 'not', or contains 'yes'.  In the file variant it is 'Started'
    exactly when the lower-cased status text contains 'start' or contains
    'yes'. *)
Theorem status_clean_classification :
  (forall df i x,
      frame_ok (Service.renamed df) ->
      cell "Status" i (Service.renamed df) = Some x ->
      Spec.two_valued (cell "Status_Clean" i (Service.normalize_dataframe df))
      /\ Spec.two_valued (cell "Status_Clean" i (Service.classify df))
      /\ (cell "Status_Clean" i (Service.classify df) = Some STARTED <->
          Spec.started_text x))
  /\
  (forall df i x,
      frame_ok (Simple.renamed df) ->
      cell "Status" i (Simple.renamed df) = Some x ->
      Spec.two_valued (cell "Status_Clean" i (Simple.normalize_dataframe df))
      /\ (cell "Status_Clean" i (Simple.normalize_dataframe df) = Some STARTED
          <-> Spec.start_or_yes_text x)).
Proof.
  split; intros df i x Hok Hx.
  - rewrite (service_status_clean_cell _ _ _ Hok Hx).
    rewrite (service_classified_cell _ _ _ Hx).
    unfold Spec.two_valued. repeat split.
    + destruct (cell_text "Started_Date" i (Service.renamed df)) as [t|];
        [destruct (Service.has_start_date t); [now left|]|];
        destruct (service_clean_status_two_valued x) as [-> | ->]; auto.
    + destruct (service_clean_status_two_valued x) as [-> | ->]; auto.
    + intros [= H]. now apply service_clean_status_spec.
    + intros H. apply service_clean_status_spec in H. now rewrite H.
  - rewrite (simple_status_clean_cell _ _ _ Hok Hx).
    unfold Spec.two_valued. repeat split.
    + destruct (simple_clean_status_two_valued x) as [-> | ->]; auto.
    + intros [= H]. now apply simple_clean_status_spec.
    + intros H. apply simple_clean_status_spec in H. now rewrite H.
Qed.

Lemma status_clean_classification_witness :
  Spec.two_valued
    (cell "Status_Clean" 1
       (Service.normalize_dataframe Examples.three_records_url)) /\
  Spec.two_valued
    (cell "Status_Clean" 1
       (Simple.normalize_dataframe Examples.three_records_csv)).
Proof.
  split.
  - apply (proj1 status_clean_classification
             Examples.three_records_url 1%nat (VStr "not started")).
    + frame_ok_tac.
    + reflexivity.
  - apply (proj2 status_clean_classification
             Examples.three_records_csv 1%nat (VStr "not started")).
    + frame_ok_tac.
    + reflexivity.
Defined.

(** C1 as stated fails in the file variant: the status text "Not Started"
    contains 'not' and no 'yes', and yet is classified 'Started'. *)
Lemma status_rule_fails_in_file_variant :
  frame_ok (Simple.renamed Examples.labelled_not_started_csv) /\
  cell "Status" 0 (Simple.renamed Examples.labelled_not_started_csv) =
    Some (VStr "Not Started") /\
  cell "Status_Clean" 0
    (Simple.normalize_dataframe Examples.labelled_not_started_csv) =
    Some STARTED /\
  ~ Spec.started_text (VStr "Not Started").
Proof.
  split; [frame_ok_tac|]. split; [reflexivity|]. split; [reflexivity|].
  rewrite <- service_clean_status_spec. discriminate.
Qed.

(** ** C2: the completion flag *)

Lemma service_completed_date_get df :
  get_col "Completed_Date" (Service.cross_verify (Service.classify df)) =
  get_col "Completed_Date" (Service.renamed df).
Proof.
  rewrite service_cross_verify_get, service_classify_get; reflexivity.
Qed.

Lemma service_is_completed_cell df i x :
  frame_ok (Service.renamed df) ->
  cell "Completed_Date" i (Service.renamed df) = Some x ->
  cell "Is_Completed" i (Service.normalize_dataframe df) =
  Some (Service.is_completed x).
Proof.
  intros Hok Hx.
  pose proof (cell_not_empty _ _ _ _ Hok Hx) as Hne.
  rewrite service_empty_renamed in Hne.
  unfold Service.normalize_dataframe. rewrite Hne.
  destruct (cell_get _ _ _ _ Hx) as [c [Hc Hi]].
  unfold cell, Service.add_completion.
  rewrite service_completed_date_get, Hc.
  other_label. rewrite get_set_eq. now rewrite nth_error_map, Hi.
Qed.

Lemma service_is_completed_default df i :
  empty df = false ->
  get_col "Completed_Date" (Service.renamed df) = None ->
  (i < nrows df)%nat ->
  cell "Is_Completed" i (Service.normalize_dataframe df) = Some (VBool false).
Proof.
  intros Hne Hc Hi.
  unfold Service.normalize_dataframe. rewrite Hne.
  unfold cell, Service.add_completion.
  rewrite service_completed_date_get, Hc. unfold set_scalar.
  other_label. rewrite get_set_eq.
  assert (nrows (Service.cross_verify (Service.classify df)) = nrows df) as ->.
  { unfold Service.cross_verify, Service.classify; cbv zeta.
    repeat match goal with |- context [match ?o with _ => _ end] =>
      destruct o end; reflexivity. }
  apply nth_error_repeat. exact Hi.
Qed.

Lemma simple_is_completed_cell df i x :
  frame_ok (Simple.renamed df) ->
  cell "Completed_Date" i (Simple.renamed df) = Some x ->
  cell "Is_Completed" i (Simple.normalize_dataframe df) =
  Some (Simple.is_completed x).
Proof.
  intros Hok Hx.
  pose proof (cell_not_empty _ _ _ _ Hok Hx) as Hne.
  rewrite simple_empty_renamed in Hne.
  unfold Simple.normalize_dataframe. rewrite Hne.
  destruct (cell_get _ _ _ _ Hx) as [c [Hc Hi]].
  unfold cell, Simple.add_completion.
  rewrite simple_classify_get by reflexivity. rewrite Hc.
  other_label. rewrite get_set_eq. now rewrite nth_error_map, Hi.
Qed.

Lemma simple_is_completed_absent df :
  empty df = false ->
  get_col "Completed_Date" (Simple.renamed df) = None ->
  get_col "Is_Completed" (Simple.normalize_dataframe df) =
  get_col "Is_Completed" (Simple.renamed df).
Proof.
  intros Hne Hc. unfold Simple.normalize_dataframe. rewrite Hne.
  unfold Simple.add_completion.
  rewrite simple_classify_get by reflexivity. rewrite Hc.
  now rewrite simple_classify_get.
Qed.

Lemma truthy_recorded_iff x :
  Spec.text_or_missing x ->
  (Spec.truthy_completion_recorded x <-> Spec.completion_recorded x).
Proof.
  unfold Spec.truthy_completion_recorded, Spec.completion_recorded.
  destruct x as [s| | | |]; simpl; try contradiction; intros _.
  - destruct s as [|c s]; simpl; [|tauto].
    split; intros [H1 H2]; [discriminate | exfalso; apply H2; now left].
  - split; intros [H _]; discriminate.
  - split; intros [H1 H2]; [|discriminate].
    exfalso; apply H2. right; now left.
Qed.

Lemma service_is_completed_spec x b :
  Service.is_completed x = VBool b ->
  (b = true <-> Spec.truthy_completion_recorded x).
Proof.
  unfold Service.is_completed, Spec.truthy_completion_recorded.
  rewrite <- mem_In. change [""; "nan"; "None"; "NaT"] with Spec.sentinels.
  remember (Text.mem (Text.strip (str x)) Spec.sentinels) as m.
  intros [= <-]. rewrite andb_true_iff, negb_true_iff.
  destruct m; intuition congruence.
Qed.

Lemma simple_is_completed_spec x b :
  Simple.is_completed x = VBool b ->
  (b = true <-> Spec.present_not_empty_text x).
Proof.
  unfold Simple.is_completed, Spec.present_not_empty_text, ne_text.
  intros [= <-]. rewrite andb_true_iff, negb_true_iff.
  destruct x as [s| | | |]; simpl; try (intuition congruence).
  destruct (String.eqb_spec s ""); subst; intuition congruence.
Qed.

(** C2, as the code has it.  URL variant: with a completion-date column,
    [Is_Completed] is true exactly when the value is truthy and its string
    cast, trimmed of white space as [str.strip] does (the white space of
    Unicode), is none of "", "nan", "None", "NaT"; on a cell that holds text
    or is missing this is the condition of the claim; the example yields
    [true, false, false]; without the column, [Is_Completed] is false for
    every record of a non-empty table.  File variant: with the column,
    [Is_Completed] is true exactly when the value is present and is not the
    empty text; without it, no [Is_Completed] column is written. *)
Theorem is_completed_derivation :
  (forall df i x,
      frame_ok (Service.renamed df) ->
      cell "Completed_Date" i (Service.renamed df) = Some x ->
      exists b,
        cell "Is_Completed" i (Service.normalize_dataframe df) = Some (VBool b)
        /\ (b = true <-> Spec.truthy_completion_recorded x)
        /\ (Spec.text_or_missing x ->
            (b = true <-> Spec.completion_recorded x)))
  /\
  (forall df i,
      empty df = false ->
      get_col "Completed_Date" (Service.renamed df) = None ->
      (i < nrows df)%nat ->
      cell "Is_Completed" i (Service.normalize_dataframe df) =
      Some (VBool false))
  /\
  get_col "Is_Completed" (Service.normalize_dataframe Examples.three_records_url)
  = Some [VBool true; VBool false; VBool false]
  /\
  (forall df i x,
      frame_ok (Simple.renamed df) ->
      cell "Completed_Date" i (Simple.renamed df) = Some x ->
      exists b,
        cell "Is_Completed" i (Simple.normalize_dataframe df) = Some (VBool b)
        /\ (b = true <-> Spec.present_not_empty_text x))
  /\
  (forall df,
      empty df = false ->
      get_col "Completed_Date" (Simple.renamed df) = None ->
      get_col "Is_Completed" (Simple.normalize_dataframe df) =
      get_col "Is_Completed" (Simple.renamed df)).
Proof.
  repeat split.
  - intros df i x Hok Hx.
    rewrite (service_is_completed_cell _ _ _ Hok Hx).
    eexists; split; [reflexivity|].
    split; [now apply service_is_completed_spec|].
    intros Ht. rewrite <- (truthy_recorded_iff _ Ht).
    now apply service_is_completed_spec.
  - apply service_is_completed_default.
  - intros df i x Hok Hx.
    rewrite (simple_is_completed_cell _ _ _ Hok Hx).
    eexists; split; [reflexivity|]. now apply simple_is_completed_spec.
  - apply simple_is_completed_absent.
Qed.

Lemma is_completed_derivation_witness :
  exists b,
    cell "Is_Completed" 2
      (Service.normalize_dataframe Examples.three_records_url) =
    Some (VBool b) /\
    (b = true <-> Spec.truthy_completion_recorded (VStr "NaT")) /\
    (Spec.text_or_missing (VStr "NaT") ->
     (b = true <-> Spec.completion_recorded (VStr "NaT"))).
Proof.
  apply (proj1 is_completed_derivation Examples.three_records_url 2%nat).
  - frame_ok_tac.
  - reflexivity.
Defined.

(** C2 as stated fails in the file variant: the completion dates
    "2023-01-01", "", "NaT" yield [true, false, true], "NaT" being a sentinel
    of the claim. *)
Lemma completion_example_fails_in_file_variant :
  frame_ok (Simple.renamed Examples.three_records_csv) /\
  get_col "Completed_Date" (Simple.renamed Examples.three_records_csv) =
    Some [VStr "2023-01-01"; VStr ""; VStr "NaT"] /\
  get_col "Is_Completed"
    (Simple.normalize_dataframe Examples.three_records_csv) =
    Some [VBool true; VBool false; VBool true] /\
  ~ Spec.completion_recorded (VStr "NaT").
Proof.
  split; [frame_ok_tac|]. split; [reflexivity|]. split; [reflexivity|].
  intros [_ H]. apply H. simpl. tauto.
Qed.

(** ** C3: the start date overrides the status text *)

Lemma has_start_date_spec t :
  Service.has_start_date t = true <-> Spec.start_date_recorded t.
Proof. apply Nat.ltb_lt. Qed.

(** C3, as the code has it.  URL variant: in a table with a status column, a
    record whose start date has a string representation (the text
    [astype(str)] gives the cell) that, trimmed of white space, is longer than
    4 characters ends with [Status_Clean = 'Started'], whatever the status
    text; so does the record with start date "2024-03-01" and status "Not
    Started".  File variant: the start date is not consulted, the status
    text alone decides; the record of the example still ends 'Started', its
    status text containing 'start'. *)
Theorem start_date_override :
  (forall df i status date,
      frame_ok (Service.renamed df) ->
      cell "Status" i (Service.renamed df) = Some status ->
      cell_text "Started_Date" i (Service.renamed df) = Some date ->
      Spec.start_date_recorded date ->
      cell "Status_Clean" i (Service.normalize_dataframe df) = Some STARTED)
  /\
  cell "Status_Clean" 0
    (Service.normalize_dataframe Examples.labelled_not_started_url) =
  Some STARTED
  /\
  (forall df i status,
      frame_ok (Simple.renamed df) ->
      cell "Status" i (Simple.renamed df) = Some status ->
      cell "Status_Clean" i (Simple.normalize_dataframe df) =
      Some (Simple.clean_status status))
  /\
  cell "Status_Clean" 0
    (Simple.normalize_dataframe Examples.labelled_not_started_csv) =
  Some STARTED.
Proof.
  repeat split.
  - intros df i status date Hok Hs Hd Hrec.
    rewrite (service_status_clean_cell _ _ _ Hok Hs), Hd.
    apply has_start_date_spec in Hrec. now rewrite Hrec.
  - apply simple_status_clean_cell.
Qed.

Lemma start_date_override_witness :
  cell "Status_Clean" 0
    (Service.normalize_dataframe Examples.labelled_not_started_url) =
  Some STARTED.
Proof.
  apply (proj1 start_date_override Examples.labelled_not_started_url 0%nat
           (VStr "Not Started") "2024-03-01").
  - frame_ok_tac.
  - reflexivity.
  - reflexivity.
  - unfold Spec.start_date_recorded. simpl. lia.
Defined.

(** C3 as stated fails in the file variant: a record with the start date
    "2024-03-01" and the status "Pending" ends 'Not Started'. *)
Lemma start_date_ignored_in_file_variant :
  frame_ok (Simple.renamed Examples.pending_csv) /\
  cell_text "Started_Date" 0 (Simple.renamed Examples.pending_csv) =
    Some "2024-03-01" /\
  Spec.start_date_recorded "2024-03-01" /\
  cell "Status_Clean" 0 (Simple.normalize_dataframe Examples.pending_csv) =
    Some NOT_STARTED /\
  Some NOT_STARTED <> Some STARTED.
Proof.
  split; [frame_ok_tac|]. split; [reflexivity|].
  split; [unfold Spec.start_date_recorded; simpl; lia|].
  split; [reflexivity | discriminate].
Qed.

(** ** Rounding and rates *)

Lemma round_half_even_lower (q : Q) (lo : Z) :
  (inject_Z lo <= q)%Q -> lo <= round_half_even q.
Proof.
  intros H. unfold round_half_even.
  assert (lo <= Qfloor q) as Hf.
  { rewrite <- (Qfloor_Z lo). now apply Qfloor_resp_le. }
  destruct (_ ?= _)%Q; [destruct (Z.even _)| |]; lia.
Qed.

Lemma round_half_even_upper (q : Q) (hi : Z) :
  (q <= inject_Z hi)%Q -> round_half_even q <= hi.
Proof.
  intros H. unfold round_half_even.
  pose proof (Qfloor_le q) as Hfl.
  assert (Qfloor q <= hi) as Hf.
  { rewrite Zle_Qle. lra. }
  assert ((1 # 2 <= q - inject_Z (Qfloor q))%Q -> Qfloor q + 1 <= hi) as Hup.
  { intros Hr. destruct (Z_lt_le_dec (Qfloor q) hi) as [|Hge]; [lia|].
    rewrite Zle_Qle in Hge. lra. }
  destruct (Qcompare_spec (q - inject_Z (Qfloor q)) (1 # 2)) as [He|Hl|Hg].
  - destruct (Z.even _); [lia|]. apply Hup. rewrite He. lra.
  - lia.
  - apply Hup. lra.
Qed.

Lemma percent_nonneg (n d : Z) : 0 <= n -> 0 < d -> (0 <= percent n d)%Q.
Proof.
  intros Hn Hd. unfold percent, round1.
  assert (0 <= round_half_even (inject_Z n / inject_Z d * 100 * 10)) as H.
  { apply round_half_even_lower.
    assert (0 <= inject_Z n / inject_Z d)%Q as Hq.
    { apply Qle_shift_div_l.
      - change 0%Q with (inject_Z 0). rewrite <- Zlt_Qlt. lia.
      - rewrite Qmult_0_l. change 0%Q with (inject_Z 0).
        rewrite <- Zle_Qle. lia. }
    change (inject_Z 0) with 0%Q. lra. }
  unfold Qle; simpl. lia.
Qed.

Lemma percent_le_100 (n d : Z) : n <= d -> 0 < d -> (percent n d <= 100)%Q.
Proof.
  intros Hn Hd. unfold percent, round1.
  assert (round_half_even (inject_Z n / inject_Z d * 100 * 10) <= 1000) as H.
  { apply round_half_even_upper.
    assert (inject_Z n / inject_Z d <= 1)%Q as Hq.
    { apply Qle_shift_div_r.
      - change 0%Q with (inject_Z 0). rewrite <- Zlt_Qlt. lia.
      - rewrite Qmult_1_l. rewrite <- Zle_Qle. lia. }
    change (inject_Z 1000) with 1000%Q. lra. }
  unfold Qle; simpl. lia.
Qed.

Lemma rate_or_zero_nonneg (n d : Z) : 0 <= n -> (0 <= rate_or_zero n d)%Q.
Proof.
  intros Hn. unfold rate_or_zero. destruct (Z.ltb_spec 0 d).
  - now apply percent_nonneg.
  - apply Qle_refl.
Qed.

Lemma rate_or_zero_le_100 (n d : Z) : n <= d -> (rate_or_zero n d <= 100)%Q.
Proof.
  intros Hn. unfold rate_or_zero. destruct (Z.ltb_spec 0 d).
  - now apply percent_le_100.
  - discriminate.
Qed.

Lemma rate_or_zero_zero (n d : Z) : d <= 0 -> rate_or_zero n d = 0%Q.
Proof.
  intros Hd. unfold rate_or_zero. destruct (Z.ltb_spec 0 d); [lia|reflexivity].
Qed.

(** ** Counting *)

Lemma count_text_bounds t c : 0 <= count_text t c <= Z.of_nat (length c).
Proof.
  unfold count_text. pose proof (filter_length_le (eq_text t) c). lia.
Qed.

Lemma count_notna_bounds c : 0 <= count_notna c <= Z.of_nat (length c).
Proof.
  unfold count_notna. pose proof (filter_length_le notna c). lia.
Qed.

Lemma column_sum_booleans c :
  Forall (fun x => exists b, x = VBool b) c ->
  exists s, column_sum c = Ok s /\ sum_as_int c = Ok s /\
            0 <= s <= Z.of_nat (length c) /\
            s = Z.of_nat (length (filter truthy c)).
Proof.
  induction 1 as [|x c [b ->] _ [s [H1 [H2 [H3 H4]]]]].
  - exists 0. simpl. repeat split; lia.
  - exists (Z.b2z b + s). cbn [column_sum sum_as_int]. rewrite H1, H2.
    cbn [filter truthy].
    repeat split; destruct b; simpl length; simpl Z.b2z; lia.
Qed.

(** ** Sorting *)

Section SortingFacts.
Context {A : Type} (key : A -> Z).

Lemma insert_desc_perm x l : Permutation (insert_desc key x l) (x :: l).
Proof.
  induction l as [|y l IH]; simpl; [reflexivity|].
  destruct (key y <=? key x); [reflexivity|].
  rewrite IH. apply perm_swap.
Qed.

Lemma sort_desc_perm l : Permutation (sort_desc key l) l.
Proof.
  induction l as [|x l IH]; simpl; [reflexivity|].
  rewrite insert_desc_perm. now constructor.
Qed.

Lemma insert_desc_sorted x l :
  Sorted (fun a b => key b <= key a) l ->
  Sorted (fun a b => key b <= key a) (insert_desc key x l).
Proof.
  induction 1 as [|y l Hs IH Hhd]; simpl; [repeat constructor|].
  destruct (Z.leb_spec (key y) (key x)) as [Hle|Hgt].
  - repeat constructor; assumption.
  - constructor; [exact IH|].
    destruct l as [|z l]; simpl.
    + constructor. lia.
    + inversion Hhd; subst.
      destruct (key z <=? key x); constructor; lia.
Qed.

Lemma sort_desc_sorted l :
  Sorted (fun a b => key b <= key a) (sort_desc key l).
Proof.
  induction l as [|x l IH]; simpl; [constructor|].
  now apply insert_desc_sorted.
Qed.

Lemma sort_desc_In x l : In x (sort_desc key l) <-> In x l.
Proof.
  split; apply Permutation_in;
    [apply sort_desc_perm | symmetry; apply sort_desc_perm].
Qed.
End SortingFacts.

(** ** The breakdowns *)

Lemma map_result_Forall2 {A B : Type} (f : A -> result B) l rs :
  map_result f l = Ok rs <-> Forall2 (fun a b => f a = Ok b) l rs.
Proof.
  revert rs; induction l as [|a l IH]; intros rs; simpl.
  - split; [intros [= <-]; constructor | inversion 1; reflexivity].
  - split.
    + destruct (f a) as [b|e] eqn:Ha; simpl; [|discriminate].
      destruct (map_result f l) as [bs|e]; simpl; [|discriminate].
      intros [= <-]. constructor; [assumption | now apply IH].
    + inversion 1 as [|? b ? bs Hb Hbs]; subst.
      rewrite Hb; simpl. apply IH in Hbs. now rewrite Hbs.
Qed.

Lemma Forall2_In_r {A B : Type} (R : A -> B -> Prop) l rs b :
  Forall2 R l rs -> In b rs -> exists a, In a l /\ R a b.
Proof.
  induction 1 as [|a b' l rs Hab _ IH]; simpl; [contradiction|].
  intros [<-|Hin].
  - exists a; auto.
  - destruct (IH Hin) as [a' [? ?]]. exists a'; auto.
Qed.

Lemma Forall2_In_l {A B : Type} (R : A -> B -> Prop) l rs a :
  Forall2 R l rs -> In a l -> exists b, In b rs /\ R a b.
Proof.
  induction 1 as [|a' b l rs Hab _ IH]; simpl; [contradiction|].
  intros [<-|Hin].
  - exists b; auto.
  - destruct (IH Hin) as [b' [? ?]]. exists b'; auto.
Qed.

Lemma require_Ok l df c : require l df = Ok c <-> get_col l df = Some c.
Proof.
  unfold require. destruct (get_col l df); split; intros [= ->]; reflexivity.
Qed.

Lemma breakdown_inv tutor sum label df rows :
  breakdown tutor sum label df = Ok rows ->
  ((empty df = true \/ has_column label df = false) /\ rows = []) \/
  exists keys names status done cstatus unsorted,
    empty df = false /\
    get_col label df = Some keys /\
    get_col "Student_Name" df = Some names /\
    get_col "Status_Clean" df = Some status /\
    get_col "Is_Completed" df = Some done /\
    Forall2 (Spec.row_of tutor sum keys names status done cstatus)
      (group_keys keys) unsorted /\
    rows = sort_desc Total_Students unsorted.
Proof.
  unfold breakdown.
  destruct (empty df) eqn:He; simpl; [intros [= <-]; left; auto|].
  destruct (has_column label df); simpl; [|intros [= <-]; left; auto].
  destruct (require label df) as [keys|] eqn:Hk; simpl; [|discriminate].
  destruct (require "Student_Name" df) as [names|] eqn:Hn; simpl;
    [|discriminate].
  destruct (require "Status_Clean" df) as [status|] eqn:Hs; simpl;
    [|discriminate].
  destruct (require "Is_Completed" df) as [done|] eqn:Hd; simpl;
    [|discriminate].
  destruct (if tutor then require "Completion_Status" df else Ok [])
    as [cstatus|] eqn:Hc; simpl; [|discriminate].
  destruct (map_result _ (group_keys keys)) as [unsorted|] eqn:Hm; simpl;
    [|discriminate].
  intros [= <-]. right.
  exists keys, names, status, done, cstatus, unsorted.
  apply require_Ok in Hk, Hn, Hs, Hd.
  repeat split; try assumption.
  apply map_result_Forall2 in Hm.
  eapply Forall2_impl; [|exact Hm].
  intros k r Hr. cbv beta zeta in Hr.
  destruct (sum (group_cells k keys done)) as [c|] eqn:Hsum; simpl in Hr;
    [|discriminate].
  injection Hr as <-. unfold Spec.row_of; simpl. repeat split; assumption.
Qed.

(** ** C4 and C10: the summary *)

(** What [calculate_kpis] returns when it returns. *)
Lemma calculate_kpis_fields df k :
  calculate_kpis df = Ok (Some k) ->
  empty df = false /\
  total_students k = Z.of_nat (nrows df) /\
  started k =
    match get_col "Status_Clean" df with
    | Some c => count_text "Started" c
    | None => 0
    end /\
  not_started k = total_students k - started k /\
  match get_col "Is_Completed" df with
  | Some c => column_sum c = Ok (completed k)
  | None => completed k = 0
  end /\
  in_progress k = started k - completed k /\
  start_rate k = percent (started k) (total_students k) /\
  completion_rate k = percent (completed k) (total_students k) /\
  started k + not_started k = total_students k /\
  completed k + in_progress k = started k.
Proof.
  unfold calculate_kpis. destruct (empty df) eqn:He; [discriminate|].
  assert ((0 <? Z.of_nat (nrows df)) = true) as Hpos.
  { apply Z.ltb_lt. unfold empty in He. apply orb_false_iff in He.
    destruct He as [He _]. apply Nat.eqb_neq in He. lia. }
  rewrite Hpos.
  destruct (get_col "Is_Completed" df) as [c|];
    [destruct (column_sum c) as [s|]; [|discriminate]|];
    cbn [bind];
    (destruct (top_value "Tutor" df); [|discriminate]);
    (destruct (top_value "Team" df); [|discriminate]);
    (destruct (top_value "Course" df); [|discriminate]);
    cbn [bind]; intros [= <-]; cbn; repeat split; lia.
Qed.

Lemma value_counts_nonempty c x :
  In x c -> notna x = true -> value_counts c <> [].
Proof.
  intros Hin Hx. unfold value_counts.
  set (l := map _ (group_keys c)).
  assert (l <> []) as Hl.
  { subst l. unfold group_keys.
    assert (In x (nodup value_eq_dec (filter notna c))) as H
      by (apply nodup_In, filter_In; auto).
    destruct (nodup value_eq_dec (filter notna c)); [contradiction|].
    discriminate. }
  intros Hs. apply Hl.
  apply Permutation_nil. rewrite <- Hs. apply sort_desc_perm.
Qed.

Lemma top_value_returns l df :
  (forall c, get_col l df = Some c ->
             exists x, In x c /\ notna x = true) ->
  exists s, top_value l df = Ok s.
Proof.
  intros H. unfold top_value.
  destruct (get_col l df) as [c|]; [|eauto].
  destruct (length c =? 0)%nat; [eauto|].
  destruct (H c eq_refl) as [x [Hin Hx]].
  pose proof (value_counts_nonempty c x Hin Hx) as Hne.
  destruct (value_counts c) as [|[v n] vs]; [congruence|eauto].
Qed.

(** When [calculate_kpis] returns: the table is not empty, its
    [Is_Completed] cells are booleans, and each of the [Tutor], [Team] and
    [Course] columns that exists has a cell that is not missing. *)
Lemma calculate_kpis_returns df :
  empty df = false ->
  Spec.boolean_column "Is_Completed" df ->
  (forall l, In l ["Tutor"; "Team"; "Course"] ->
     forall c, get_col l df = Some c -> exists x, In x c /\ notna x = true) ->
  exists k, calculate_kpis df = Ok (Some k).
Proof.
  intros He Hb Htop. unfold calculate_kpis. rewrite He.
  assert (exists s,
            match get_col "Is_Completed" df with
            | Some c => column_sum c
            | None => Ok 0
            end = Ok s) as [s ->].
  { destruct (get_col "Is_Completed" df) as [c|] eqn:E; [|eauto].
    destruct (column_sum_booleans _ (Hb _ E)) as [s [H _]]. eauto. }
  cbn [bind].
  destruct (top_value_returns "Tutor" df) as [t1 ->];
    [apply Htop; simpl; auto|].
  destruct (top_value_returns "Team" df) as [t2 ->];
    [apply Htop; simpl; auto|].
  destruct (top_value_returns "Course" df) as [t3 ->];
    [apply Htop; simpl; auto|].
  cbn [bind]. eauto.
Qed.

(** C4 at a table whose only record has no tutor: the [Tutor] column is there
    and has a row, [value_counts()] skips the missing cell and is empty, and
    [index[0]] raises instead of the summary being returned.  Both variants. *)
Theorem kpis_raise_without_any_tutor :
  empty (Service.normalize_dataframe Examples.unassigned_url) = false /\
  calculate_kpis (Service.normalize_dataframe Examples.unassigned_url) =
    Raise IndexError /\
  empty (Simple.normalize_dataframe Examples.unassigned_csv) = false /\
  calculate_kpis (Simple.normalize_dataframe Examples.unassigned_csv) =
    Raise IndexError.
Proof. repeat split. Qed.

(** C10: for a single record with a completion date, no start date and a
    status text that classifies as 'Not Started', [calculate_kpis] returns
    [started = 0], [completed = 1] and [in_progress = -1].  Both variants. *)
Theorem in_progress_can_be_negative :
  (exists k,
      calculate_kpis
        (Service.normalize_dataframe Examples.completed_unstarted_url) =
      Ok (Some k) /\
      cell "Status_Clean" 0
        (Service.normalize_dataframe Examples.completed_unstarted_url) =
      Some NOT_STARTED /\
      total_students k = 1 /\ started k = 0 /\ completed k = 1 /\
      in_progress k = (-1) /\ in_progress k < 0)
  /\
  (exists k,
      calculate_kpis
        (Simple.normalize_dataframe Examples.completed_unstarted_csv) =
      Ok (Some k) /\
      cell "Status_Clean" 0
        (Simple.normalize_dataframe Examples.completed_unstarted_csv) =
      Some NOT_STARTED /\
      total_students k = 1 /\ started k = 0 /\ completed k = 1 /\
      in_progress k = (-1) /\ in_progress k < 0).
Proof.
  split;
    exists {| total_students := 1;
              started := 0;
              not_started := 1;
              completed := 1;
              in_progress := -1;
              start_rate := (0 # 10)%Q;
              completion_rate := (1000 # 10)%Q;
              top_tutor := "N/A";
              top_team := "N/A";
              top_course := "N/A" |};
    (split; [vm_compute; reflexivity|]);
    (split; [vm_compute; reflexivity|]);
    cbn [total_students started completed in_progress]; repeat split; lia.
Qed.

(** ** C5: the range of the rates *)

Lemma group_cells_incl k keys c x : In x (group_cells k keys c) -> In x c.
Proof.
  unfold group_cells. rewrite in_map_iff.
  intros [[y z] [<- H]]. apply filter_In in H. destruct H as [H _].
  now apply in_combine_r in H.
Qed.

Lemma group_cells_Forall (P : value -> Prop) k keys c :
  Forall P c -> Forall P (group_cells k keys c).
Proof.
  rewrite !Forall_forall. intros H x Hx. eauto using group_cells_incl.
Qed.

Lemma group_cells_length k keys c :
  length keys = length c ->
  length (group_cells k keys c) =
  length (filter (fun y => value_eqb y k) keys).
Proof.
  unfold group_cells. rewrite length_map.
  revert c; induction keys as [|y keys IH]; intros [|z c] Hlen;
    try discriminate; [reflexivity|].
  simpl. destruct (value_eqb y k); simpl; rewrite IH; auto.
Qed.

Lemma row_counts tutor sum keys names status done cstatus k r :
  sum = column_sum \/ sum = sum_as_int ->
  Forall (fun x => exists b, x = VBool b) done ->
  Spec.row_of tutor sum keys names status done cstatus k r ->
  0 <= Total_Students r /\ 0 <= Started r /\ 0 <= Completed r.
Proof.
  intros Hsum Hb (Hc & _ & Ht & Hs & _).
  rewrite Ht, Hs.
  pose proof (count_notna_bounds (group_cells k keys names)).
  pose proof (count_text_bounds "Started" (group_cells k keys status)).
  destruct (column_sum_booleans _ (group_cells_Forall _ k keys _ Hb))
    as [s [H1 [H2 [H3 _]]]].
  destruct Hsum; subst sum; rewrite Hc in *;
    [injection H1 as ->|injection H2 as ->]; lia.
Qed.

Lemma row_started_le_total tutor sum keys names status done cstatus k r :
  length keys = length names ->
  length keys = length status ->
  Forall (fun x => notna x = true) names ->
  Spec.row_of tutor sum keys names status done cstatus k r ->
  Started r <= Total_Students r.
Proof.
  intros Ln Ls Hn (_ & _ & Ht & Hs & _). rewrite Ht, Hs.
  pose proof (count_text_bounds "Started" (group_cells k keys status)) as H.
  rewrite (group_cells_length _ _ _ Ls) in H.
  unfold count_notna.
  assert (filter notna (group_cells k keys names) = group_cells k keys names)
    as ->.
  { apply forallb_filter_id. apply forallb_forall.
    apply Forall_forall. now apply group_cells_Forall. }
  rewrite (group_cells_length _ _ _ Ln). lia.
Qed.

Lemma row_rates tutor sum keys names status done cstatus k r :
  sum = column_sum \/ sum = sum_as_int ->
  Forall (fun x => exists b, x = VBool b) done ->
  Spec.row_of tutor sum keys names status done cstatus k r ->
  (0 <= Completion_Rate_pct r)%Q /\
  (Started r = 0 -> Completion_Rate_pct r = 0%Q) /\
  (Completed r <= Started r -> (Completion_Rate_pct r <= 100)%Q) /\
  (forall q, Start_Rate_pct r = Some q ->
     (0 <= q)%Q /\
     (Total_Students r = 0 -> q = 0%Q) /\
     (Started r <= Total_Students r -> (q <= 100)%Q)).
Proof.
  intros Hsum Hb Hrow.
  destruct (row_counts _ _ _ _ _ _ _ _ _ Hsum Hb Hrow) as (Ht & Hs & Hc).
  destruct Hrow as (_ & _ & _ & _ & _ & Hsr & Hcr).
  rewrite Hcr. repeat split.
  - now apply rate_or_zero_nonneg.
  - intros H0. apply rate_or_zero_zero. lia.
  - apply rate_or_zero_le_100.
  - rewrite Hsr in H. destruct tutor; [|discriminate].
    injection H as <-. now apply rate_or_zero_nonneg.
  - rewrite Hsr in H. destruct tutor; [|discriminate].
    injection H as <-. intros H0. apply rate_or_zero_zero. lia.
  - rewrite Hsr in H. destruct tutor; [|discriminate].
    injection H as <-. apply rate_or_zero_le_100.
Qed.

Lemma breakdown_rates tutor sum label df rows r :
  sum = column_sum \/ sum = sum_as_int ->
  frame_ok df ->
  Spec.boolean_column "Is_Completed" df ->
  breakdown tutor sum label df = Ok rows ->
  In r rows ->
  (0 <= Completion_Rate_pct r)%Q /\
  (Started r = 0 -> Completion_Rate_pct r = 0%Q) /\
  (Completed r <= Started r -> (Completion_Rate_pct r <= 100)%Q) /\
  (forall q, Start_Rate_pct r = Some q ->
     (0 <= q)%Q /\
     (Total_Students r = 0 -> q = 0%Q) /\
     ((forall names, get_col "Student_Name" df = Some names ->
                     Forall (fun x => notna x = true) names) ->
      (q <= 100)%Q)).
Proof.
  intros Hsum Hok Hb Hbr Hr.
  destruct (breakdown_inv _ _ _ _ _ Hbr) as
    [[_ ->] | (keys & names & status & done & cstatus & unsorted &
               He & Hk & Hn & Hs & Hd & Hrows & ->)]; [contradiction|].
  apply sort_desc_In in Hr.
  destruct (Forall2_In_r _ _ _ _ Hrows Hr) as (k & _ & Hrow).
  destruct (row_rates _ _ _ _ _ _ _ _ _ Hsum (Hb _ Hd) Hrow)
    as (H1 & H2 & H3 & H4).
  repeat split; try assumption; try (now apply H4).
  intros Hnames. apply (H4 q H).
  eapply row_started_le_total; [| | apply (Hnames _ Hn) | exact Hrow].
  - rewrite (get_col_length _ _ _ Hok Hk). symmetry.
    apply (get_col_length _ _ _ Hok Hn).
  - rewrite (get_col_length _ _ _ Hok Hk). symmetry.
    apply (get_col_length _ _ _ Hok Hs).
Qed.

(** [normalize_dataframe] returns well-formed frames. *)

Lemma In_labels_assign l c cs l' :
  In l' (map fst (assign l c cs)) -> l' = l \/ In l' (map fst cs).
Proof.
  induction cs as [|[l2 c2] cs IH]; simpl.
  - intros [<-|[]]; now left.
  - destruct (String.eqb_spec l l2) as [->|Hne]; simpl.
    + intros [<-|H]; auto.
    + intros [<-|H]; auto. destruct (IH H); auto.
Qed.

Lemma frame_ok_set_col l c df :
  frame_ok df -> length c = nrows df -> frame_ok (set_col l c df).
Proof.
  intros [Hnd Hlen] Hc. destruct df as [n cs]; unfold frame_ok, labels in *;
    simpl in *. split.
  - induction cs as [|[l2 c2] cs IH]; simpl.
    + repeat constructor. intros [].
    + inversion Hnd as [|? ? Hnin Hnd']; subst.
      inversion Hlen as [|? ? _ Hlen']; subst.
      destruct (String.eqb_spec l l2) as [->|Hne]; simpl.
      * now constructor.
      * constructor; [|now apply IH].
        intros Hin. apply In_labels_assign in Hin. destruct Hin; auto.
  - induction Hlen as [|[l2 c2] cs Hx Hlen IH]; simpl.
    + repeat constructor. exact Hc.
    + inversion Hnd; subst.
      destruct (String.eqb l l2); constructor; auto.
Qed.

Lemma service_nrows_status df :
  nrows (Service.cross_verify (Service.classify df)) = nrows df.
Proof.
  unfold Service.cross_verify, Service.classify; cbv zeta.
  repeat match goal with |- context [match ?o with _ => _ end] =>
    destruct o end; reflexivity.
Qed.

Lemma service_classify_frame_ok df :
  frame_ok (Service.renamed df) -> frame_ok (Service.classify df).
Proof.
  intros Hok. unfold Service.classify; cbv zeta.
  destruct (get_col "Status" (Service.renamed df)) as [st|] eqn:Hst;
    [|exact Hok].
  apply frame_ok_set_col; [exact Hok|].
  rewrite length_map. now apply get_col_length with (l := "Status").
Qed.

Lemma service_cross_verify_frame_ok d :
  frame_ok d -> frame_ok (Service.cross_verify d).
Proof.
  intros Hok. unfold Service.cross_verify.
  destruct (get_col "Started_Date" d) as [sd|]; [|exact Hok].
  destruct (get_col "Status_Clean" d) as [sc|] eqn:Hsc; [|exact Hok].
  apply frame_ok_set_col; [exact Hok|].
  rewrite length_loc_assign. now apply get_col_length with (l := "Status_Clean").
Qed.

Lemma service_add_completion_frame_ok d :
  frame_ok d -> frame_ok (Service.add_completion d).
Proof.
  intros Hok. unfold Service.add_completion, set_scalar.
  destruct (get_col "Completed_Date" d) as [c|] eqn:Hc.
  - pose proof (get_col_length _ _ _ Hok Hc) as Hlen.
    apply frame_ok_set_col; [apply frame_ok_set_col|]; try assumption;
      rewrite ?length_map; assumption.
  - apply frame_ok_set_col; [apply frame_ok_set_col|]; try assumption;
      simpl; now rewrite repeat_length.
Qed.

Lemma service_normalize_frame_ok df :
  empty df = false ->
  frame_ok (Service.renamed df) ->
  frame_ok (Service.normalize_dataframe df).
Proof.
  intros He Hok. unfold Service.normalize_dataframe. rewrite He.
  now apply service_add_completion_frame_ok, service_cross_verify_frame_ok,
    service_classify_frame_ok.
Qed.

Lemma booleans_map (f : value -> value) c :
  (forall x, exists b, f x = VBool b) ->
  Forall (fun x => exists b, x = VBool b) (map f c).
Proof.
  intros Hf. induction c; simpl; constructor; auto.
Qed.

Lemma service_normalize_boolean df :
  empty df = false ->
  Spec.boolean_column "Is_Completed" (Service.normalize_dataframe df).
Proof.
  intros He c. unfold Service.normalize_dataframe. rewrite He.
  unfold Service.add_completion, set_scalar.
  destruct (get_col "Completed_Date" _) as [cd|].
  - other_label. rewrite get_set_eq. intros [= <-].
    apply booleans_map. intros x. unfold Service.is_completed. eauto.
  - other_label. rewrite get_set_eq. intros [= <-].
    apply Forall_forall. intros x Hx. apply repeat_spec in Hx. eauto.
Qed.

Lemma kpis_rates df k :
  frame_ok df ->
  Spec.boolean_column "Is_Completed" df ->
  calculate_kpis df = Ok (Some k) ->
  Spec.percentage (start_rate k) /\ Spec.percentage (completion_rate k).
Proof.
  intros Hok Hb Hk.
  destruct (calculate_kpis_fields _ _ Hk)
    as (He & Ht & Hs & _ & Hc & _ & Hsr & Hcr & _).
  assert (0 < total_students k) as Hpos.
  { rewrite Ht. unfold empty in He. apply orb_false_iff in He.
    destruct He as [He _]. apply Nat.eqb_neq in He. lia. }
  assert (0 <= started k <= total_students k) as Hst.
  { rewrite Hs, Ht.
    destruct (get_col "Status_Clean" df) as [c|] eqn:E; [|lia].
    rewrite <- (get_col_length _ _ _ Hok E). apply count_text_bounds. }
  assert (0 <= completed k <= total_students k) as Hco.
  { rewrite Ht.
    destruct (get_col "Is_Completed" df) as [c|] eqn:E; [|lia].
    destruct (column_sum_booleans _ (Hb _ E)) as [s [H1 [_ [H3 _]]]].
    rewrite H1 in Hc. injection Hc as <-.
    rewrite <- (get_col_length _ _ _ Hok E). exact H3. }
  rewrite Hsr, Hcr. unfold Spec.percentage.
  repeat split;
    (apply percent_nonneg; lia) || (apply percent_le_100; lia).
Qed.

(** C5, as the code has it.  For a table whose [Is_Completed] cells are
    booleans, as [normalize_dataframe] writes them: [start_rate] and
    [completion_rate] of [calculate_kpis] lie in [0, 100]; in every row of the
    three breakdowns of both variants [Completion_Rate_%] and [Start_Rate_%]
    are at least 0 and are exactly 0 on a zero denominator;
    [Completion_Rate_%] is at most 100 when the group has no more completed
    than started records; [Start_Rate_%] is at most 100 when no record lacks
    a student name. *)
Theorem rates_between_0_and_100 :
  (forall df k,
      frame_ok df ->
      Spec.boolean_column "Is_Completed" df ->
      calculate_kpis df = Ok (Some k) ->
      Spec.percentage (start_rate k) /\ Spec.percentage (completion_rate k))
  /\
  (forall f df rows r,
      In f [ Service.create_tutor_performance;
             Service.create_team_performance;
             Service.create_course_analysis;
             Simple.create_tutor_performance;
             Simple.create_team_performance;
             Simple.create_course_analysis ] ->
      frame_ok df ->
      Spec.boolean_column "Is_Completed" df ->
      f df = Ok rows ->
      In r rows ->
      (0 <= Completion_Rate_pct r)%Q /\
      (Started r = 0 -> Completion_Rate_pct r = 0%Q) /\
      (Completed r <= Started r -> (Completion_Rate_pct r <= 100)%Q) /\
      (forall q, Start_Rate_pct r = Some q ->
         (0 <= q)%Q /\
         (Total_Students r = 0 -> q = 0%Q) /\
         ((forall names, get_col "Student_Name" df = Some names ->
                         Forall (fun x => notna x = true) names) ->
          (q <= 100)%Q))).
Proof.
  split; [exact kpis_rates|].
  intros f df rows r Hf Hok Hb Hrows Hr.
  simpl in Hf.
  destruct Hf as [<-|[<-|[<-|[<-|[<-|[<-|[]]]]]]];
    (eapply breakdown_rates; [| exact Hok | exact Hb | exact Hrows | exact Hr]);
    auto.
Qed.

Lemma rates_between_0_and_100_witness :
  exists k,
    calculate_kpis (Service.normalize_dataframe Examples.three_records_url) =
    Ok (Some k) /\
    Spec.percentage (start_rate k) /\ Spec.percentage (completion_rate k).
Proof.
  eexists. split; [reflexivity|].
  apply (proj1 rates_between_0_and_100
           (Service.normalize_dataframe Examples.three_records_url)).
  - apply service_normalize_frame_ok; [reflexivity | frame_ok_tac].
  - apply service_normalize_boolean. reflexivity.
  - reflexivity.
Defined.

(** C5 as stated fails: the tutor of three records, one started and two
    completed without having started, gets [Completion_Rate_% = 200.0]. *)
Lemma completion_rate_exceeds_100 :
  exists r,
    Service.create_tutor_performance
      (Service.normalize_dataframe Examples.late_completions_url) = Ok [r] /\
    Total_Students r = 3 /\ Started r = 1 /\ Completed r = 2 /\
    Completion_Rate_pct r = (2000 # 10)%Q /\
    ~ Spec.percentage (Completion_Rate_pct r).
Proof.
  exists {| Key := VStr "Ravi";
            Total_Students := 3;
            Started := 1;
            Completed := 2;
            In_Progress := Some 1;
            Start_Rate_pct := Some (333 # 10)%Q;
            Completion_Rate_pct := (2000 # 10)%Q |}.
  split; [vm_compute; reflexivity|]. cbn [Total_Students Started Completed
    Completion_Rate_pct]. repeat split.
  intros [_ H]. revert H. unfold Qle. cbn. lia.
Qed.

(** ** C6: the rows of a breakdown *)

Lemma value_eqb_eq v w : value_eqb v w = true <-> v = w.
Proof.
  unfold value_eqb. destruct (value_eq_dec v w); split; congruence.
Qed.

Lemma group_keys_In keys v :
  In v (group_keys keys) <-> In v keys /\ notna v = true.
Proof. unfold group_keys. now rewrite nodup_In, filter_In. Qed.

Lemma group_keys_NoDup keys : NoDup (group_keys keys).
Proof. apply NoDup_nodup. Qed.

Lemma list_sum_indicator_in (a : value) (n : nat) K :
  NoDup K -> In a K ->
  list_sum (map (fun k => if value_eqb a k then n else 0%nat) K) = n.
Proof.
  induction 1 as [|k K Hnin Hnd IH]; simpl; [contradiction|].
  intros [->|Hin].
  - assert (value_eqb a a = true) as -> by now apply value_eqb_eq.
    assert (list_sum (map (fun k => if value_eqb a k then n else 0%nat) K)
            = 0%nat) as ->; [|lia].
    clear IH Hnd. induction K as [|k K IH]; simpl; [reflexivity|].
    destruct (value_eqb a k) eqn:E.
    + apply value_eqb_eq in E. subst. exfalso. apply Hnin. now left.
    + apply IH. intros H. apply Hnin. now right.
  - destruct (value_eqb a k) eqn:E.
    + apply value_eqb_eq in E. subst. contradiction.
    + now apply IH.
Qed.

Lemma list_sum_indicator_out (a : value) (n : nat) K :
  ~ In a K ->
  list_sum (map (fun k => if value_eqb a k then n else 0%nat) K) = 0%nat.
Proof.
  induction K as [|k K IH]; simpl; [reflexivity|].
  intros Hnin. destruct (value_eqb a k) eqn:E.
  - apply value_eqb_eq in E. subst. exfalso. apply Hnin. now left.
  - apply IH. intros H. apply Hnin. now right.
Qed.

Lemma list_sum_map_add {A : Type} (f g : A -> nat) l :
  list_sum (map (fun a => f a + g a)%nat l) =
  (list_sum (map f l) + list_sum (map g l))%nat.
Proof. induction l as [|a l IH]; simpl; [reflexivity|]. rewrite IH. lia. Qed.

(** Each record with a key and a name is counted in exactly one group. *)
Lemma group_totals (K : list value) (ps : list (value * value)) :
  NoDup K ->
  (forall k, In k K -> notna k = true) ->
  (forall kn, In kn ps -> notna (fst kn) = true -> In (fst kn) K) ->
  list_sum
    (map (fun k =>
            length (filter notna
                      (map snd (filter (fun kc => value_eqb (fst kc) k) ps))))
       K) =
  length (filter (fun kn => notna (fst kn) && notna (snd kn)) ps).
Proof.
  intros Hnd HK. induction ps as [|[a b] ps IH]; intros Hin.
  - simpl. clear Hnd HK Hin. induction K; simpl; auto.
  - rewrite (map_ext _
      (fun k => ((if value_eqb a k then (if notna b then 1 else 0) else 0) +
                 length (filter notna
                   (map snd (filter (fun kc => value_eqb (fst kc) k) ps))))%nat)).
    2:{ intros k. simpl. destruct (value_eqb a k); simpl; [|reflexivity].
        destruct (notna b); reflexivity. }
    rewrite list_sum_map_add, IH by (intros kn H; apply Hin; now right).
    simpl. destruct (notna a) eqn:Ha; simpl.
    + rewrite list_sum_indicator_in; [destruct (notna b); reflexivity| |];
        [exact Hnd | now apply (Hin (a, b)); [left|]].
    + rewrite list_sum_indicator_out; [reflexivity|].
      intros H. apply HK in H. congruence.
Qed.

Lemma sum_totals_perm rows rows' :
  Permutation rows rows' -> Spec.sum_totals rows = Spec.sum_totals rows'.
Proof.
  unfold Spec.sum_totals. induction 1; simpl; lia.
Qed.

Lemma rows_keys tutor sum keys names status done cstatus K rows :
  Forall2 (Spec.row_of tutor sum keys names status done cstatus) K rows ->
  map Key rows = K /\
  Spec.sum_totals rows =
  Z.of_nat (list_sum
    (map (fun k => length (filter notna (group_cells k keys names))) K)).
Proof.
  induction 1 as [|k r K rows (_ & Hk & Ht & _) _ [IH1 IH2]]; simpl.
  - split; reflexivity.
  - split; [now rewrite Hk, IH1|].
    rewrite IH2, Ht. unfold count_notna. lia.
Qed.

Lemma map_result_total {A B : Type} (f : A -> result B) l :
  (forall a, In a l -> exists b, f a = Ok b) ->
  exists bs, map_result f l = Ok bs.
Proof.
  induction l as [|a l IH]; intros H; simpl; [now exists []|].
  destruct (H a (or_introl eq_refl)) as [b ->].
  destruct IH as [bs ->]; [intros; apply H; now right|].
  simpl. now exists (b :: bs).
Qed.

(** With its columns in place, a breakdown returns. *)
Lemma breakdown_returns tutor sum label df :
  sum = column_sum \/ sum = sum_as_int ->
  empty df = false ->
  has_column label df = true ->
  has_column "Student_Name" df = true ->
  has_column "Status_Clean" df = true ->
  has_column "Is_Completed" df = true ->
  (tutor = true -> has_column "Completion_Status" df = true) ->
  Spec.boolean_column "Is_Completed" df ->
  exists rows, breakdown tutor sum label df = Ok rows.
Proof.
  intros Hsum He Hl Hn Hs Hd Hc Hb. unfold breakdown, require.
  rewrite He, Hl. simpl.
  apply has_column_get in Hl, Hn, Hs, Hd.
  destruct (get_col label df) as [keys|]; [|congruence].
  destruct (get_col "Student_Name" df) as [names|]; [|congruence].
  destruct (get_col "Status_Clean" df) as [status|]; [|congruence].
  destruct (get_col "Is_Completed" df) as [done|] eqn:Hdone; [|congruence].
  cbn [bind].
  assert (exists cstatus,
            (if tutor then
               match get_col "Completion_Status" df with
               | Some c => Ok c
               | None => Raise (KeyError "Completion_Status")
               end
             else Ok []) = Ok cstatus) as [cstatus ->].
  { destruct tutor; [|now exists []].
    specialize (Hc eq_refl). apply has_column_get in Hc.
    destruct (get_col "Completion_Status" df) as [c|]; [now exists c|].
    congruence. }
  cbn [bind].
  match goal with |- context [map_result ?f ?l] =>
    destruct (map_result_total f l) as [rows ->] end.
  - intros k _.
    destruct (column_sum_booleans _
                (group_cells_Forall _ k keys _ (Hb _ Hdone)))
      as [s [H1 [H2 _]]].
    destruct Hsum; subst sum; rewrite ?H1, ?H2; simpl; eauto.
  - simpl. eauto.
Qed.

Lemma keyed_and_named_all keys names :
  length keys = length names ->
  Forall (fun x => notna x = true) keys ->
  Forall (fun x => notna x = true) names ->
  Spec.keyed_and_named keys names = Z.of_nat (length keys).
Proof.
  unfold Spec.keyed_and_named. intros Hlen Hk. revert names Hlen.
  induction Hk as [|k keys Hk _ IH]; intros [|n names] Hlen Hn;
    try discriminate; [reflexivity|].
  inversion Hn as [|? ? Hn1 Hn2]; subst. simpl. rewrite Hk, Hn1. simpl.
  f_equal. f_equal. injection Hlen as Hlen.
  specialize (IH names Hlen Hn2). lia.
Qed.

Lemma breakdown_rows tutor sum label df rows keys names :
  breakdown tutor sum label df = Ok rows ->
  empty df = false ->
  get_col label df = Some keys ->
  get_col "Student_Name" df = Some names ->
  NoDup (map Key rows) /\
  (forall v, In v (map Key rows) <-> In v keys /\ notna v = true) /\
  length rows = length (nodup value_eq_dec (filter notna keys)) /\
  Spec.sum_totals rows = Spec.keyed_and_named keys names /\
  Spec.descending rows.
Proof.
  intros Hbr He Hk Hn.
  destruct (breakdown_inv _ _ _ _ _ Hbr) as
    [[[H|H] _] | (keys' & names' & status & done & cstatus & unsorted &
                  _ & Hk' & Hn' & _ & _ & Hrows & ->)].
  - congruence.
  - apply has_column_false in H. congruence.
  - assert (keys' = keys) as -> by congruence.
    assert (names' = names) as -> by congruence.
    destruct (rows_keys _ _ _ _ _ _ _ _ _ Hrows) as [Hkeys Hsum].
    pose proof (sort_desc_perm Total_Students unsorted) as Hperm.
    assert (Permutation (map Key (sort_desc Total_Students unsorted))
              (group_keys keys)) as Hpk.
    { rewrite <- Hkeys. now apply Permutation_map. }
    split; [|split; [|split; [|split]]].
    + apply (Permutation_NoDup (Permutation_sym Hpk)), group_keys_NoDup.
    + intros v. rewrite <- group_keys_In. split; apply Permutation_in;
        [exact Hpk | exact (Permutation_sym Hpk)].
    + rewrite (Permutation_length Hperm), <- (length_map Key), Hkeys.
      reflexivity.
    + rewrite (sum_totals_perm _ _ Hperm), Hsum.
      unfold Spec.keyed_and_named, group_cells. f_equal.
      apply group_totals.
      * apply group_keys_NoDup.
      * intros k Hin. now apply group_keys_In in Hin.
      * intros [a b] Hin Ha. apply group_keys_In. split; [|exact Ha].
        now apply in_combine_l in Hin.
    + apply sort_desc_sorted.
Qed.

(** C6, as the code has it.  For a non-empty table with the columns the
    aggregation reads and boolean [Is_Completed] cells, each of the three
    breakdowns of both variants returns a table that has exactly one row per
    distinct non-null value of the grouping column, whose [Total_Students]
    sum to the number of records that have both a group key and a student
    name (the record count of the table when no key and no name is missing),
    and whose rows are in descending order of [Total_Students]. *)
Theorem breakdown_rows_totals_order :
  forall f label df keys names,
    In (f, label)
       [ (Service.create_tutor_performance, "Tutor");
         (Service.create_team_performance, "Team");
         (Service.create_course_analysis, "Course");
         (Simple.create_tutor_performance, "Tutor");
         (Simple.create_team_performance, "Team");
         (Simple.create_course_analysis, "Course") ] ->
    empty df = false ->
    frame_ok df ->
    Spec.boolean_column "Is_Completed" df ->
    get_col label df = Some keys ->
    get_col "Student_Name" df = Some names ->
    has_column "Status_Clean" df = true ->
    has_column "Is_Completed" df = true ->
    has_column "Completion_Status" df = true ->
    exists rows,
      f df = Ok rows /\
      NoDup (map Key rows) /\
      (forall v, In v (map Key rows) <-> In v keys /\ notna v = true) /\
      length rows = length (nodup value_eq_dec (filter notna keys)) /\
      Spec.sum_totals rows = Spec.keyed_and_named keys names /\
      (Forall (fun x => notna x = true) keys ->
       Forall (fun x => notna x = true) names ->
       Spec.sum_totals rows = Z.of_nat (nrows df)) /\
      Spec.descending rows.
Proof.
  intros f label df keys names Hf He Hok Hb Hk Hn Hs Hd Hc.
  assert (has_column label df = true) as Hl
    by (apply has_column_get; congruence).
  assert (has_column "Student_Name" df = true) as Hn'
    by (apply has_column_get; congruence).
  assert (forall tutor sum,
             sum = column_sum \/ sum = sum_as_int ->
             f = breakdown tutor sum label ->
             exists rows, f df = Ok rows /\
               NoDup (map Key rows) /\
               (forall v, In v (map Key rows) <-> In v keys /\ notna v = true) /\
               length rows = length (nodup value_eq_dec (filter notna keys)) /\
               Spec.sum_totals rows = Spec.keyed_and_named keys names /\
               (Forall (fun x => notna x = true) keys ->
                Forall (fun x => notna x = true) names ->
                Spec.sum_totals rows = Z.of_nat (nrows df)) /\
               Spec.descending rows) as Hgen.
  { intros tutor sum Hsum ->.
    destruct (breakdown_returns tutor sum label df Hsum He Hl Hn' Hs Hd
                (fun _ => Hc) Hb) as [rows Hrows].
    exists rows. split; [exact Hrows|].
    destruct (breakdown_rows _ _ _ _ _ _ _ Hrows He Hk Hn)
      as (H1 & H2 & H3 & H4 & H5).
    repeat (split; [assumption|]). split; [|assumption].
    intros Hak Han. rewrite H4.
    rewrite keyed_and_named_all; try assumption.
    - now rewrite (get_col_length _ _ _ Hok Hk).
    - rewrite (get_col_length _ _ _ Hok Hk).
      symmetry. apply (get_col_length _ _ _ Hok Hn). }
  simpl in Hf.
  destruct Hf as [[= <- <-]|[[= <- <-]|[[= <- <-]|[[= <- <-]|[[= <- <-]|
                 [[= <- <-]|[]]]]]]];
    (eapply Hgen; [|reflexivity]); auto.
Qed.

Lemma breakdown_rows_totals_order_witness :
  exists rows,
    Service.create_tutor_performance
      (Service.normalize_dataframe Examples.late_completions_url) = Ok rows /\
    length rows = 1%nat /\
    Spec.sum_totals rows = 3 /\
    Spec.descending rows.
Proof.
  destruct (breakdown_rows_totals_order
              Service.create_tutor_performance "Tutor"
              (Service.normalize_dataframe Examples.late_completions_url)
              [VStr "Ravi"; VStr "Ravi"; VStr "Ravi"]
              [VStr "Asha"; VStr "Binu"; VStr "Chitra"])
    as (rows & H1 & _ & _ & H2 & H3 & _ & H4); try reflexivity.
  - left; reflexivity.
  - apply service_normalize_frame_ok; [reflexivity | frame_ok_tac].
  - apply service_normalize_boolean; reflexivity.
  - exists rows. repeat split; assumption.
Defined.

(** C6 as stated fails: of two records, one without a tutor, the tutor
    breakdown counts one; the totals sum to 1, the table has 2 records. *)
Lemma totals_miss_unassigned_records :
  exists rows,
    Service.create_tutor_performance
      (Service.normalize_dataframe Examples.one_unassigned_url) = Ok rows /\
    Spec.sum_totals rows = 1 /\
    Z.of_nat (nrows (Service.normalize_dataframe Examples.one_unassigned_url))
    = 2 /\
    Spec.sum_totals rows <>
    Z.of_nat (nrows (Service.normalize_dataframe Examples.one_unassigned_url)).
Proof.
  eexists. split; [reflexivity|]. repeat split. discriminate.
Qed.

(** ** C7: missing columns *)

(** Without rows or without the grouping column a breakdown is empty. *)
Lemma breakdown_without_group tutor sum label df :
  empty df = true \/ has_column label df = false ->
  breakdown tutor sum label df = Ok [].
Proof.
  unfold breakdown. intros [-> | ->]; [reflexivity|].
  now rewrite orb_true_r.
Qed.

(** C7 at a CSV file that has a tutor column and no completion-date column:
    [normalize_dataframe] of the file variant writes no [Is_Completed], and
    the aggregation of [create_tutor_performance] raises [KeyError].  In the
    URL variant the same happens on a document without student names. *)
Theorem breakdown_raises_on_missing_column :
  empty (Simple.normalize_dataframe Examples.no_completion_csv) = false /\
  has_column "Tutor" (Simple.normalize_dataframe Examples.no_completion_csv)
  = true /\
  Simple.create_tutor_performance
    (Simple.normalize_dataframe Examples.no_completion_csv) =
  Raise (KeyError "Is_Completed") /\
  Service.create_tutor_performance
    (Service.normalize_dataframe Examples.no_name_url) =
  Raise (KeyError "Student_Name").
Proof. repeat split. Qed.

(** ** C8: the source adapters *)

Lemma load_csv_file_contract (file : Type) (read_csv : file -> string + DataFrame)
  (f : file) :
  table_or_error (load_csv_file file read_csv f).
Proof.
  unfold table_or_error, load_csv_file.
  destruct (read_csv f) as [message|df]; [right|left]; eauto.
Qed.

(** [fetch_data_from_sheets] keeps the contract on every response whose
    ["error"] member, when it is consulted, is text. *)
Lemma fetch_contract_on_text_errors DataFrame_of no_get r :
  (forall members e,
      r = Body (JObj members) -> member "data" members = None ->
      member "error" members = Some e -> exists message, e = JStr message) ->
  table_or_error (fetch_data_from_sheets DataFrame_of no_get r).
Proof.
  intros Herr. unfold table_or_error.
  destruct r as [m|m|m|data]; simpl; try (right; eauto; fail).
  destruct data as [| | | | |members]; simpl; try (right; eauto; fail).
  destruct (member "data" members) as [rows|] eqn:Hd.
  - destruct (DataFrame_of rows); [right|left]; eauto.
  - destruct (member "error" members) as [e|] eqn:He; [|right; eauto].
    destruct (Herr members e eq_refl Hd He) as [message ->]. right; eauto.
Qed.

(** C8 at the response body [{"error": null}]: the pair returned is
    [(None, None)], which is neither a table nor an error text. *)
Theorem fetch_passes_on_a_null_error :
  forall DataFrame_of no_get,
    fetch_data_from_sheets DataFrame_of no_get
      (Body (JObj [("error", JNull)])) = (None, JNull) /\
    ~ table_or_error
        (fetch_data_from_sheets DataFrame_of no_get
           (Body (JObj [("error", JNull)]))).
Proof.
  intros DataFrame_of no_get. split; [reflexivity|].
  simpl. intros [[df H] | [message H]]; discriminate.
Qed.

(** ** C9: normalising twice *)

Lemma new_names_fresh_spec m :
  new_names_fresh m = true ->
  forall v, In v (map snd m) -> ~ In v (map fst m).
Proof.
  unfold new_names_fresh. rewrite forallb_forall. intros H v Hv Hk.
  specialize (H v Hv). apply negb_true_iff in H.
  apply mem_In in Hk. congruence.
Qed.

Lemma rename_label_not_key m l :
  ~ In l (map fst m) -> rename_label m l = l.
Proof.
  induction m as [|[o n] m IH]; simpl; [reflexivity|].
  intros H. destruct (String.eqb_spec l o) as [->|Hne].
  - exfalso. apply H. now left.
  - apply IH. intros Hin. apply H. now right.
Qed.

Lemma rename_label_value m l :
  rename_label m l = l \/ In (rename_label m l) (map snd m).
Proof.
  induction m as [|[o n] m IH]; simpl; [now left|].
  destruct (String.eqb l o); [right; now left|].
  destruct IH; [now left | right; now right].
Qed.

Lemma rename_label_idem m l :
  new_names_fresh m = true ->
  rename_label m (rename_label m l) = rename_label m l.
Proof.
  intros Hm. destruct (rename_label_value m l) as [H | Hv];
    [now rewrite !H|].
  apply rename_label_not_key. now apply (new_names_fresh_spec m Hm).
Qed.

(** The labels a function leaves alone. *)
Lemma rename_columns_fixed f df :
  (forall l, In l (labels df) -> f l = l) -> rename_columns f df = df.
Proof.
  destruct df as [n cs]. unfold rename_columns, labels; simpl. intros H.
  f_equal. induction cs as [|[l c] cs IH]; simpl; [reflexivity|].
  rewrite H by now left. f_equal. apply IH. intros l' Hl. apply H. now right.
Qed.

Lemma labels_rename_columns f df :
  labels (rename_columns f df) = map f (labels df).
Proof.
  destruct df as [n cs]. unfold labels; simpl. now rewrite !map_map.
Qed.

Lemma labels_set_col l c df l' :
  In l' (labels (set_col l c df)) -> l' = l \/ In l' (labels df).
Proof. apply In_labels_assign. Qed.

(** *** The URL variant *)

Lemma service_labels_normalized df l :
  In l (labels (Service.add_completion
                  (Service.cross_verify (Service.classify df)))) ->
  In l (labels (Service.renamed df)) \/
  In l ["Status_Clean"; "Is_Completed"; "Completion_Status"].
Proof.
  unfold Service.add_completion, Service.cross_verify, Service.classify,
    set_scalar; cbv zeta.
  repeat match goal with |- context [match ?o with _ => _ end] =>
    destruct o end;
  intros H;
  repeat match goal with
    | H : In _ (labels (set_col _ _ _)) |- _ =>
        apply labels_set_col in H; destruct H as [-> | H]
    end;
  first [left; assumption | right; cbn [In]; auto].
Qed.

Lemma service_renamed_normalized df :
  Service.renamed
    (Service.add_completion (Service.cross_verify (Service.classify df))) =
  Service.add_completion (Service.cross_verify (Service.classify df)).
Proof.
  apply rename_columns_fixed. intros l Hl.
  apply service_labels_normalized in Hl. destruct Hl as [Hl | Hl].
  - unfold Service.renamed in Hl. rewrite labels_rename_columns in Hl.
    apply in_map_iff in Hl. destruct Hl as [l0 [<- _]].
    now apply rename_label_idem.
  - simpl in Hl. destruct Hl as [<-|[<-|[<-|[]]]]; reflexivity.
Qed.

Lemma service_status_stage_again d :
  Service.status_stage (Service.add_completion (Service.status_stage d)) =
  Service.add_completion (Service.status_stage d).
Proof.
  assert (forall l, String.eqb l "Status_Clean" = false ->
                    get_col l (Service.status_stage d) = get_col l d) as Hget.
  { intros l Hl. unfold Service.status_stage.
    rewrite service_cross_verify_get by exact Hl.
    destruct (get_col "Status" d); [now rewrite get_set_neq | reflexivity]. }
  remember (Service.status_stage d) as S eqn:HS.
  unfold Service.status_stage at 1. unfold Service.cross_verify.
  rewrite !service_add_completion_get by reflexivity.
  rewrite (Hget "Status") by reflexivity.
  assert (get_col "Started_Date"
            match get_col "Status" d with
            | Some c =>
                set_col "Status_Clean" (map Service.clean_status c)
                  (Service.add_completion S)
            | None => Service.add_completion S
            end = get_col "Started_Date" d) as ->.
  { destruct (get_col "Status" d).
    - other_label. rewrite service_add_completion_get by reflexivity.
      now apply Hget.
    - rewrite service_add_completion_get by reflexivity. now apply Hget. }
  unfold Service.status_stage, Service.cross_verify in HS.
  destruct (get_col "Status" d) as [st|] eqn:Hst.
  - rewrite get_set_eq. rewrite get_set_neq in HS by reflexivity.
    rewrite get_set_eq in HS.
    destruct (get_col "Started_Date" d) as [sd|].
    + rewrite set_col_set_col. apply set_col_same.
      rewrite service_add_completion_get by reflexivity.
      rewrite HS. apply get_set_eq.
    + apply set_col_same.
      rewrite service_add_completion_get by reflexivity.
      rewrite HS. apply get_set_eq.
  - rewrite service_add_completion_get by reflexivity.
    destruct (get_col "Started_Date" d) as [sd|]; [|reflexivity].
    destruct (get_col "Status_Clean" d) as [sc|] eqn:Hsc.
    + rewrite HS at 1. rewrite get_set_eq, loc_assign_idem.
      apply set_col_same.
      rewrite service_add_completion_get by reflexivity.
      rewrite HS. apply get_set_eq.
    + rewrite HS at 1. now rewrite Hsc.
Qed.

Lemma service_add_completion_idem d :
  Service.add_completion (Service.add_completion d) =
  Service.add_completion d.
Proof.
  unfold Service.add_completion at 1.
  rewrite service_add_completion_get by reflexivity.
  destruct (get_col "Completed_Date" d) as [c|] eqn:Hc.
  - assert (Service.add_completion d =
            set_col "Completion_Status"
              (map completion_status (map Service.is_completed c))
              (set_col "Is_Completed" (map Service.is_completed c) d)) as HA
      by (unfold Service.add_completion; now rewrite Hc).
    rewrite (set_col_same "Is_Completed" _ (Service.add_completion d)).
    + apply set_col_same. rewrite HA. apply get_set_eq.
    + rewrite HA. other_label. apply get_set_eq.
  - assert (Service.add_completion d =
            set_scalar "Completion_Status" IN_PROGRESS
              (set_scalar "Is_Completed" (VBool false) d)) as HA
      by (unfold Service.add_completion; now rewrite Hc).
    unfold set_scalar in *.
    assert (nrows (Service.add_completion d) = nrows d) as Hn
      by (rewrite HA; reflexivity).
    rewrite (set_col_same "Is_Completed" _ (Service.add_completion d)).
    + apply set_col_same. rewrite Hn, HA. apply get_set_eq.
    + rewrite Hn, HA. other_label. apply get_set_eq.
Qed.

Lemma service_empty_normalized df :
  empty df = false ->
  empty (Service.add_completion (Service.cross_verify (Service.classify df)))
  = false.
Proof.
  intros He. rewrite <- service_empty_renamed in He.
  unfold Service.add_completion, Service.cross_verify, Service.classify,
    set_scalar; cbv zeta.
  repeat match goal with |- context [match ?o with _ => _ end] =>
    destruct o end;
  repeat apply empty_set_col; exact He.
Qed.

Lemma service_normalize_idem df :
  Service.normalize_dataframe (Service.normalize_dataframe df) =
  Service.normalize_dataframe df.
Proof.
  unfold Service.normalize_dataframe at 2.
  destruct (empty df) eqn:He.
  - unfold Service.normalize_dataframe. now rewrite He.
  - unfold Service.normalize_dataframe.
    rewrite He, (service_empty_normalized _ He).
    change (Service.cross_verify (Service.classify ?x))
      with (Service.status_stage (Service.renamed x)).
    change (Service.status_stage (Service.renamed df))
      with (Service.cross_verify (Service.classify df)) at 1.
    rewrite service_renamed_normalized.
    change (Service.cross_verify (Service.classify df))
      with (Service.status_stage (Service.renamed df)).
    rewrite service_status_stage_again.
    apply service_add_completion_idem.
Qed.

(** *** The file variant *)

Lemma has_column_In l df : has_column l df = true <-> In l (labels df).
Proof. apply mem_In. Qed.

Lemma simple_labels_rename_if_present df on :
  labels (Simple.rename_if_present df on) =
  map (rename_label [on]) (labels df).
Proof.
  unfold Simple.rename_if_present.
  destruct (has_column (fst on) df) eqn:Hc.
  - apply labels_rename_columns.
  - symmetry. rewrite <- (map_id (labels df)) at 2. apply map_ext_in.
    intros l Hl. destruct on as [o n]; simpl.
    destruct (String.eqb_spec l o) as [->|]; [|reflexivity].
    apply has_column_In in Hl. simpl in Hc. congruence.
Qed.

Lemma simple_labels_renamed m df :
  labels (fold_left Simple.rename_if_present m df) =
  map (Simple.rename_loop_label m) (labels df).
Proof.
  revert df; induction m as [|on m IH]; intros df; simpl.
  - now rewrite map_id.
  - rewrite IH, simple_labels_rename_if_present, map_map. reflexivity.
Qed.

Lemma rename_loop_label_not_key m l :
  ~ In l (map fst m) -> Simple.rename_loop_label m l = l.
Proof.
  unfold Simple.rename_loop_label.
  induction m as [|[o n] m IH]; [reflexivity|].
  cbn [fold_left map fst]. intros H.
  assert (rename_label [(o, n)] l = l) as ->.
  { simpl. destruct (String.eqb_spec l o) as [->|Hne]; [|reflexivity].
    exfalso. apply H. now left. }
  apply IH. intros Hin. apply H. now right.
Qed.

Lemma rename_loop_label_value m l :
  Simple.rename_loop_label m l = l \/
  In (Simple.rename_loop_label m l) (map snd m).
Proof.
  unfold Simple.rename_loop_label.
  revert l; induction m as [|[o n] m IH]; intros l; [now left|].
  cbn [fold_left map snd].
  assert (rename_label [(o, n)] l = n \/ rename_label [(o, n)] l = l)
    as [Hl | Hl] by (simpl; destruct (String.eqb l o); auto);
    rewrite Hl.
  - destruct (IH n) as [He | H]; right; [left; now rewrite He | now right].
  - destruct (IH l) as [He | H]; [now left | right; now right].
Qed.

Lemma rename_loop_label_fresh m l :
  (forall v, In v (map snd m) -> ~ In v (map fst m)) ->
  ~ In (Simple.rename_loop_label m l) (map fst m).
Proof.
  revert l; induction m as [|[o n] m IH]; intros l Hm; [intros []|].
  assert (forall v, In v (map snd m) -> ~ In v (map fst m)) as Hm'.
  { intros v Hv Hk. apply (Hm v); simpl; auto. }
  change (Simple.rename_loop_label ((o, n) :: m) l)
    with (Simple.rename_loop_label m (rename_label [(o, n)] l)).
  set (l' := rename_label [(o, n)] l).
  simpl. intros [Ho | Hin]; [|exact (IH l' Hm' Hin)].
  destruct (rename_loop_label_value m l') as [He | Hv].
  - rewrite He in Ho. subst l'. simpl in Ho.
    destruct (String.eqb_spec l o) as [->|Hne]; [|congruence].
    apply (Hm n); simpl; auto.
  - apply (Hm (Simple.rename_loop_label m l')); simpl; auto.
Qed.

Lemma simple_rename_noop m d :
  (forall on, In on m -> ~ In (fst on) (labels d)) ->
  fold_left Simple.rename_if_present m d = d.
Proof.
  induction m as [|on m IH]; intros H; simpl; [reflexivity|].
  unfold Simple.rename_if_present at 2.
  destruct (has_column (fst on) d) eqn:Hc.
  - apply has_column_In in Hc. exfalso. apply (H on); simpl; auto.
  - apply IH. intros on' Hin. apply H. now right.
Qed.

Lemma simple_labels_normalized df l :
  In l (labels (Simple.add_completion (Simple.classify df))) ->
  In l (labels (Simple.renamed df)) \/
  In l ["Status_Clean"; "Is_Completed"; "Completion_Status"].
Proof.
  unfold Simple.add_completion, Simple.classify; cbv zeta.
  repeat match goal with |- context [match ?o with _ => _ end] =>
    destruct o end;
  intros H;
  repeat match goal with
    | H : In _ (labels (set_col _ _ _)) |- _ =>
        apply labels_set_col in H; destruct H as [-> | H]
    end;
  first [left; assumption | right; cbn [In]; auto].
Qed.

Lemma simple_renamed_normalized df :
  Simple.renamed (Simple.add_completion (Simple.classify df)) =
  Simple.add_completion (Simple.classify df).
Proof.
  apply simple_rename_noop. intros on Hon Hl.
  assert (In (fst on) (map fst Simple.column_mapping)) as Hkey
    by (apply in_map; exact Hon).
  apply simple_labels_normalized in Hl. destruct Hl as [Hl | Hl].
  - unfold Simple.renamed in Hl. rewrite simple_labels_renamed in Hl.
    apply in_map_iff in Hl. destruct Hl as [l0 [Hl0 _]].
    rewrite <- Hl0 in Hkey. revert Hkey. apply rename_loop_label_fresh.
    now apply new_names_fresh_spec.
  - revert Hkey. simpl in Hl.
    destruct Hl as [<-|[<-|[<-|[]]]]; simpl; intuition discriminate.
Qed.

Lemma simple_status_stage_again d :
  Simple.status_stage (Simple.add_completion (Simple.status_stage d)) =
  Simple.add_completion (Simple.status_stage d).
Proof.
  unfold Simple.status_stage at 1.
  rewrite simple_add_completion_get by reflexivity.
  unfold Simple.status_stage at 1.
  destruct (get_col "Status" d) as [st|] eqn:Hst.
  - rewrite get_set_neq by reflexivity. rewrite Hst.
    apply set_col_same. rewrite simple_add_completion_get by reflexivity.
    unfold Simple.status_stage. rewrite Hst. apply get_set_eq.
  - now rewrite Hst.
Qed.

Lemma simple_add_completion_idem d :
  Simple.add_completion (Simple.add_completion d) = Simple.add_completion d.
Proof.
  unfold Simple.add_completion at 1.
  rewrite simple_add_completion_get by reflexivity.
  destruct (get_col "Completed_Date" d) as [c|] eqn:Hc; [|reflexivity].
  assert (Simple.add_completion d =
          set_col "Completion_Status"
            (map completion_status (map Simple.is_completed c))
            (set_col "Is_Completed" (map Simple.is_completed c) d)) as HA
    by (unfold Simple.add_completion; now rewrite Hc).
  rewrite (set_col_same "Is_Completed" _ (Simple.add_completion d)).
  - apply set_col_same. rewrite HA. apply get_set_eq.
  - rewrite HA. other_label. apply get_set_eq.
Qed.

Lemma simple_empty_normalized df :
  empty df = false ->
  empty (Simple.add_completion (Simple.classify df)) = false.
Proof.
  intros He. rewrite <- simple_empty_renamed in He.
  unfold Simple.add_completion, Simple.classify; cbv zeta.
  repeat match goal with |- context [match ?o with _ => _ end] =>
    destruct o end;
  repeat apply empty_set_col; exact He.
Qed.

Lemma simple_classify_stage df :
  Simple.classify df = Simple.status_stage (Simple.renamed df).
Proof. unfold Simple.classify, Simple.status_stage. reflexivity. Qed.

Lemma simple_normalize_idem df :
  Simple.normalize_dataframe (Simple.normalize_dataframe df) =
  Simple.normalize_dataframe df.
Proof.
  unfold Simple.normalize_dataframe at 2.
  destruct (empty df) eqn:He.
  - unfold Simple.normalize_dataframe. now rewrite He.
  - unfold Simple.normalize_dataframe.
    rewrite He, (simple_empty_normalized _ He).
    rewrite (simple_classify_stage
               (Simple.add_completion (Simple.classify df))).
    rewrite simple_renamed_normalized.
    rewrite (simple_classify_stage df).
    rewrite simple_status_stage_again.
    apply simple_add_completion_idem.
Qed.

(** C9: normalising a normalised table changes nothing, in both variants:
    the whole table, hence every canonical column and [Status_Clean],
    [Is_Completed] and [Completion_Status], is the same. *)
Theorem normalize_dataframe_idempotent :
  (forall df,
      Service.normalize_dataframe (Service.normalize_dataframe df) =
      Service.normalize_dataframe df)
  /\
  (forall df,
      Simple.normalize_dataframe (Simple.normalize_dataframe df) =
      Simple.normalize_dataframe df).
Proof.
  split; [exact service_normalize_idem | exact simple_normalize_idem].
Qed.

Example normalize_twice_example :
  Service.normalize_dataframe
    (Service.normalize_dataframe Examples.late_completions_url) =
  Service.normalize_dataframe Examples.late_completions_url /\
  get_col "Status_Clean"
    (Service.normalize_dataframe Examples.late_completions_url) =
  Some [STARTED; NOT_STARTED; NOT_STARTED].
Proof. split; vm_compute; reflexivity. Qed.

(** * Further properties of the two programs *)

(** ** What [normalize_dataframe] keeps *)

Lemma not_derived l :
  ~ In l derived_labels ->
  String.eqb l "Status_Clean" = false /\
  String.eqb l "Is_Completed" = false /\
  String.eqb l "Completion_Status" = false.
Proof.
  unfold derived_labels. simpl. intros H.
  repeat split; apply String.eqb_neq; intros ->; apply H; auto.
Qed.

Lemma simple_nrows_renamed df : nrows (Simple.renamed df) = nrows df.
Proof.
  unfold Simple.renamed. generalize Simple.column_mapping as m.
  intros m; revert df; induction m as [|on m IH]; intros df; [reflexivity|].
  cbn [fold_left]. rewrite IH. unfold Simple.rename_if_present.
  destruct (has_column (fst on) df); reflexivity.
Qed.

Lemma simple_nrows_normalized df :
  nrows (Simple.add_completion (Simple.classify df)) = nrows df.
Proof.
  unfold Simple.add_completion.
  destruct (get_col "Completed_Date" (Simple.classify df));
    rewrite ?nrows_set_col; unfold Simple.classify; cbv zeta;
    destruct (get_col "Status" (Simple.renamed df));
    rewrite ?nrows_set_col; apply simple_nrows_renamed.
Qed.

Lemma service_nrows_normalized df :
  nrows (Service.add_completion (Service.cross_verify (Service.classify df)))
  = nrows df.
Proof.
  rewrite <- (service_nrows_status df).
  unfold Service.add_completion, set_scalar.
  destruct (get_col "Completed_Date" _); reflexivity.
Qed.

(** X1.  The URL variant of [normalize_dataframe] returns an empty table as
    it is, not even renamed.  On any other table it keeps the number of
    records and keeps every renamed source column, cells and all, except
    where the column bears the name of a derived one. *)
Theorem service_normalize_keeps_source_columns :
  forall df,
    (empty df = true -> Service.normalize_dataframe df = df) /\
    nrows (Service.normalize_dataframe df) = nrows df /\
    (empty df = false ->
     forall l c,
       ~ In l derived_labels ->
       get_col l (Service.renamed df) = Some c ->
       get_col l (Service.normalize_dataframe df) = Some c).
Proof.
  intros df. unfold Service.normalize_dataframe.
  destruct (empty df) eqn:He; repeat split; try discriminate; try reflexivity.
  - apply service_nrows_normalized.
  - intros _ l c Hl Hc. destruct (not_derived l Hl) as (H1 & H2 & H3).
    rewrite service_add_completion_get, service_cross_verify_get,
      service_classify_get by assumption.
    exact Hc.
Qed.

Lemma service_normalize_keeps_source_columns_witness :
  get_col "Tutor"
    (Service.normalize_dataframe Examples.late_completions_url) =
  Some [VStr "Ravi"; VStr "Ravi"; VStr "Ravi"].
Proof.
  apply (proj2 (proj2 (service_normalize_keeps_source_columns
                         Examples.late_completions_url))).
  - reflexivity.
  - unfold derived_labels. simpl. intuition discriminate.
  - reflexivity.
Defined.

(** X2.  The file variant of [normalize_dataframe] returns an empty table as
    it is, not even renamed.  On any other table it keeps the number of
    records and keeps every renamed source column, cells and all, except
    where the column bears the name of a derived one. *)
Theorem simple_normalize_keeps_source_columns :
  forall df,
    (empty df = true -> Simple.normalize_dataframe df = df) /\
    nrows (Simple.normalize_dataframe df) = nrows df /\
    (empty df = false ->
     forall l c,
       ~ In l derived_labels ->
       get_col l (Simple.renamed df) = Some c ->
       get_col l (Simple.normalize_dataframe df) = Some c).
Proof.
  intros df. unfold Simple.normalize_dataframe.
  destruct (empty df) eqn:He; repeat split; try discriminate; try reflexivity.
  - apply simple_nrows_normalized.
  - intros _ l c Hl Hc. destruct (not_derived l Hl) as (H1 & H2 & H3).
    rewrite simple_add_completion_get, simple_classify_get by assumption.
    exact Hc.
Qed.

Lemma simple_normalize_keeps_source_columns_witness :
  get_col "Status" (Simple.normalize_dataframe Examples.pending_csv) =
  Some [VStr "Pending"].
Proof.
  apply (proj2 (proj2 (simple_normalize_keeps_source_columns
                         Examples.pending_csv))).
  - reflexivity.
  - unfold derived_labels. simpl. intuition discriminate.
  - reflexivity.
Defined.

(** ** [Completion_Status] follows [Is_Completed] *)

Lemma service_completion_columns df :
  empty df = false ->
  exists done,
    get_col "Is_Completed" (Service.normalize_dataframe df) = Some done /\
    get_col "Completion_Status" (Service.normalize_dataframe df) =
      Some (map completion_status done) /\
    Forall (fun x => exists b, x = VBool b) done.
Proof.
  intros He. unfold Service.normalize_dataframe. rewrite He.
  unfold Service.add_completion, set_scalar.
  destruct (get_col "Completed_Date" _) as [c|].
  - exists (map Service.is_completed c). repeat split.
    + other_label. apply get_set_eq.
    + apply get_set_eq.
    + apply booleans_map. intros x. unfold Service.is_completed. eauto.
  - rewrite nrows_set_col.
    exists (repeat (VBool false)
              (nrows (Service.cross_verify (Service.classify df)))).
    repeat split.
    + other_label. apply get_set_eq.
    + rewrite get_set_eq, map_repeat. reflexivity.
    + apply Forall_forall. intros x Hx. apply repeat_spec in Hx. eauto.
Qed.

Lemma simple_completion_columns df :
  empty df = false ->
  has_column "Completed_Date" (Simple.renamed df) = true ->
  exists done,
    get_col "Is_Completed" (Simple.normalize_dataframe df) = Some done /\
    get_col "Completion_Status" (Simple.normalize_dataframe df) =
      Some (map completion_status done) /\
    Forall (fun x => exists b, x = VBool b) done.
Proof.
  intros He Hc. unfold Simple.normalize_dataframe. rewrite He.
  unfold Simple.add_completion.
  rewrite simple_classify_get by reflexivity.
  apply has_column_get in Hc.
  destruct (get_col "Completed_Date" (Simple.renamed df)) as [c|];
    [|congruence].
  exists (map Simple.is_completed c). repeat split.
  - other_label. apply get_set_eq.
  - apply get_set_eq.
  - apply booleans_map. intros x. unfold Simple.is_completed. eauto.
Qed.

Lemma completion_cells (t : DataFrame) done i v :
  get_col "Is_Completed" t = Some done ->
  get_col "Completion_Status" t = Some (map completion_status done) ->
  Forall (fun x => exists b, x = VBool b) done ->
  cell "Completion_Status" i t = Some v ->
  exists b,
    cell "Is_Completed" i t = Some (VBool b) /\
    v = (if b then COMPLETED else IN_PROGRESS).
Proof.
  intros Hd Hc Hb. unfold cell. rewrite Hd, Hc, nth_error_map.
  destruct (nth_error done i) as [x|] eqn:Hx; [|discriminate].
  rewrite Forall_forall in Hb.
  destruct (Hb x (nth_error_In _ _ Hx)) as [b ->].
  intros [= <-]. exists b. split; [reflexivity|]. now destruct b.
Qed.

(** X3.  In a table normalised by the URL variant, and in one normalised by
    the file variant from a table with a completion-date column, every
    record's [Completion_Status] is 'Completed' when its [Is_Completed] is
    true and 'In Progress' when it is false. *)
Theorem completion_status_follows_is_completed :
  (forall df i v,
      empty df = false ->
      cell "Completion_Status" i (Service.normalize_dataframe df) = Some v ->
      exists b,
        cell "Is_Completed" i (Service.normalize_dataframe df) =
          Some (VBool b) /\
        v = (if b then COMPLETED else IN_PROGRESS))
  /\
  (forall df i v,
      empty df = false ->
      has_column "Completed_Date" (Simple.renamed df) = true ->
      cell "Completion_Status" i (Simple.normalize_dataframe df) = Some v ->
      exists b,
        cell "Is_Completed" i (Simple.normalize_dataframe df) =
          Some (VBool b) /\
        v = (if b then COMPLETED else IN_PROGRESS)).
Proof.
  split.
  - intros df i v He Hv.
    destruct (service_completion_columns df He) as (done & H1 & H2 & H3).
    eapply completion_cells; eassumption.
  - intros df i v He Hc Hv.
    destruct (simple_completion_columns df He Hc) as (done & H1 & H2 & H3).
    eapply completion_cells; eassumption.
Qed.

Lemma completion_status_follows_is_completed_witness :
  exists b,
    cell "Is_Completed" 1
      (Service.normalize_dataframe Examples.late_completions_url) =
      Some (VBool b) /\
    COMPLETED = (if b then COMPLETED else IN_PROGRESS).
Proof.
  apply (proj1 completion_status_follows_is_completed
           Examples.late_completions_url 1%nat COMPLETED);
    reflexivity.
Defined.

(** ** Trimming *)

Lemma string_of_list_ascii_app l1 l2 :
  string_of_list_ascii (l1 ++ l2) =
  string_of_list_ascii l1 ++ string_of_list_ascii l2.
Proof. induction l1 as [|c l1 IH]; simpl; [reflexivity | now rewrite IH]. Qed.

Lemma list_ascii_of_string_app s1 s2 :
  list_ascii_of_string (s1 ++ s2) =
  (list_ascii_of_string s1 ++ list_ascii_of_string s2)%list.
Proof. induction s1 as [|c s1 IH]; simpl; [reflexivity | now rewrite IH]. Qed.

Lemma length_list_ascii_of_string s :
  length (list_ascii_of_string s) = String.length s.
Proof. induction s as [|c s IH]; simpl; [reflexivity | now rewrite IH]. Qed.

Lemma is_space2_blank a b :
  Text.is_space2 a b = true -> Text.blank a = true /\ Text.blank b = true.
Proof.
  unfold Text.is_space2, Text.blank.
  set (x := nat_of_ascii a). set (y := nat_of_ascii b).
  rewrite andb_true_iff, orb_true_iff, !Nat.eqb_eq. intros [Hx Hy].
  split; apply orb_true_iff; right; apply Nat.leb_le; lia.
Qed.

Lemma is_space3_blank a b c :
  Text.is_space3 a b c = true ->
  Text.blank a = true /\ Text.blank b = true /\ Text.blank c = true.
Proof.
  unfold Text.is_space3, Text.blank.
  set (x := nat_of_ascii a). set (y := nat_of_ascii b).
  set (z := nat_of_ascii c).
  intros H.
  rewrite !orb_true_iff, !andb_true_iff, !orb_true_iff, !andb_true_iff,
    !Nat.eqb_eq, !Nat.leb_le in H.
  repeat split; apply orb_true_iff; right; apply Nat.leb_le; lia.
Qed.

(** What [strip_chars] removes is made of blank bytes. *)
Lemma strip_chars_split space2 space3 l :
  (forall a b, space2 a b = true ->
               Text.blank a = true /\ Text.blank b = true) ->
  (forall a b c, space3 a b c = true ->
                 Text.blank a = true /\ Text.blank b = true /\
                 Text.blank c = true) ->
  exists ws,
    l = (ws ++ Text.strip_chars space2 space3 l)%list /\
    Forall (fun c => Text.blank c = true) ws.
Proof.
  intros H2 H3. remember (length l) as n eqn:Hn. revert l Hn.
  induction n as [n IH] using lt_wf_ind. intros l Hn.
  destruct l as [|a l1]; [exists []; split; [reflexivity | constructor]|].
  cbn [Text.strip_chars]. destruct (Text.is_space a) eqn:Ha.
  - destruct (IH (length l1) ltac:(simpl in Hn; lia) l1 eq_refl)
      as (ws & E & F).
    exists (a :: ws). split; [simpl; now rewrite <- E|].
    constructor; [unfold Text.blank; now rewrite Ha | exact F].
  - destruct l1 as [|b l2]; [exists []; split; [reflexivity | constructor]|].
    destruct (space2 a b) eqn:Hab.
    + destruct (IH (length l2) ltac:(simpl in Hn; lia) l2 eq_refl)
        as (ws & E & F).
      destruct (H2 a b Hab) as [Ba Bb].
      exists (a :: b :: ws). split; [simpl; now rewrite <- E|].
      now repeat constructor.
    + destruct l2 as [|c l3];
        [exists []; split; [reflexivity | constructor]|].
      destruct (space3 a b c) eqn:Habc.
      * destruct (IH (length l3) ltac:(simpl in Hn; lia) l3 eq_refl)
          as (ws & E & F).
        destruct (H3 a b c Habc) as (Ba & Bb & Bc).
        exists (a :: b :: c :: ws). split; [simpl; now rewrite <- E|].
        now repeat constructor.
      * exists []. split; [reflexivity | constructor].
Qed.

Lemma lstrip_chars_split l :
  exists ws,
    l = (ws ++ Text.lstrip_chars l)%list /\
    Forall (fun c => Text.blank c = true) ws.
Proof.
  apply strip_chars_split.
  - apply is_space2_blank.
  - apply is_space3_blank.
Qed.

Lemma rstrip_chars_rev_split l :
  exists ws,
    l = (ws ++ Text.rstrip_chars_rev l)%list /\
    Forall (fun c => Text.blank c = true) ws.
Proof.
  apply strip_chars_split.
  - intros b a H. destruct (is_space2_blank a b H). now split.
  - intros c b a H. destruct (is_space3_blank a b c H) as (? & ? & ?).
    now repeat split.
Qed.

(** The text is its trimmed text between two runs of blank bytes. *)
Lemma strip_split s :
  exists ws1 ws2,
    list_ascii_of_string s =
      (ws1 ++ list_ascii_of_string (Text.strip s) ++ ws2)%list /\
    Forall (fun c => Text.blank c = true) ws1 /\
    Forall (fun c => Text.blank c = true) ws2.
Proof.
  unfold Text.strip. rewrite list_ascii_of_string_of_list_ascii.
  destruct (lstrip_chars_split (list_ascii_of_string s)) as (ws1 & H1 & S1).
  set (m := Text.lstrip_chars (list_ascii_of_string s)) in *.
  destruct (rstrip_chars_rev_split (rev m)) as (ws & H2 & S2).
  exists ws1, (rev ws). repeat split.
  - rewrite <- rev_app_distr, <- H2, rev_involutive. exact H1.
  - exact S1.
  - apply Forall_rev. exact S2.
Qed.

Lemma len_app s1 s2 : Text.len (s1 ++ s2) = (Text.len s1 + Text.len s2)%nat.
Proof.
  induction s1 as [|c s1 IH]; [reflexivity|].
  cbn [append Text.len]. rewrite IH. now destruct (Text.continuation c).
Qed.

(** Trimming does not add characters. *)
Lemma len_strip_le s : (Text.len (Text.strip s) <= Text.len s)%nat.
Proof.
  destruct (strip_split s) as (ws1 & ws2 & H & _).
  apply (f_equal string_of_list_ascii) in H.
  rewrite string_of_list_ascii_of_string, !string_of_list_ascii_app,
    string_of_list_ascii_of_string in H.
  rewrite H at 2. rewrite !len_app. lia.
Qed.


(** Occurrence of one list of characters in another. *)
Lemma Substring_lists n s :
  Text.Substring n s <->
  exists pre post,
    list_ascii_of_string s = (pre ++ list_ascii_of_string n ++ post)%list.
Proof.
  unfold Text.Substring. split.
  - intros (pre & post & ->).
    exists (list_ascii_of_string pre), (list_ascii_of_string post).
    now rewrite !list_ascii_of_string_app.
  - intros (pre & post & H).
    exists (string_of_list_ascii pre), (string_of_list_ascii post).
    rewrite <- (string_of_list_ascii_of_string s), H.
    now rewrite !string_of_list_ascii_app, string_of_list_ascii_of_string.
Qed.

Lemma Substring_strip n s :
  Text.Substring n (Text.strip s) -> Text.Substring n s.
Proof.
  rewrite !Substring_lists. intros (pre & post & H).
  destruct (strip_split s) as (ws1 & ws2 & Hs & _).
  exists (ws1 ++ pre)%list, (post ++ ws2)%list.
  rewrite Hs, H. now rewrite <- !app_assoc.
Qed.

Lemma occurrence_after_spaces (n ws l : list ascii) c :
  hd_error n = Some c -> Text.blank c = false ->
  Forall (fun c => Text.blank c = true) ws ->
  (exists pre post, (ws ++ l = pre ++ n ++ post)%list) ->
  exists pre post, (l = pre ++ n ++ post)%list.
Proof.
  intros Hn Hc. induction 1 as [|w ws Hw _ IH]; [auto|].
  intros (pre & post & H). apply IH.
  destruct pre as [|p pre].
  - destruct n as [|c' n]; [discriminate|]. simpl in Hn, H.
    injection Hn as ->. injection H as -> _. congruence.
  - simpl in H. injection H as _ H. eauto.
Qed.

Lemma occurrence_rev (n l : list ascii) :
  (exists pre post, (l = pre ++ n ++ post)%list) ->
  exists pre post, (rev l = pre ++ rev n ++ post)%list.
Proof.
  intros (pre & post & ->). exists (rev post), (rev pre).
  now rewrite !rev_app_distr, <- app_assoc.
Qed.

(** A needle of ASCII characters without white space occurs in a text
    exactly when it occurs in the trimmed text. *)
Lemma Substring_strip_iff n s :
  n <> EmptyString ->
  Forall (fun c => Text.blank c = false) (list_ascii_of_string n) ->
  (Text.Substring n (Text.strip s) <-> Text.Substring n s).
Proof.
  intros Hne Hn. split; [apply Substring_strip|].
  rewrite !Substring_lists.
  destruct (strip_split s) as (ws1 & ws2 & Hs & S1 & S2). rewrite Hs.
  set (core := list_ascii_of_string (Text.strip s)).
  set (nl := list_ascii_of_string n) in *.
  assert (nl <> []) as Hnl.
  { subst nl. destruct n; [congruence | discriminate]. }
  intros H.
  assert (exists c, hd_error nl = Some c /\ Text.blank c = false)
    as (c & Hc1 & Hc2).
  { destruct nl as [|c nl']; [congruence|]. exists c. split; [reflexivity|].
    now inversion Hn. }
  apply (occurrence_after_spaces nl ws1 _ c Hc1 Hc2 S1) in H.
  apply occurrence_rev in H. rewrite rev_app_distr in H.
  assert (exists c, hd_error (rev nl) = Some c /\ Text.blank c = false)
    as (d & Hd1 & Hd2).
  { destruct (rev nl) as [|d rl] eqn:E.
    - apply (f_equal (@rev ascii)) in E. rewrite rev_involutive in E.
      simpl in E. congruence.
    - exists d. split; [reflexivity|].
      assert (In d (rev nl)) as Hin by (rewrite E; now left).
      apply in_rev in Hin. rewrite Forall_forall in Hn. now apply Hn. }
  apply (occurrence_after_spaces (rev nl) (rev ws2) _ d Hd1 Hd2) in H;
    [|now apply Forall_rev].
  apply occurrence_rev in H. now rewrite !rev_involutive in H.
Qed.

Lemma contains_strip n s :
  n <> EmptyString ->
  forallb (fun c => negb (Text.blank c)) (list_ascii_of_string n) = true ->
  Text.contains n (Text.strip s) = Text.contains n s.
Proof.
  intros Hne Hn.
  assert (Text.Substring n (Text.strip s) <-> Text.Substring n s) as H.
  { apply Substring_strip_iff; [exact Hne|].
    apply Forall_forall. intros c Hc.
    rewrite forallb_forall in Hn. apply negb_true_iff. now apply Hn. }
  rewrite <- !contains_Substring in H.
  destruct (Text.contains n (Text.strip s)), (Text.contains n s);
    try reflexivity; destruct H as [H1 H2];
    [now specialize (H1 eq_refl) | now specialize (H2 eq_refl)].
Qed.

(** ** The final status of the URL variant *)

Lemma float_column_cells c x :
  float_column c = true -> In x c ->
  match x with
  | VInt _ | VNone | VNaN => True
  | VStr _ | VBool _ => False
  end.
Proof.
  unfold float_column. rewrite !andb_true_iff. intros [[H _] _] Hin.
  rewrite forallb_forall in H. specialize (H x Hin).
  destruct x; (exact I || discriminate).
Qed.

(** The text of a missing cell is no start date, and the text of a cell
    that holds text is that text. *)
Lemma start_date_recorded_cases sd i d :
  nth_error sd i = Some d ->
  Spec.start_date_recorded (text_in sd d) ->
  notna d = true /\ forall s, d = VStr s -> (4 < Text.len s)%nat.
Proof.
  intros Hd. apply nth_error_In in Hd.
  unfold Spec.start_date_recorded, text_in.
  destruct (float_column sd) eqn:F.
  - pose proof (float_column_cells sd d F Hd) as Hc.
    destruct d; try contradiction; intros H.
    + split; [reflexivity | discriminate].
    + simpl in H. lia.
    + simpl in H. lia.
  - intros H. split.
    + destruct d; try reflexivity; simpl in H; lia.
    + intros s ->. pose proof (len_strip_le s). cbn [str] in H. lia.
Qed.

(** X4.  In the URL variant the final [Status_Clean] of a record of a table
    with a status column is 'Started' exactly when the status text
    classifies as started or the text that [astype(str)] gives its start
    date, trimmed of white space, is longer than 4 characters; so the
    cross-verification never turns a 'Started' into 'Not Started'.  That text
    is the text of the cell in its column; a start date that is missing, or
    a text of at most 4 characters, does not count as recorded. *)
Theorem service_final_status :
  forall df i x,
    frame_ok (Service.renamed df) ->
    cell "Status" i (Service.renamed df) = Some x ->
    (cell "Status_Clean" i (Service.normalize_dataframe df) = Some STARTED <->
     Spec.started_text x \/
     exists t, cell_text "Started_Date" i (Service.renamed df) = Some t /\
               Spec.start_date_recorded t) /\
    (forall sd d,
        get_col "Started_Date" (Service.renamed df) = Some sd ->
        nth_error sd i = Some d ->
        cell_text "Started_Date" i (Service.renamed df) =
          Some (text_in sd d) /\
        (Spec.start_date_recorded (text_in sd d) ->
         notna d = true /\ forall s, d = VStr s -> (4 < Text.len s)%nat)).
Proof.
  intros df i x Hok Hx. split.
  - rewrite (service_status_clean_cell _ _ _ Hok Hx).
    rewrite <- service_clean_status_spec.
    destruct (cell_text "Started_Date" i (Service.renamed df)) as [t|].
    + destruct (Service.has_start_date t) eqn:Hd.
      * split; [|reflexivity]. intros _. right. exists t.
        split; [reflexivity|]. now apply has_start_date_spec.
      * split.
        -- intros [= H]. now left.
        -- intros [H | (t' & [= <-] & H)]; [now rewrite H|].
           apply has_start_date_spec in H. congruence.
    + split.
      * intros [= H]. now left.
      * intros [H | (t' & H & _)]; [now rewrite H | discriminate].
  - intros sd d Hsd Hd. split.
    + unfold cell_text. rewrite Hsd, nth_error_astype_str, Hd. reflexivity.
    + now apply start_date_recorded_cases with (i := i).
Qed.

Lemma service_final_status_witness :
  cell "Status_Clean" 0
    (Service.normalize_dataframe Examples.labelled_not_started_url) =
    Some STARTED <->
  Spec.started_text (VStr "Not Started") \/
  exists t,
    cell_text "Started_Date" 0
      (Service.renamed Examples.labelled_not_started_url) = Some t /\
    Spec.start_date_recorded t.
Proof.
  apply (proj1 (service_final_status Examples.labelled_not_started_url 0%nat
                  (VStr "Not Started") ltac:(frame_ok_tac) eq_refl)).
Defined.

(** ** The two variants against each other *)

(** The rule of the URL variant does not depend on the trimming. *)
Lemma service_clean_status_untrimmed x :
  Service.clean_status x =
  (let s := Text.lower (str x) in
   if Text.contains "started" s && negb (Text.contains "not" s) then STARTED
   else if Text.contains "yes" s then STARTED
   else NOT_STARTED).
Proof.
  unfold Service.clean_status; cbv zeta.
  rewrite !contains_strip by (reflexivity || discriminate). reflexivity.
Qed.

Lemma contains_started_start s :
  Text.contains "started" s = true -> Text.contains "start" s = true.
Proof.
  rewrite !contains_Substring. intros (pre & post & ->).
  exists pre, ("ed" ++ post). reflexivity.
Qed.

(** X5.  Whatever the URL variant classifies as 'Started' from the status
    text, the file variant classifies as 'Started' too.  The two differ
    exactly on the texts that, lower-cased, contain 'start' and no 'yes' and
    either contain 'not' or do not contain 'started'; there the file variant
    says 'Started' and the URL variant 'Not Started'. *)
Theorem status_rules_of_the_variants :
  forall x,
    (Service.clean_status x = STARTED -> Simple.clean_status x = STARTED) /\
    (Service.clean_status x <> Simple.clean_status x <->
     Text.Substring "start" (Text.lower (str x)) /\
     ~ Text.Substring "yes" (Text.lower (str x)) /\
     (Text.Substring "not" (Text.lower (str x)) \/
      ~ Text.Substring "started" (Text.lower (str x)))) /\
    (Service.clean_status x <> Simple.clean_status x ->
     Service.clean_status x = NOT_STARTED /\ Simple.clean_status x = STARTED).
Proof.
  intros x. rewrite service_clean_status_untrimmed.
  unfold Simple.clean_status; cbv zeta.
  set (s := Text.lower (str x)).
  rewrite <- !not_contains_Substring, <- !contains_Substring.
  pose proof (contains_started_start s) as Hss.
  destruct (Text.contains "started" s), (Text.contains "start" s),
    (Text.contains "not" s), (Text.contains "yes" s);
    try (specialize (Hss eq_refl); discriminate);
    cbn; unfold STARTED, NOT_STARTED;
    repeat split; try tauto; try congruence; try discriminate;
    try (intros; exfalso; tauto);
    try (intros (? & ? & [?|?]); congruence);
    try (intros; repeat split; auto; congruence).
Qed.

Example status_rules_differ_on_not_started :
  Service.clean_status (VStr "Not Started") = NOT_STARTED /\
  Simple.clean_status (VStr "Not Started") = STARTED /\
  Service.clean_status (VStr " restarting ") = NOT_STARTED /\
  Simple.clean_status (VStr " restarting ") = STARTED.
Proof. repeat split. Qed.

(** X6.  Every completion date for which the URL variant sets
    [Is_Completed] sets it in the file variant as well; the converse fails,
    for instance on the text "NaT" and on the number 0. *)
Theorem completion_rules_of_the_variants :
  (forall x,
      Service.is_completed x = VBool true ->
      Simple.is_completed x = VBool true) /\
  Service.is_completed (VStr "NaT") = VBool false /\
  Simple.is_completed (VStr "NaT") = VBool true /\
  Service.is_completed (VInt 0) = VBool false /\
  Simple.is_completed (VInt 0) = VBool true.
Proof.
  split; [|repeat split].
  intros x. unfold Service.is_completed, Simple.is_completed, ne_text.
  destruct x as [s| z| b| |]; cbn [truthy notna eq_text str].
  - destruct (String.eqb s ""); [discriminate | reflexivity].
  - reflexivity.
  - reflexivity.
  - discriminate.
  - discriminate.
Qed.

Lemma status_rules_of_the_variants_witness :
  Simple.clean_status (VStr "yes") = STARTED.
Proof.
  apply (proj1 (status_rules_of_the_variants (VStr "yes"))). reflexivity.
Defined.

Lemma completion_rules_of_the_variants_witness :
  Simple.is_completed (VStr "2024-05-01") = VBool true.
Proof.
  apply (proj1 completion_rules_of_the_variants (VStr "2024-05-01")).
  reflexivity.
Defined.

(** ** The renaming *)

Lemma rename_columns_ext f g df :
  (forall l, In l (labels df) -> f l = g l) ->
  rename_columns f df = rename_columns g df.
Proof.
  destruct df as [n cs]. unfold rename_columns, labels; simpl. intros H.
  f_equal. apply map_ext_in. intros [l c] Hin. simpl. f_equal.
  apply H. apply in_map_iff. now exists (l, c).
Qed.

Lemma rename_columns_compose f g df :
  rename_columns g (rename_columns f df) =
  rename_columns (fun l => g (f l)) df.
Proof.
  destruct df as [n cs]. unfold rename_columns; simpl. f_equal.
  rewrite map_map. reflexivity.
Qed.

Lemma rename_columns_id df : rename_columns (fun l => l) df = df.
Proof.
  apply rename_columns_fixed. reflexivity.
Qed.

Lemma simple_rename_if_present_rename df on :
  Simple.rename_if_present df on = rename_columns (rename_label [on]) df.
Proof.
  unfold Simple.rename_if_present.
  destruct (has_column (fst on) df) eqn:Hc; [reflexivity|].
  symmetry. apply rename_columns_fixed. intros l Hl.
  destruct on as [o n]; simpl.
  destruct (String.eqb_spec l o) as [->|]; [|reflexivity].
  apply has_column_In in Hl. simpl in Hc. congruence.
Qed.

Lemma simple_renamed_loop m df :
  fold_left Simple.rename_if_present m df =
  rename_columns (Simple.rename_loop_label m) df.
Proof.
  revert df; induction m as [|on m IH]; intros df.
  - symmetry. apply rename_columns_id.
  - cbn [fold_left]. rewrite IH, simple_rename_if_present_rename.
    rewrite rename_columns_compose. apply rename_columns_ext.
    intros l _. reflexivity.
Qed.

Lemma rename_loop_label_rename_label m l :
  (forall v, In v (map snd m) -> ~ In v (map fst m)) ->
  Simple.rename_loop_label m l = rename_label m l.
Proof.
  revert l; induction m as [|[o n] m IH]; intros l Hm; [reflexivity|].
  assert (forall v, In v (map snd m) -> ~ In v (map fst m)) as Hm'.
  { intros v Hv Hk. apply (Hm v); simpl; auto. }
  change (Simple.rename_loop_label ((o, n) :: m) l)
    with (Simple.rename_loop_label m (rename_label [(o, n)] l)).
  cbn [rename_label]. destruct (String.eqb l o).
  - apply rename_loop_label_not_key. intros Hin.
    apply (Hm n); simpl; auto.
  - now apply IH.
Qed.

Lemma rename_label_key m l :
  In l (map fst m) -> In (rename_label m l) (map snd m).
Proof.
  induction m as [|[o n] m IH]; simpl; [intros []|].
  destruct (String.eqb_spec l o) as [->|Hne]; [now left|].
  intros [->|H]; [congruence | right; auto].
Qed.

Lemma rename_label_fresh m l :
  new_names_fresh m = true -> ~ In (rename_label m l) (map fst m).
Proof.
  intros Hm. destruct (in_dec string_dec l (map fst m)) as [Hin | Hout].
  - apply (new_names_fresh_spec m Hm). now apply rename_label_key.
  - now rewrite rename_label_not_key.
Qed.

Lemma simple_renamed_rename df :
  Simple.renamed df = rename_columns (rename_label Simple.column_mapping) df.
Proof.
  unfold Simple.renamed. rewrite simple_renamed_loop.
  apply rename_columns_ext. intros l _.
  apply rename_loop_label_rename_label. now apply new_names_fresh_spec.
Qed.

Lemma rename_columns_canonical m df :
  new_names_fresh m = true ->
  (forall l, In l (labels (rename_columns (rename_label m) df)) ->
             ~ In l (map fst m)) /\
  rename_columns (rename_label m) (rename_columns (rename_label m) df) =
    rename_columns (rename_label m) df /\
  map snd (columns (rename_columns (rename_label m) df)) =
    map snd (columns df).
Proof.
  intros Hm. repeat split.
  - intros l Hl. rewrite labels_rename_columns in Hl.
    apply in_map_iff in Hl. destruct Hl as (l0 & <- & _).
    now apply rename_label_fresh.
  - rewrite rename_columns_compose. apply rename_columns_ext.
    intros l _. now apply rename_label_idem.
  - destruct df as [n cs]; simpl. rewrite map_map. reflexivity.
Qed.

(** X7.  The renaming loop of simple_dashboard comes to one
    [df.rename(columns=column_mapping)], as service_dashboard writes it.  In
    both programs no source name of the mapping is a label after the
    renaming, renaming again changes nothing, and the columns keep their
    order and their cells. *)
Theorem renaming_gives_canonical_labels :
  forall df,
    Simple.renamed df =
      rename_columns (rename_label Simple.column_mapping) df /\
    Forall (fun l => ~ In l (map fst Service.column_mapping))
      (labels (Service.renamed df)) /\
    Forall (fun l => ~ In l (map fst Simple.column_mapping))
      (labels (Simple.renamed df)) /\
    Service.renamed (Service.renamed df) = Service.renamed df /\
    Simple.renamed (Simple.renamed df) = Simple.renamed df /\
    map snd (columns (Service.renamed df)) = map snd (columns df) /\
    map snd (columns (Simple.renamed df)) = map snd (columns df).
Proof.
  intros df.
  destruct (rename_columns_canonical Service.column_mapping df eq_refl)
    as (A1 & A2 & A3).
  destruct (rename_columns_canonical Simple.column_mapping df eq_refl)
    as (B1 & B2 & B3).
  rewrite !simple_renamed_rename. unfold Service.renamed.
  repeat split; try assumption; apply Forall_forall; assumption.
Qed.

(** ** The most frequent value *)

Lemma sorted_desc_head {A : Type} (key : A -> Z) x l :
  Sorted (fun a b => key b <= key a) (x :: l) ->
  forall y, In y (x :: l) -> key y <= key x.
Proof.
  intros Hs.
  assert (StronglySorted (fun a b => key b <= key a) (x :: l)) as Hss.
  { apply Sorted_StronglySorted; [|exact Hs].
    intros a b c Hab Hbc. lia. }
  apply StronglySorted_inv in Hss. destruct Hss as [_ Hall].
  rewrite Forall_forall in Hall.
  intros y [<-|Hy]; [lia | now apply Hall].
Qed.








(** ** The counts of the summary *)

Lemma count_pointwise_le (sc ic : column) :
  Forall2 (fun s d => d = VBool true -> s = STARTED) sc ic ->
  Forall (fun x => exists b, x = VBool b) ic ->
  (length (filter truthy ic) <= length (filter (eq_text "Started") sc))%nat.
Proof.
  induction 1 as [|s d sc ic Hsd _ IH]; intros Hb; [simpl; lia|].
  inversion Hb as [|? ? [b ->] Hb']; subst.
  specialize (IH Hb'). cbn [filter truthy].
  destruct b.
  - rewrite (Hsd eq_refl). simpl. lia.
  - destruct (eq_text "Started" s); simpl; lia.
Qed.

(** X9.  For a well-formed table with boolean [Is_Completed] cells, the
    counts [calculate_kpis] returns satisfy [0 < total],
    [0 <= started <= total], [0 <= not_started <= total],
    [0 <= completed <= total] and [-total <= in_progress <= total]; and
    [in_progress] is not negative when every record with a true
    [Is_Completed] has [Status_Clean = 'Started']. *)
Theorem summary_counts_are_bounded :
  forall df k,
    frame_ok df ->
    Spec.boolean_column "Is_Completed" df ->
    calculate_kpis df = Ok (Some k) ->
    0 < total_students k /\
    0 <= started k <= total_students k /\
    0 <= not_started k <= total_students k /\
    0 <= completed k <= total_students k /\
    - total_students k <= in_progress k <= total_students k /\
    (forall sc ic,
        get_col "Status_Clean" df = Some sc ->
        get_col "Is_Completed" df = Some ic ->
        Forall2 (fun s d => d = VBool true -> s = STARTED) sc ic ->
        0 <= in_progress k).
Proof.
  intros df k Hok Hb Hk.
  destruct (calculate_kpis_fields _ _ Hk)
    as (He & Ht & Hs & Hn & Hc & Hi & _).
  assert (0 < total_students k) as Hpos.
  { rewrite Ht. unfold empty in He. apply orb_false_iff in He.
    destruct He as [He _]. apply Nat.eqb_neq in He. lia. }
  assert (0 <= started k <= total_students k) as Hst.
  { rewrite Hs, Ht.
    destruct (get_col "Status_Clean" df) as [c|] eqn:E; [|lia].
    rewrite <- (get_col_length _ _ _ Hok E). apply count_text_bounds. }
  assert (0 <= completed k <= total_students k) as Hco.
  { rewrite Ht.
    destruct (get_col "Is_Completed" df) as [c|] eqn:E; [|lia].
    destruct (column_sum_booleans _ (Hb _ E)) as [s [H1 [_ [H3 _]]]].
    rewrite H1 in Hc. injection Hc as <-.
    rewrite <- (get_col_length _ _ _ Hok E). exact H3. }
  repeat split; try lia.
  intros sc ic Hsc Hic Hrel. rewrite Hi, Hs, Hsc. rewrite Hic in Hc.
  destruct (column_sum_booleans _ (Hb _ Hic)) as [s [H1 [_ [_ H4]]]].
  rewrite H1 in Hc. injection Hc as <-.
  pose proof (count_pointwise_le sc ic Hrel (Hb _ Hic)).
  unfold count_text. lia.
Qed.

Lemma summary_counts_are_bounded_witness :
  exists k,
    calculate_kpis (Service.normalize_dataframe Examples.three_records_url) =
    Ok (Some k) /\
    0 <= started k <= total_students k /\ 0 <= in_progress k.
Proof.
  exists {| total_students := 3; started := 2; not_started := 1;
            completed := 1; in_progress := 1;
            start_rate := (667 # 10)%Q; completion_rate := (333 # 10)%Q;
            top_tutor := "N/A"; top_team := "N/A"; top_course := "N/A" |}.
  assert (calculate_kpis
            (Service.normalize_dataframe Examples.three_records_url) =
          Ok (Some {| total_students := 3; started := 2; not_started := 1;
            completed := 1; in_progress := 1;
            start_rate := (667 # 10)%Q; completion_rate := (333 # 10)%Q;
            top_tutor := "N/A"; top_team := "N/A"; top_course := "N/A" |}))
    as Hk by (vm_compute; reflexivity).
  split; [exact Hk|].
  assert (frame_ok (Service.normalize_dataframe Examples.three_records_url))
    as Hok by (apply service_normalize_frame_ok; [reflexivity|frame_ok_tac]).
  assert (Spec.boolean_column "Is_Completed"
            (Service.normalize_dataframe Examples.three_records_url))
    as Hb by (apply service_normalize_boolean; reflexivity).
  destruct (summary_counts_are_bounded _ _ Hok Hb Hk)
    as (_ & H1 & _ & _ & _ & H2).
  split; [exact H1|].
  apply (H2 [STARTED; NOT_STARTED; STARTED]
            [VBool true; VBool false; VBool false]);
    try reflexivity.
  repeat constructor; discriminate.
Defined.

(** ** The order of the breakdown rows on the pages *)

Lemma breakdown_descending tutor sum label df rows :
  breakdown tutor sum label df = Ok rows -> Spec.descending rows.
Proof.
  intros H. destruct (breakdown_inv _ _ _ _ _ H) as
    [[_ ->] | (keys & names & status & done & cstatus & unsorted &
               _ & _ & _ & _ & _ & _ & ->)].
  - constructor.
  - apply sort_desc_sorted.
Qed.

Lemma strongly_sorted_app {A : Type} (R : A -> A -> Prop) l1 l2 :
  StronglySorted R (l1 ++ l2) ->
  forall a b, In a l1 -> In b l2 -> R a b.
Proof.
  induction l1 as [|x l1 IH]; intros Hs a b Ha Hb; [contradiction|].
  simpl in Hs. apply StronglySorted_inv in Hs. destruct Hs as [Hs Hall].
  destruct Ha as [<-|Ha].
  - rewrite Forall_forall in Hall. apply Hall. apply in_or_app. now right.
  - now apply IH.
Qed.

(** X10.  On the pages, [rows.head(n)] of a breakdown shows rows whose
    [Total_Students] is at least that of every row left out, and the first
    row, which the leader card shows, has the largest [Total_Students] of
    all.  For the three breakdowns of both programs. *)
Theorem shown_rows_outrank_the_rest :
  forall f df rows,
    In f [ Service.create_tutor_performance;
           Service.create_team_performance;
           Service.create_course_analysis;
           Simple.create_tutor_performance;
           Simple.create_team_performance;
           Simple.create_course_analysis ] ->
    f df = Ok rows ->
    (forall n shown omitted,
        In shown (head n rows) -> In omitted (skipn n rows) ->
        Total_Students omitted <= Total_Students shown) /\
    (forall leader rest r,
        rows = leader :: rest -> In r rows ->
        Total_Students r <= Total_Students leader).
Proof.
  intros f df rows Hf Hrows.
  assert (Spec.descending rows) as Hd.
  { simpl in Hf.
    destruct Hf as [<-|[<-|[<-|[<-|[<-|[<-|[]]]]]]];
      eapply breakdown_descending; exact Hrows. }
  split.
  - intros n shown omitted Hs Ho.
    assert (StronglySorted
              (fun a b => Total_Students b <= Total_Students a)
              (firstn n rows ++ skipn n rows)) as Hss.
    { rewrite firstn_skipn. apply Sorted_StronglySorted; [|exact Hd].
      intros a b c Hab Hbc. lia. }
    exact (strongly_sorted_app _ _ _ Hss shown omitted Hs Ho).
  - intros leader rest r -> Hr.
    exact (sorted_desc_head Total_Students leader rest Hd r Hr).
Qed.

Lemma shown_rows_outrank_the_rest_witness :
  exists first second,
    Simple.create_tutor_performance
      (Simple.normalize_dataframe MoreExamples.complete_csv) =
      Ok [first; second] /\
    Total_Students second <= Total_Students first.
Proof.
  destruct (Simple.create_tutor_performance
              (Simple.normalize_dataframe MoreExamples.complete_csv))
    as [[|first [|second [|third rows]]]|e] eqn:E;
    try (vm_compute in E; discriminate E).
  exists first, second. split; [reflexivity|].
  apply (proj1 (shown_rows_outrank_the_rest
                  Simple.create_tutor_performance
                  (Simple.normalize_dataframe MoreExamples.complete_csv)
                  [first; second]
                  (or_intror (or_intror (or_intror (or_introl eq_refl))))
                  E) 1%nat first second);
    left; reflexivity.
Defined.

(** ** The tutor breakdown of a normalised table *)

Lemma tutor_breakdown_inv sum label df rows :
  breakdown true sum label df = Ok rows ->
  rows = [] \/
  exists keys names status done cstatus unsorted,
    get_col label df = Some keys /\
    get_col "Student_Name" df = Some names /\
    get_col "Status_Clean" df = Some status /\
    get_col "Is_Completed" df = Some done /\
    get_col "Completion_Status" df = Some cstatus /\
    Forall2 (Spec.row_of true sum keys names status done cstatus)
      (group_keys keys) unsorted /\
    rows = sort_desc Total_Students unsorted.
Proof.
  unfold breakdown.
  destruct (empty df || negb (has_column label df));
    [intros [= <-]; now left|].
  destruct (require label df) as [keys|] eqn:Hk; simpl; [|discriminate].
  destruct (require "Student_Name" df) as [names|] eqn:Hn; simpl;
    [|discriminate].
  destruct (require "Status_Clean" df) as [status|] eqn:Hs; simpl;
    [|discriminate].
  destruct (require "Is_Completed" df) as [done|] eqn:Hd; simpl;
    [|discriminate].
  destruct (require "Completion_Status" df) as [cstatus|] eqn:Hc; simpl;
    [|discriminate].
  destruct (map_result _ (group_keys keys)) as [unsorted|] eqn:Hm; simpl;
    [|discriminate].
  intros [= <-]. right.
  exists keys, names, status, done, cstatus, unsorted.
  apply require_Ok in Hk, Hn, Hs, Hd, Hc.
  repeat split; try assumption.
  apply map_result_Forall2 in Hm.
  eapply Forall2_impl; [|exact Hm].
  intros k r Hr. cbv beta zeta in Hr.
  destruct (sum (group_cells k keys done)) as [c|] eqn:Hsum; simpl in Hr;
    [|discriminate].
  injection Hr as <-. unfold Spec.row_of; simpl. repeat split; assumption.
Qed.

Lemma group_cells_map (f : value -> value) k keys c :
  group_cells k keys (map f c) = map f (group_cells k keys c).
Proof.
  unfold group_cells.
  revert c; induction keys as [|y keys IH]; intros [|x c]; try reflexivity.
  simpl. destruct (value_eqb y k); simpl; now rewrite IH.
Qed.

Lemma in_progress_count g :
  Forall (fun x => exists b, x = VBool b) g ->
  count_text "In Progress" (map completion_status g) =
  Z.of_nat (length g) - Z.of_nat (length (filter truthy g)).
Proof.
  unfold count_text. induction 1 as [|x g [b ->] _ IH]; [reflexivity|].
  cbn [map filter truthy]. unfold completion_status at 1. cbn [truthy].
  destruct b.
  - change (eq_text "In Progress" COMPLETED) with false.
    cbn [length]. lia.
  - change (eq_text "In Progress" IN_PROGRESS) with true.
    cbn [length]. lia.
Qed.

(** X11.  In the tutor breakdown of a table normalised by the URL variant,
    each row's [Completed] and [In_Progress] add up to the number of records
    of that tutor, which is positive, and [Total_Students] and [Started] do
    not exceed it. *)
Theorem tutor_rows_account_for_their_records :
  forall df rows r,
    empty df = false ->
    frame_ok (Service.renamed df) ->
    Service.create_tutor_performance (Service.normalize_dataframe df) =
      Ok rows ->
    In r rows ->
    exists tutors,
      get_col "Tutor" (Service.renamed df) = Some tutors /\
      let records :=
        Z.of_nat (length (filter (fun t => value_eqb t (Key r)) tutors)) in
      0 < records /\
      In_Progress r = Some (records - Completed r) /\
      0 <= Completed r <= records /\
      0 <= Started r <= records /\
      0 <= Total_Students r <= records.
Proof.
  intros df rows r He Hok Hrows Hr.
  set (t := Service.normalize_dataframe df) in *.
  assert (frame_ok t) as Hokt by now apply service_normalize_frame_ok.
  destruct (service_completion_columns df He) as (done0 & Hd0 & Hc0 & Hb0).
  fold t in Hd0, Hc0.
  destruct (tutor_breakdown_inv _ _ _ _ Hrows) as
    [-> | (keys & names & status & done & cstatus & unsorted &
           Hk & Hn & Hs & Hd & Hc & Hall & ->)]; [contradiction|].
  assert (done = done0) as -> by congruence.
  assert (cstatus = map completion_status done0) as -> by congruence.
  apply sort_desc_In in Hr.
  destruct (Forall2_In_r _ _ _ _ Hall Hr)
    as (k & Hkin & Hsum & Hkey & Htot & Hst & Hip & _).
  exists keys. split.
  { assert (get_col "Tutor" t = get_col "Tutor" (Service.renamed df)) as Ht.
    { unfold t, Service.normalize_dataframe. rewrite He.
      rewrite service_add_completion_get, service_cross_verify_get,
        service_classify_get by reflexivity.
      reflexivity. }
    congruence. }
  cbv zeta. rewrite Hkey.
  pose proof (get_col_length _ _ _ Hokt Hk) as Lk.
  pose proof (get_col_length _ _ _ Hokt Hn) as Ln.
  pose proof (get_col_length _ _ _ Hokt Hs) as Ls.
  pose proof (get_col_length _ _ _ Hokt Hd) as Ld.
  assert (length (group_cells k keys done0) =
          length (filter (fun y => value_eqb y k) keys)) as Gd
    by (apply group_cells_length; congruence).
  assert (length (group_cells k keys names) =
          length (filter (fun y => value_eqb y k) keys)) as Gn
    by (apply group_cells_length; congruence).
  assert (length (group_cells k keys status) =
          length (filter (fun y => value_eqb y k) keys)) as Gs
    by (apply group_cells_length; congruence).
  destruct (column_sum_booleans _ (group_cells_Forall _ k keys _ Hb0))
    as (s & H1 & _ & H3 & H4).
  unfold Service.create_tutor_performance in Hrows.
  rewrite H1 in Hsum. injection Hsum as Hsum.
  pose proof (count_notna_bounds (group_cells k keys names)) as Bn.
  pose proof (count_text_bounds "Started" (group_cells k keys status)) as Bs.
  rewrite Gn in Bn. rewrite Gs in Bs. rewrite Gd in H3.
  repeat split; try lia.
  - apply group_keys_In in Hkin. destruct Hkin as [Hkin _].
    assert (In k (filter (fun y => value_eqb y k) keys)) as Hf.
    { apply filter_In. split; [exact Hkin | now apply value_eqb_eq]. }
    destruct (filter (fun y => value_eqb y k) keys); [contradiction|].
    simpl. lia.
  - rewrite Hip, group_cells_map.
    rewrite (in_progress_count _ (group_cells_Forall _ k keys _ Hb0)).
    rewrite Gd, <- H4, <- Hsum. reflexivity.
Qed.

Lemma tutor_rows_account_for_their_records_witness :
  exists tutors,
    get_col "Tutor" (Service.renamed Examples.late_completions_url) =
      Some tutors /\
    let records :=
      Z.of_nat (length (filter (fun t => value_eqb t (VStr "Ravi")) tutors)) in
    0 < records /\
    Some 1 = Some (records - 2) /\
    0 <= 2 <= records /\ 0 <= 1 <= records /\ 0 <= 3 <= records.
Proof.
  apply (tutor_rows_account_for_their_records
           Examples.late_completions_url
           [ {| Key := VStr "Ravi"; Total_Students := 3; Started := 1;
                Completed := 2; In_Progress := Some 1;
                Start_Rate_pct := Some (333 # 10)%Q;
                Completion_Rate_pct := (2000 # 10)%Q |} ]
           {| Key := VStr "Ravi"; Total_Students := 3; Started := 1;
              Completed := 2; In_Progress := Some 1;
              Start_Rate_pct := Some (333 # 10)%Q;
              Completion_Rate_pct := (2000 # 10)%Q |}).
  - reflexivity.
  - frame_ok_tac.
  - vm_compute. reflexivity.
  - now left.
Defined.

(** ** The month filter of service_dashboard *)

Lemma select_rows_combine (p : value -> bool) ms c :
  select_rows (map p ms) c =
  map snd (filter (fun mc => p (fst mc)) (combine ms c)).
Proof.
  revert c; induction ms as [|m ms IH]; intros [|x c]; try reflexivity.
  simpl. destruct (p m); simpl; now rewrite IH.
Qed.

Lemma select_rows_same (p : value -> bool) c :
  select_rows (map p c) c = filter p c.
Proof.
  induction c as [|x c IH]; [reflexivity|].
  simpl. destruct (p x); now rewrite IH.
Qed.

Lemma length_select_rows mask c :
  length mask = length c ->
  length (select_rows mask c) = length (filter (fun m : bool => m) mask).
Proof.
  revert c; induction mask as [|m mask IH]; intros [|x c] H;
    try discriminate; [reflexivity|].
  simpl. injection H as H. destruct m; simpl; now rewrite IH.
Qed.

Lemma length_filter_map {A : Type} (p : A -> bool) l :
  length (filter (fun m : bool => m) (map p l)) = length (filter p l).
Proof.
  induction l as [|x l IH]; [reflexivity|].
  simpl. destruct (p x); simpl; now rewrite IH.
Qed.

Lemma lookup_map_columns (f : column -> column) l cs :
  lookup l (map (fun lc => (fst lc, f (snd lc))) cs) =
  option_map f (lookup l cs).
Proof.
  induction cs as [|[l2 c2] cs IH]; [reflexivity|].
  simpl. destruct (String.eqb l l2); [reflexivity | exact IH].
Qed.

Lemma get_col_filter_rows mask l df :
  get_col l (filter_rows mask df) =
  option_map (select_rows mask) (get_col l df).
Proof. apply lookup_map_columns. Qed.

Lemma frame_ok_filter_rows mask df :
  frame_ok df -> length mask = nrows df -> frame_ok (filter_rows mask df).
Proof.
  intros [Hnd Hlen] Hm. split.
  - unfold labels, filter_rows; simpl. rewrite map_map. exact Hnd.
  - unfold filter_rows; simpl. apply Forall_forall.
    intros lc Hin. apply in_map_iff in Hin. destruct Hin as (lc0 & <- & Hin).
    cbn [fst snd nrows]. apply length_select_rows.
    rewrite Forall_forall in Hlen.
    transitivity (nrows df); [exact Hm | symmetry; exact (Hlen _ Hin)].
Qed.

Lemma filter_eq_text_repeat sel c :
  filter (eq_text sel) c =
  repeat (VStr sel) (length (filter (eq_text sel) c)).
Proof.
  induction c as [|x c IH]; [reflexivity|].
  simpl. destruct (eq_text sel x) eqn:E; [|exact IH].
  destruct x as [s| | | |]; try discriminate.
  simpl in E. apply String.eqb_eq in E. subst. simpl. now rewrite <- IH.
Qed.

Lemma filter_eq_text_nonempty sel c :
  In (VStr sel) c <-> filter (eq_text sel) c <> [].
Proof.
  split.
  - intros Hin Hnil.
    assert (In (VStr sel) (filter (eq_text sel) c)) as H.
    { apply filter_In. split; [exact Hin|]. simpl. apply String.eqb_refl. }
    rewrite Hnil in H. contradiction.
  - intros Hne. destruct (filter (eq_text sel) c) as [|x l] eqn:E;
      [congruence|].
    assert (In x (filter (eq_text sel) c)) as H by (rewrite E; now left).
    apply filter_In in H. destruct H as [Hin Hx].
    destruct x as [s| | | |]; try discriminate.
    simpl in Hx. apply String.eqb_eq in Hx. now subst.
Qed.

(** X12.  The month filter of service_dashboard.  Choosing "All Time"
    leaves the table as it is.  Choosing another month keeps, in their order
    and in every column, exactly the records whose [Month] cell is that
    text; the result is well formed, has the same labels, and is not empty
    when some record has that month. *)
Theorem month_filter_keeps_the_month :
  forall df months selected,
    frame_ok df ->
    get_col "Month" df = Some months ->
    (selected = "All Time" -> ServicePage.filter_month selected df = df) /\
    (selected <> "All Time" ->
     let t := ServicePage.filter_month selected df in
     frame_ok t /\
     labels t = labels df /\
     nrows t = length (filter (eq_text selected) months) /\
     get_col "Month" t = Some (repeat (VStr selected) (nrows t)) /\
     (forall l c,
         get_col l df = Some c ->
         get_col l t =
         Some (map snd (filter (fun mc => eq_text selected (fst mc))
                          (combine months c)))) /\
     (In (VStr selected) months -> empty t = false)).
Proof.
  intros df months selected Hok Hm. unfold ServicePage.filter_month.
  rewrite Hm. split.
  - intros ->. reflexivity.
  - intros Hne. apply String.eqb_neq in Hne. rewrite Hne. cbn [negb].
    cbv zeta.
    assert (length (map (eq_text selected) months) = nrows df) as Hlen.
    { rewrite length_map. now apply get_col_length with (l := "Month"). }
    assert (nrows (filter_rows (map (eq_text selected) months) df) =
            length (filter (eq_text selected) months)) as Hn
      by apply length_filter_map.
    repeat split.
    + apply frame_ok_filter_rows; assumption.
    + apply frame_ok_filter_rows; assumption.
    + unfold labels, filter_rows; simpl. now rewrite map_map.
    + exact Hn.
    + rewrite get_col_filter_rows, Hm. cbn [option_map].
      rewrite select_rows_same, Hn. f_equal. apply filter_eq_text_repeat.
    + intros l c Hc. rewrite get_col_filter_rows, Hc. cbn [option_map].
      f_equal. apply select_rows_combine.
    + intros Hin. unfold empty. rewrite Hn.
      apply filter_eq_text_nonempty in Hin.
      destruct (filter (eq_text selected) months); [congruence|].
      cbn [length Nat.eqb orb]. unfold filter_rows; cbn [columns].
      unfold get_col in Hm. destruct (columns df); [discriminate|reflexivity].
Qed.

Lemma month_filter_keeps_the_month_witness :
  let t :=
    ServicePage.filter_month "Jan"
      (Service.normalize_dataframe MoreExamples.monthly_url) in
  frame_ok t /\
  labels t = labels (Service.normalize_dataframe MoreExamples.monthly_url) /\
  nrows t = 2%nat /\
  get_col "Month" t = Some (repeat (VStr "Jan") (nrows t)).
Proof.
  destruct (month_filter_keeps_the_month
              (Service.normalize_dataframe MoreExamples.monthly_url)
              [VStr "Jan"; VStr "Feb"; VStr "Jan"] "Jan")
    as [_ H].
  - apply service_normalize_frame_ok; [reflexivity | frame_ok_tac].
  - reflexivity.
  - destruct (H ltac:(discriminate)) as (H1 & H2 & H3 & H4 & _).
    cbv zeta. split; [exact H1|]. split; [exact H2|].
    split; [exact H3 | exact H4].
Defined.


Lemma unique_NoDup c : NoDup (unique c).
Proof.
  induction c as [|x c IH]; [constructor|].
  cbn [unique]. constructor.
  - rewrite filter_In. intros [_ H].
    assert (value_eqb x x = true) as E by now apply value_eqb_eq.
    rewrite E in H. discriminate.
  - now apply NoDup_filter.
Qed.








(** ** The texts of the counts *)

Lemma list_remove_commas s :
  list_ascii_of_string (remove_commas s) =
  filter not_comma (list_ascii_of_string s).
Proof.
  induction s as [|c s IH]; [reflexivity|].
  simpl. unfold not_comma at 1. destruct (Ascii.eqb c comma); simpl;
    now rewrite IH.
Qed.

Lemma group3_strong n :
  forall l, (length l <= n)%nat ->
    filter not_comma (group3 l) = filter not_comma l /\
    length (group3 l) = (length l + (length l - 1) / 3)%nat.
Proof.
  induction n as [|n IH]; intros l Hl.
  - destruct l; [split; reflexivity | simpl in Hl; lia].
  - destruct l as [|a [|b [|c [|d rest]]]]; try (split; reflexivity).
    destruct (IH (d :: rest)) as [IH1 IH2]; [simpl in *; lia|].
    change (group3 (a :: b :: c :: d :: rest))
      with (a :: b :: c :: comma :: group3 (d :: rest)).
    split.
    + cbn [filter]. change (not_comma comma) with false.
      cbv iota. now rewrite IH1.
    + cbn [length] in *. rewrite IH2.
      replace (S (S (S (S (length rest)))) - 1)%nat
        with (length rest + 1 * 3)%nat by lia.
      replace (S (length rest) - 1)%nat with (length rest) by lia.
      rewrite Nat.div_add by lia. lia.
Qed.

Lemma uint_digits_no_comma u :
  Forall (fun c => not_comma c = true)
    (list_ascii_of_string (NilEmpty.string_of_uint u)).
Proof.
  induction u; simpl; constructor; try assumption; reflexivity.
Qed.

Lemma nonneg_digits_no_comma z :
  0 <= z ->
  Forall (fun c => not_comma c = true) (list_ascii_of_string (str (VInt z))).
Proof.
  intros Hz. unfold str.
  destruct z as [|p|p]; [repeat constructor | | lia].
  cbn [Z.to_int NilZero.string_of_int].
  pose proof (uint_digits_no_comma (Pos.to_uint p)) as H.
  unfold NilZero.string_of_uint.
  destruct (Pos.to_uint p); try exact H. repeat constructor.
Qed.

Lemma str_abs z :
  str (VInt z) =
  (if z <? 0 then "-" else EmptyString) ++ str (VInt (Z.abs z)).
Proof. destruct z; reflexivity. Qed.

Lemma filter_all {A : Type} (p : A -> bool) l :
  Forall (fun x => p x = true) l -> filter p l = l.
Proof.
  induction 1 as [|x l Hx _ IH]; [reflexivity|].
  simpl. now rewrite Hx, IH.
Qed.

Lemma filter_rev {A : Type} (p : A -> bool) l :
  filter p (rev l) = rev (filter p l).
Proof.
  induction l as [|x l IH]; [reflexivity|].
  simpl. rewrite filter_app, IH. simpl. destruct (p x); simpl;
    [reflexivity | now rewrite app_nil_r].
Qed.

(** X14.  The count of a card, written with commas between groups of three
    digits, reads as the plain decimal text of the number once the commas
    are taken out, also for a negative count; it has one comma for every
    three digits after the first. *)
Theorem format_thousands_round_trip :
  forall n,
    remove_commas (format_thousands n) = str (VInt n) /\
    String.length (format_thousands n) =
      (String.length (str (VInt n)) +
       (String.length (str (VInt (Z.abs n))) - 1) / 3)%nat.
Proof.
  intros n.
  set (digits := list_ascii_of_string (str (VInt (Z.abs n)))).
  assert (Forall (fun c => not_comma c = true) digits) as Hd
    by (apply nonneg_digits_no_comma; lia).
  destruct (group3_strong (length (rev digits)) (rev digits) (le_n _))
    as [G1 G2].
  split.
  - rewrite <- (string_of_list_ascii_of_string
                  (remove_commas (format_thousands n))).
    rewrite list_remove_commas. unfold format_thousands. fold digits.
    rewrite list_ascii_of_string_app, filter_app.
    rewrite list_ascii_of_string_of_list_ascii, filter_rev, G1,
      <- filter_rev, rev_involutive, (filter_all _ _ Hd).
    rewrite (str_abs n). 
    rewrite <- (string_of_list_ascii_of_string
                  ((if n <? 0 then "-" else EmptyString) ++
                   str (VInt (Z.abs n)))).
    rewrite list_ascii_of_string_app. fold digits.
    destruct (n <? 0); reflexivity.
  - rewrite (str_abs n). unfold format_thousands. fold digits.
    rewrite <- !length_list_ascii_of_string, !list_ascii_of_string_app.
    rewrite list_ascii_of_string_of_list_ascii. fold digits.
    rewrite !length_app, length_rev, G2, length_rev. lia.
Qed.

Example format_thousands_examples :
  format_thousands 1234567 = "1,234,567" /\
  format_thousands (-1234) = "-1,234" /\
  format_thousands 999 = "999" /\
  format_rate (667 # 10) = "66.7" /\ format_rate (1000 # 10) = "100.0".
Proof. repeat split. Qed.

(** ** The report *)

(** X15.  With the summary of a non-empty table, [create_excel_report]
    writes between one and five sheets with pairwise different names, the
    "Executive Summary" first; the "Raw Data" sheet is there exactly when
    the table is not empty, and the sheet of a breakdown exactly when the
    breakdown has a row, so no sheet without rows is written.  With the
    empty summary it raises [KeyError]. *)
Theorem report_sheets :
  forall df k tutor_perf team_perf course_analysis,
    create_excel_report df None tutor_perf team_perf course_analysis =
      Raise (KeyError "total_students") /\
    exists summary sheets,
      create_excel_report df (Some k) tutor_perf team_perf course_analysis =
        Ok (("Executive Summary", SummarySheet summary) :: sheets) /\
      map fst summary =
        [ "Total Students"; "Started"; "Not Started"; "Completed";
          "In Progress"; "Start Rate %"; "Completion Rate %" ] /\
      NoDup ("Executive Summary" :: map fst sheets) /\
      (length sheets <= 4)%nat /\
      (In ("Raw Data", DataSheet df) sheets <-> empty df = false) /\
      (In ("Tutor Performance", StatsSheet tutor_perf) sheets <->
       tutor_perf <> []) /\
      (In ("Team Performance", StatsSheet team_perf) sheets <->
       team_perf <> []) /\
      (In ("Course Analysis", StatsSheet course_analysis) sheets <->
       course_analysis <> []) /\
      (forall name s, In (name, s) sheets ->
         (name = "Raw Data" /\ s = DataSheet df) \/
         (name = "Tutor Performance" /\ s = StatsSheet tutor_perf) \/
         (name = "Team Performance" /\ s = StatsSheet team_perf) \/
         (name = "Course Analysis" /\ s = StatsSheet course_analysis)).
Proof.
  intros df k t m c. split; [reflexivity|].
  unfold create_excel_report. eexists. eexists.
  split; [cbn [app]; reflexivity|].
  split; [reflexivity|].
  destruct (empty df), t as [|t0 t], m as [|m0 m], c as [|c0 c];
    cbn [app map fst length];
    (split; [repeat constructor; simpl; intuition discriminate|]);
    (split; [lia|]);
    repeat split; intros; simpl in *;
    try discriminate; try congruence; try tauto;
    try (intuition congruence).
Qed.

Lemma report_sheet_names df k t m c sheets :
  create_excel_report df (Some k) t m c = Ok sheets ->
  forall name,
    In name (map fst sheets) <->
    name = "Executive Summary" \/
    (name = "Raw Data" /\ empty df = false) \/
    (name = "Tutor Performance" /\ t <> []) \/
    (name = "Team Performance" /\ m <> []) \/
    (name = "Course Analysis" /\ c <> []).
Proof.
  unfold create_excel_report. intros [= <-] name.
  change (?a :: ?l) with ([a] ++ l)%list at 1.
  cbn [app map fst In]. rewrite !map_app, !in_app_iff.
  assert (forall (label : string) (rows : list stats),
             In name
               (map fst match rows with
                        | [] => []
                        | _ :: _ => [(label, StatsSheet rows)]
                        end) <->
             name = label /\ rows <> []) as Hrows.
  { intros label [|r rows]; simpl; intuition congruence. }
  rewrite !Hrows.
  assert (In name (map fst (if empty df then []
                            else [("Raw Data", DataSheet df)])) <->
          name = "Raw Data" /\ empty df = false) as ->.
  { destruct (empty df); simpl; intuition congruence. }
  simpl. intuition congruence.
Qed.

(** ** The whole page of simple_dashboard *)

Lemma breakdown_length tutor sum label df rows keys :
  breakdown tutor sum label df = Ok rows ->
  empty df = false ->
  get_col label df = Some keys ->
  length rows = length (group_keys keys).
Proof.
  intros Hbr He Hk.
  destruct (breakdown_inv _ _ _ _ _ Hbr) as
    [[[H|H] _] | (keys' & names' & status & done & cstatus & unsorted &
                  _ & Hk' & _ & _ & _ & Hrows & ->)].
  - congruence.
  - apply has_column_false in H. congruence.
  - assert (keys' = keys) as -> by congruence.
    rewrite (Permutation_length (sort_desc_perm Total_Students unsorted)).
    symmetry. eapply Forall2_length. exact Hrows.
Qed.

Lemma group_keys_nonempty keys x :
  In x keys -> notna x = true -> group_keys keys <> [].
Proof.
  intros Hin Hx H.
  assert (In x (group_keys keys)) as Hk by (apply group_keys_In; auto).
  rewrite H in Hk. contradiction.
Qed.

(** X16.  The page of simple_dashboard is produced without an exception for
    a non-empty, well-formed table that has the columns [Student_Name],
    [Status_Clean], [Is_Completed] (boolean) and [Completion_Status], when
    each of [Tutor], [Team] and [Course] is absent or has a cell that is not
    missing.  Its report then has the summary, the raw data, and the sheet
    of a breakdown exactly for the grouping columns that are there. *)
Theorem simple_page_is_produced :
  forall df,
    frame_ok df ->
    empty df = false ->
    Spec.boolean_column "Is_Completed" df ->
    has_column "Student_Name" df = true ->
    has_column "Status_Clean" df = true ->
    has_column "Is_Completed" df = true ->
    has_column "Completion_Status" df = true ->
    (forall l, In l ["Tutor"; "Team"; "Course"] ->
       forall c, get_col l df = Some c ->
                 exists x, In x c /\ notna x = true) ->
    exists cards report,
      simple_page df = Ok (cards, report) /\
      (forall name,
          In name (map fst report) <->
          name = "Executive Summary" \/ name = "Raw Data" \/
          (name = "Tutor Performance" /\ has_column "Tutor" df = true) \/
          (name = "Team Performance" /\ has_column "Team" df = true) \/
          (name = "Course Analysis" /\ has_column "Course" df = true)).
Proof.
  intros df _ He Hb Hn Hs Hd Hc Htop.
  destruct (calculate_kpis_returns df He Hb Htop) as [k Hk].
  assert (forall tutor label,
             In label ["Tutor"; "Team"; "Course"] ->
             exists rows,
               breakdown tutor column_sum label df = Ok rows /\
               (rows <> [] <-> has_column label df = true)) as Hbr.
  { intros tutor label Hl.
    destruct (has_column label df) eqn:Hh.
    - destruct (breakdown_returns tutor column_sum label df
                  (or_introl eq_refl) He Hh Hn Hs Hd (fun _ => Hc) Hb)
        as [rows Hrows].
      exists rows. split; [exact Hrows|].
      split; [reflexivity|]. intros _.
      apply has_column_get in Hh.
      destruct (get_col label df) as [keys|] eqn:Hk'; [|congruence].
      destruct (Htop label Hl keys Hk') as (x & Hx1 & Hx2).
      pose proof (breakdown_length _ _ _ _ _ _ Hrows He Hk') as Hlen.
      pose proof (group_keys_nonempty keys x Hx1 Hx2) as Hne.
      intros ->. simpl in Hlen.
      destruct (group_keys keys); [congruence | discriminate].
    - exists []. split.
      + apply breakdown_without_group. now right.
      + split; [congruence | discriminate]. }
  destruct (Hbr true "Tutor") as (t & Ht & Ht'); [simpl; auto|].
  destruct (Hbr false "Team") as (m & Hm & Hm'); [simpl; auto|].
  destruct (Hbr false "Course") as (c & Hcs & Hc'); [simpl; auto|].
  unfold simple_page. rewrite Hk. cbn [bind SimplePage.kpi_cards].
  unfold Simple.create_tutor_performance, Simple.create_team_performance,
    Simple.create_course_analysis.
  rewrite Ht, Hm, Hcs. cbn [bind].
  destruct (create_excel_report df (Some k) t m c) as [report|] eqn:Hr;
    [|discriminate].
  cbn [bind]. eexists. eexists. split; [reflexivity|].
  intros name. rewrite (report_sheet_names _ _ _ _ _ _ Hr name).
  rewrite Ht', Hm', Hc', He.
  assert (name = "Raw Data" /\ false = false <-> name = "Raw Data") as ->
    by (split; [tauto | auto]).
  tauto.
Qed.

Lemma simple_page_is_produced_witness :
  exists cards report,
    simple_page (Simple.normalize_dataframe MoreExamples.complete_csv) =
      Ok (cards, report) /\
    (forall name,
        In name (map fst report) <->
        name = "Executive Summary" \/ name = "Raw Data" \/
        (name = "Tutor Performance" /\
         has_column "Tutor"
           (Simple.normalize_dataframe MoreExamples.complete_csv) = true) \/
        (name = "Team Performance" /\
         has_column "Team"
           (Simple.normalize_dataframe MoreExamples.complete_csv) = true) \/
        (name = "Course Analysis" /\
         has_column "Course"
           (Simple.normalize_dataframe MoreExamples.complete_csv) = true)).
Proof.
  apply (simple_page_is_produced
           (Simple.normalize_dataframe MoreExamples.complete_csv));
    try reflexivity.
  - split; vm_compute; repeat constructor; simpl; intuition discriminate.
  - intros c H. vm_compute in H. injection H as <-.
    repeat constructor; eauto.
  - intros l Hl c H. simpl in Hl.
    destruct Hl as [<-|[<-|[<-|[]]]]; vm_compute in H; injection H as <-;
      eexists; (split; [left; reflexivity | reflexivity]).
Defined.

(** ** The answer of the endpoint *)

(** X17.  [fetch_data_from_sheets] returns a table exactly when the body is
    a JSON object with a "data" member from which a DataFrame can be built;
    an "error" member beside "data" is not looked at.  Whenever it returns a
    table the error is [None], and an object without "data" and without
    "error" gives the text 'Unknown error'. *)
Theorem fetch_returns_a_table_iff :
  forall DataFrame_of no_get r,
    (forall df,
        fst (fetch_data_from_sheets DataFrame_of no_get r) = Some df <->
        exists members rows,
          r = Body (JObj members) /\
          member "data" members = Some rows /\
          DataFrame_of rows = inr df) /\
    (forall df,
        fst (fetch_data_from_sheets DataFrame_of no_get r) = Some df ->
        snd (fetch_data_from_sheets DataFrame_of no_get r) = JNull) /\
    (forall members,
        r = Body (JObj members) ->
        member "data" members = None ->
        member "error" members = None ->
        fetch_data_from_sheets DataFrame_of no_get r =
          (None, JStr "Unknown error")).
Proof.
  intros DataFrame_of no_get r. repeat split.
  - destruct r as [m|m|m|data]; simpl; try discriminate.
    destruct data as [| | | | |members]; simpl; try discriminate.
    destruct (member "data" members) as [rows|] eqn:Hd.
    + destruct (DataFrame_of rows) as [e|df'] eqn:Hf; simpl;
        [discriminate|].
      intros [= <-]. exists members, rows. auto.
    + destruct (member "error" members); discriminate.
  - intros (members & rows & -> & Hd & Hf). simpl. now rewrite Hd, Hf.
  - destruct r as [m|m|m|data]; simpl; try discriminate.
    destruct data as [| | | | |members]; simpl; try discriminate.
    destruct (member "data" members) as [rows|].
    + destruct (DataFrame_of rows); simpl; [discriminate | reflexivity].
    + destruct (member "error" members); discriminate.
  - intros members -> Hd He. simpl. now rewrite Hd, He.
Qed.

Lemma fetch_returns_a_table_iff_witness :
  fetch_data_from_sheets (fun _ => inr Examples.unassigned_url)
    (fun _ => EmptyString)
    (Body (JObj [("status", JStr "ok")])) = (None, JStr "Unknown error").
Proof.
  apply (proj2 (proj2 (fetch_returns_a_table_iff
                         (fun _ => inr Examples.unassigned_url)
                         (fun _ => EmptyString)
                         (Body (JObj [("status", JStr "ok")]))))
           [("status", JStr "ok")]); reflexivity.
Defined.

(** ** The session *)

Lemma service_empty_normalize df :
  empty (Service.normalize_dataframe df) = empty df.
Proof.
  unfold Service.normalize_dataframe. destruct (empty df) eqn:He;
    [exact He | now apply service_empty_normalized].
Qed.

Lemma simple_empty_normalize df :
  empty (Simple.normalize_dataframe df) = empty df.
Proof.
  unfold Simple.normalize_dataframe. destruct (empty df) eqn:He;
    [exact He | now apply simple_empty_normalized].
Qed.

Lemma run_snoc normalize actions a :
  run normalize (actions ++ [a]) =
  step normalize (run normalize actions) a.
Proof. unfold run. now rewrite fold_left_app. Qed.

Lemma session_invariant normalize :
  (forall df, normalize (normalize df) = normalize df) ->
  forall actions t,
    data_df (run normalize actions) = Some t -> normalize t = t.
Proof.
  intros Hidem actions.
  induction actions as [|a actions IH] using rev_ind; intros t.
  - discriminate.
  - rewrite run_snoc. destruct a as [[[df|] e]|]; simpl.
    + intros [= <-]. apply Hidem.
    + apply IH.
    + discriminate.
Qed.

(** X18.  The session of either program, after any sequence of loads and
    clears: the table it holds, if any, is a normalised one (normalising it
    again changes nothing).  A load that fails leaves the session as it was
    and reports the error; a load that succeeds stores the normalised table
    and reports as many records as were loaded; the dashboard is then shown
    exactly when the loaded table is not empty, and never after a clear. *)
Theorem session_holds_normalised_tables :
  forall normalize,
    normalize = Service.normalize_dataframe \/
    normalize = Simple.normalize_dataframe ->
    (forall actions t,
        data_df (run normalize actions) = Some t -> normalize t = t) /\
    (forall s error, on_load normalize (None, error) s = (s, LoadError error))
    /\
    (forall s df e,
        on_load normalize (Some df, e) s =
          ({| data_df := Some (normalize df) |}, Loaded (nrows df)) /\
        shows_dashboard (fst (on_load normalize (Some df, e) s)) =
          negb (empty df)) /\
    (forall actions,
        shows_dashboard (run normalize (actions ++ [Clear])) = false).
Proof.
  intros normalize Hn.
  assert ((forall df, normalize (normalize df) = normalize df) /\
          (forall df, nrows (normalize df) = nrows df) /\
          (forall df, empty (normalize df) = empty df)) as (H1 & H2 & H3).
  { destruct Hn as [-> | ->]; repeat split.
    - apply service_normalize_idem.
    - intros df. unfold Service.normalize_dataframe.
      destruct (empty df); [reflexivity | apply service_nrows_normalized].
    - apply service_empty_normalize.
    - apply simple_normalize_idem.
    - intros df. unfold Simple.normalize_dataframe.
      destruct (empty df); [reflexivity | apply simple_nrows_normalized].
    - apply simple_empty_normalize. }
  repeat split.
  - now apply session_invariant.
  - unfold on_load. cbv zeta. now rewrite H2.
  - unfold on_load, shows_dashboard. cbn. now rewrite H3.
  - intros actions. rewrite run_snoc. reflexivity.
Qed.

Lemma session_holds_normalised_tables_witness :
  data_df
    (run Service.normalize_dataframe
       [ Load (Some Examples.three_records_url, JNull);
         Load (None, JStr "timeout") ]) =
    Some (Service.normalize_dataframe Examples.three_records_url) /\
  Service.normalize_dataframe
    (Service.normalize_dataframe Examples.three_records_url) =
    Service.normalize_dataframe Examples.three_records_url.
Proof.
  split; [vm_compute; reflexivity|].
  apply (proj1 (session_holds_normalised_tables
                  Service.normalize_dataframe (or_introl eq_refl))
           [ Load (Some Examples.three_records_url, JNull);
             Load (None, JStr "timeout") ]).
  vm_compute. reflexivity.
Defined.

(** ** The status chart against the summary *)

Lemma loc_assign_Forall (P : value -> Prop) mask x c :
  P x -> Forall P c -> Forall P (loc_assign mask x c).
Proof.
  intros Hx Hc. revert mask; induction Hc as [|y c Hy Hc IH]; intros mask.
  - destruct mask; constructor.
  - destruct mask as [|m mask]; simpl; [now constructor|].
    constructor; [now destruct m | apply IH].
Qed.

Lemma service_status_clean_column df st :
  empty df = false ->
  get_col "Status" (Service.renamed df) = Some st ->
  exists sc,
    get_col "Status_Clean" (Service.normalize_dataframe df) = Some sc /\
    Forall (fun v => v = STARTED \/ v = NOT_STARTED) sc.
Proof.
  intros He Hst. unfold Service.normalize_dataframe. rewrite He.
  rewrite service_add_completion_get by reflexivity.
  unfold Service.cross_verify, Service.classify; cbv zeta. rewrite Hst.
  other_label. rewrite get_set_eq.
  assert (Forall (fun v => v = STARTED \/ v = NOT_STARTED)
            (map Service.clean_status st)) as Hall.
  { apply Forall_forall. intros v Hv. apply in_map_iff in Hv.
    destruct Hv as (x & <- & _). apply service_clean_status_two_valued. }
  destruct (get_col "Started_Date" (Service.renamed df)) as [sd|].
  - rewrite get_set_eq. eexists. split; [reflexivity|].
    apply loc_assign_Forall; [now left | exact Hall].
  - rewrite get_set_eq. eexists. split; [reflexivity | exact Hall].
Qed.

Lemma value_counts_entries c v n :
  In (v, n) (value_counts c) <->
  In v c /\ notna v = true /\
  n = Z.of_nat (length (filter (value_eqb v) c)).
Proof.
  unfold value_counts. rewrite sort_desc_In, in_map_iff. split.
  - intros (k & [= <- <-] & Hk). apply group_keys_In in Hk. tauto.
  - intros (H1 & H2 & ->). exists v. split; [reflexivity|].
    now apply group_keys_In.
Qed.

Lemma value_counts_keys_NoDup c : NoDup (map fst (value_counts c)).
Proof.
  unfold value_counts.
  eapply Permutation_NoDup.
  - apply Permutation_map. symmetry. apply sort_desc_perm.
  - rewrite map_map. cbn [fst]. rewrite map_id. apply group_keys_NoDup.
Qed.

Lemma count_started_eq c :
  length (filter (value_eqb STARTED) c) =
  length (filter (eq_text "Started") c).
Proof.
  induction c as [|x c IH]; [reflexivity|].
  cbn [filter].
  assert (value_eqb STARTED x = eq_text "Started" x) as ->.
  { destruct (value_eqb STARTED x) eqn:E.
    - apply value_eqb_eq in E. now subst.
    - destruct x as [s| | | |]; try reflexivity. simpl.
      destruct (String.eqb_spec s "Started") as [->|]; [|reflexivity].
      unfold value_eqb, STARTED in E.
      destruct (value_eq_dec (VStr "Started") (VStr "Started"));
        congruence. }
  destruct (eq_text "Started" x); simpl; now rewrite IH.
Qed.

Lemma two_valued_partition c :
  Forall (fun v => v = STARTED \/ v = NOT_STARTED) c ->
  (length (filter (value_eqb STARTED) c) +
   length (filter (value_eqb NOT_STARTED) c) = length c)%nat.
Proof.
  induction 1 as [|x c [-> | ->] _ IH]; [reflexivity| |];
    cbn [filter]; [change (value_eqb STARTED STARTED) with true;
                   change (value_eqb NOT_STARTED STARTED) with false
                  |change (value_eqb STARTED NOT_STARTED) with false;
                   change (value_eqb NOT_STARTED NOT_STARTED) with true];
    cbn [length]; lia.
Qed.

(** X19.  For a table normalised by the URL variant from one with a status
    column, the status chart of the overview, drawn from
    [df['Status_Clean'].value_counts()], has at most two slices, each for a
    different status; a slice is either 'Started' with the [started] of the
    summary or 'Not Started' with its [not_started], and no slice is
    empty. *)
Theorem status_chart_matches_summary :
  forall df st k,
    empty df = false ->
    frame_ok (Service.renamed df) ->
    get_col "Status" (Service.renamed df) = Some st ->
    calculate_kpis (Service.normalize_dataframe df) = Ok (Some k) ->
    exists sc,
      get_col "Status_Clean" (Service.normalize_dataframe df) = Some sc /\
      (length (value_counts sc) <= 2)%nat /\
      NoDup (map fst (value_counts sc)) /\
      (forall v n,
          In (v, n) (value_counts sc) ->
          0 < n /\
          ((v = STARTED /\ n = started k) \/
           (v = NOT_STARTED /\ n = not_started k))).
Proof.
  intros df st k He Hok Hst Hk.
  destruct (service_status_clean_column df st He Hst) as (sc & Hsc & Htwo).
  exists sc. split; [exact Hsc|].
  pose proof (value_counts_keys_NoDup sc) as Hnd.
  assert (forall v n, In (v, n) (value_counts sc) ->
                      v = STARTED \/ v = NOT_STARTED) as Hkeys.
  { intros v n Hin. apply value_counts_entries in Hin.
    destruct Hin as (Hv & _). rewrite Forall_forall in Htwo. auto. }
  split; [|split; [exact Hnd|]].
  - rewrite <- (length_map fst).
    apply (NoDup_incl_length (l' := [STARTED; NOT_STARTED]) Hnd).
    intros v Hv. apply in_map_iff in Hv. destruct Hv as ([v' n] & <- & Hin).
    destruct (Hkeys _ _ Hin) as [-> | ->]; simpl; auto.
  - intros v n Hin. pose proof (Hkeys _ _ Hin) as Hv.
    apply value_counts_entries in Hin. destruct Hin as (Hvin & _ & ->).
    destruct (calculate_kpis_fields _ _ Hk)
      as (_ & Ht & Hs & Hn & _).
    rewrite Hsc in Hs.
    assert (frame_ok (Service.normalize_dataframe df)) as Hokn
      by now apply service_normalize_frame_ok.
    pose proof (get_col_length _ _ _ Hokn Hsc) as Hlen.
    pose proof (two_valued_partition sc Htwo) as Hpart.
    pose proof (count_started_eq sc) as Hcs.
    unfold count_text in Hs.
    split.
    + assert (In v (filter (value_eqb v) sc)) as Hf
        by (apply filter_In; split; [exact Hvin | now apply value_eqb_eq]).
      destruct (filter (value_eqb v) sc); [contradiction|]. simpl. lia.
    + destruct Hv as [-> | ->]; [left | right]; split; try reflexivity; lia.
Qed.

Lemma status_chart_matches_summary_witness :
  exists sc,
    get_col "Status_Clean"
      (Service.normalize_dataframe Examples.three_records_url) = Some sc /\
    (length (value_counts sc) <= 2)%nat /\
    NoDup (map fst (value_counts sc)) /\
    (forall v n,
        In (v, n) (value_counts sc) ->
        0 < n /\
        ((v = STARTED /\ n = 2) \/ (v = NOT_STARTED /\ n = 1))).
Proof.
  apply (status_chart_matches_summary Examples.three_records_url
           [VStr "Started"; VStr "not started"; VStr "yes"]
           {| total_students := 3; started := 2; not_started := 1;
              completed := 1; in_progress := 1;
              start_rate := (667 # 10)%Q; completion_rate := (333 # 10)%Q;
              top_tutor := "N/A"; top_team := "N/A"; top_course := "N/A" |}).
  - reflexivity.
  - frame_ok_tac.
  - reflexivity.
  - vm_compute. reflexivity.
Defined.

Lemma report_sheets_witness :
  exists summary sheets,
    create_excel_report Examples.three_records_url
      (Some {| total_students := 3; started := 2; not_started := 1;
               completed := 1; in_progress := 1;
               start_rate := (667 # 10)%Q; completion_rate := (333 # 10)%Q;
               top_tutor := "N/A"; top_team := "N/A"; top_course := "N/A" |})
      [] [] [] =
      Ok (("Executive Summary", SummarySheet summary) :: sheets) /\
    (length sheets <= 4)%nat /\
    In ("Raw Data", DataSheet Examples.three_records_url) sheets.
Proof.
  destruct (proj2 (report_sheets Examples.three_records_url
              {| total_students := 3; started := 2; not_started := 1;
                 completed := 1; in_progress := 1;
                 start_rate := (667 # 10)%Q; completion_rate := (333 # 10)%Q;
                 top_tutor := "N/A"; top_team := "N/A"; top_course := "N/A" |}
              [] [] []))
    as (summary & sheets & H1 & _ & _ & H2 & H3 & _).
  exists summary, sheets. split; [exact H1|]. split; [exact H2|].
  apply H3. reflexivity.
Defined.

(** ** The columns of a normalised table *)

Lemma has_column_of_get l df df' :
  get_col l df = get_col l df' -> has_column l df = has_column l df'.
Proof.
  intros H.
  pose proof (has_column_get l df) as H1.
  pose proof (has_column_get l df') as H2.
  rewrite H in H1.
  destruct (has_column l df), (has_column l df'); try reflexivity.
  - symmetry. apply H2, H1. reflexivity.
  - apply H1, H2. reflexivity.
Qed.

Lemma has_column_set_col_eq l c df : has_column l (set_col l c df) = true.
Proof. apply has_column_get. rewrite get_set_eq. discriminate. Qed.

Lemma service_status_clean_present df :
  empty df = false ->
  has_column "Status_Clean" (Service.normalize_dataframe df) =
  has_column "Status" (Service.renamed df) ||
  has_column "Status_Clean" (Service.renamed df).
Proof.
  intros He. unfold Service.normalize_dataframe. rewrite He.
  rewrite (has_column_of_get "Status_Clean" _
             (Service.cross_verify (Service.classify df)))
    by (now rewrite service_add_completion_get).
  unfold Service.cross_verify, Service.classify; cbv zeta.
  destruct (get_col "Status" (Service.renamed df)) as [st|] eqn:Hst.
  - assert (has_column "Status" (Service.renamed df) = true) as ->
      by (apply has_column_get; congruence).
    cbn [orb]. other_label. rewrite get_set_eq.
    destruct (get_col "Started_Date" (Service.renamed df));
      apply has_column_set_col_eq.
  - assert (has_column "Status" (Service.renamed df) = false) as ->
      by now apply has_column_false.
    cbn [orb].
    destruct (get_col "Started_Date" (Service.renamed df)); [|reflexivity].
    destruct (get_col "Status_Clean" (Service.renamed df)) eqn:Hsc;
      [|reflexivity].
    rewrite has_column_set_col_eq. symmetry.
    apply has_column_get. congruence.
Qed.

Lemma simple_derived_present df :
  empty df = false ->
  has_column "Status_Clean" (Simple.normalize_dataframe df) =
    has_column "Status" (Simple.renamed df) ||
    has_column "Status_Clean" (Simple.renamed df) /\
  has_column "Is_Completed" (Simple.normalize_dataframe df) =
    has_column "Completed_Date" (Simple.renamed df) ||
    has_column "Is_Completed" (Simple.renamed df) /\
  has_column "Completion_Status" (Simple.normalize_dataframe df) =
    has_column "Completed_Date" (Simple.renamed df) ||
    has_column "Completion_Status" (Simple.renamed df).
Proof.
  intros He. unfold Simple.normalize_dataframe. rewrite He.
  split; [|split].
  - rewrite (has_column_of_get "Status_Clean" _ (Simple.classify df))
      by (now rewrite simple_add_completion_get).
    unfold Simple.classify; cbv zeta.
    destruct (get_col "Status" (Simple.renamed df)) eqn:Hst.
    + assert (has_column "Status" (Simple.renamed df) = true) as ->
        by (apply has_column_get; congruence).
      apply has_column_set_col_eq.
    + assert (has_column "Status" (Simple.renamed df) = false) as ->
        by now apply has_column_false.
      reflexivity.
  - unfold Simple.add_completion.
    rewrite simple_classify_get by reflexivity.
    destruct (get_col "Completed_Date" (Simple.renamed df)) eqn:Hc.
    + assert (has_column "Completed_Date" (Simple.renamed df) = true) as ->
        by (apply has_column_get; congruence).
      apply has_column_get. other_label. rewrite get_set_eq. discriminate.
    + assert (has_column "Completed_Date" (Simple.renamed df) = false) as ->
        by now apply has_column_false.
      cbn [orb]. apply has_column_of_get. now apply simple_classify_get.
  - unfold Simple.add_completion.
    rewrite simple_classify_get by reflexivity.
    destruct (get_col "Completed_Date" (Simple.renamed df)) eqn:Hc.
    + assert (has_column "Completed_Date" (Simple.renamed df) = true) as ->
        by (apply has_column_get; congruence).
      apply has_column_set_col_eq.
    + assert (has_column "Completed_Date" (Simple.renamed df) = false) as ->
        by now apply has_column_false.
      cbn [orb]. apply has_column_of_get. now apply simple_classify_get.
Qed.

(** X20.  The columns of a normalised, non-empty table.  URL variant:
    [Is_Completed] and [Completion_Status] are always there, [Status_Clean]
    exactly when the renamed table has a [Status] or already a
    [Status_Clean] column, every label is a renamed source label or a derived
    one, and a well-formed table stays well formed.  File variant:
    [Status_Clean] likewise, but [Is_Completed] and [Completion_Status] are
    there only when the renamed table has a [Completed_Date] column or
    already had them. *)
Theorem columns_of_a_normalised_table :
  forall df,
    empty df = false ->
    (has_column "Is_Completed" (Service.normalize_dataframe df) = true /\
     has_column "Completion_Status" (Service.normalize_dataframe df) = true /\
     has_column "Status_Clean" (Service.normalize_dataframe df) =
       has_column "Status" (Service.renamed df) ||
       has_column "Status_Clean" (Service.renamed df) /\
     (forall l, In l (labels (Service.normalize_dataframe df)) ->
                In l (labels (Service.renamed df)) \/ In l derived_labels) /\
     (frame_ok (Service.renamed df) ->
      frame_ok (Service.normalize_dataframe df)))
    /\
    (has_column "Status_Clean" (Simple.normalize_dataframe df) =
       has_column "Status" (Simple.renamed df) ||
       has_column "Status_Clean" (Simple.renamed df) /\
     has_column "Is_Completed" (Simple.normalize_dataframe df) =
       has_column "Completed_Date" (Simple.renamed df) ||
       has_column "Is_Completed" (Simple.renamed df) /\
     has_column "Completion_Status" (Simple.normalize_dataframe df) =
       has_column "Completed_Date" (Simple.renamed df) ||
       has_column "Completion_Status" (Simple.renamed df) /\
     (forall l, In l (labels (Simple.normalize_dataframe df)) ->
                In l (labels (Simple.renamed df)) \/ In l derived_labels)).
Proof.
  intros df He. split.
  - destruct (service_completion_columns df He) as (done & H1 & H2 & _).
    split; [|split; [|split; [|split]]].
    + apply has_column_get. congruence.
    + apply has_column_get. congruence.
    + now apply service_status_clean_present.
    + unfold Service.normalize_dataframe. rewrite He.
      apply service_labels_normalized.
    + now apply service_normalize_frame_ok.
  - destruct (simple_derived_present df He) as (H1 & H2 & H3).
    split; [exact H1|]. split; [exact H2|]. split; [exact H3|].
    unfold Simple.normalize_dataframe. rewrite He.
    apply simple_labels_normalized.
Qed.

Lemma columns_of_a_normalised_table_witness :
  has_column "Is_Completed"
    (Service.normalize_dataframe Examples.no_name_url) = true /\
  has_column "Is_Completed"
    (Simple.normalize_dataframe Examples.no_completion_csv) =
    has_column "Completed_Date" (Simple.renamed Examples.no_completion_csv) ||
    has_column "Is_Completed" (Simple.renamed Examples.no_completion_csv).
Proof.
  split.
  - apply (proj1 (columns_of_a_normalised_table Examples.no_name_url
                    eq_refl)).
  - apply (proj2 (columns_of_a_normalised_table Examples.no_completion_csv
                    eq_refl)).
Defined.

(** ** The breakdowns of the URL pipeline *)

(** X21.  In service_dashboard, the three breakdowns of a normalised table
    never raise when the source table is not empty, has pairwise different
    labels after the renaming and columns as long as its index, and has a
    name column and a status column: each returns its rows, none when the
    grouping column is absent. *)
Theorem service_breakdowns_return :
  forall df f label,
    In (f, label)
       [ (Service.create_tutor_performance, "Tutor");
         (Service.create_team_performance, "Team");
         (Service.create_course_analysis, "Course") ] ->
    frame_ok (Service.renamed df) ->
    empty df = false ->
    has_column "Student_Name" (Service.renamed df) = true ->
    has_column "Status" (Service.renamed df) = true ->
    exists rows,
      f (Service.normalize_dataframe df) = Ok rows /\
      (has_column label (Service.renamed df) = false -> rows = []).
Proof.
  intros df f label Hf _ He Hn Hs.
  set (t := Service.normalize_dataframe df).
  assert (empty t = false) as Het
    by (unfold t; now rewrite service_empty_normalize).
  assert (forall l, ~ In l derived_labels ->
                    has_column l t = has_column l (Service.renamed df)) as Hsrc.
  { intros l Hl. destruct (not_derived l Hl) as (H1 & H2 & H3).
    apply has_column_of_get. unfold t, Service.normalize_dataframe.
    rewrite He.
    now rewrite service_add_completion_get, service_cross_verify_get,
      service_classify_get. }
  assert (has_column "Student_Name" t = true) as Hn'.
  { rewrite Hsrc; [exact Hn|].
    unfold derived_labels; simpl; intuition discriminate. }
  assert (has_column "Status_Clean" t = true) as Hs'.
  { unfold t. rewrite (service_status_clean_present df He), Hs.
    reflexivity. }
  destruct (service_completion_columns df He) as (done & H1 & H2 & _).
  assert (has_column "Is_Completed" t = true) as Hd'
    by (apply has_column_get; unfold t; congruence).
  assert (has_column "Completion_Status" t = true) as Hc'
    by (apply has_column_get; unfold t; congruence).
  pose proof (service_normalize_boolean df He) as Hb. fold t in Hb.
  assert (forall tutor sum,
             sum = column_sum \/ sum = sum_as_int ->
             ~ In label derived_labels ->
             exists rows,
               breakdown tutor sum label t = Ok rows /\
               (has_column label (Service.renamed df) = false -> rows = []))
    as Hgen.
  { intros tutor sum Hsum Hl.
    destruct (has_column label t) eqn:Hh.
    - destruct (breakdown_returns tutor sum label t Hsum Het Hh Hn' Hs' Hd'
                  (fun _ => Hc') Hb) as [rows Hrows].
      exists rows. split; [exact Hrows|].
      rewrite <- (Hsrc label Hl). congruence.
    - exists []. split; [|reflexivity].
      apply breakdown_without_group. now right. }
  simpl in Hf.
  destruct Hf as [[= <- <-]|[[= <- <-]|[[= <- <-]|[]]]];
    apply Hgen; auto;
    unfold derived_labels; simpl; intuition discriminate.
Qed.

Lemma service_breakdowns_return_witness :
  exists rows,
    Service.create_team_performance
      (Service.normalize_dataframe Examples.late_completions_url) = Ok rows /\
    (has_column "Team" (Service.renamed Examples.late_completions_url) = false
     -> rows = []).
Proof.
  apply (service_breakdowns_return Examples.late_completions_url
           Service.create_team_performance "Team").
  - right; left; reflexivity.
  - frame_ok_tac.
  - reflexivity.
  - reflexivity.
  - reflexivity.
Defined.

(** ** The text of a number *)

Lemma string_of_uint_no_letter d :
  Forall no_letter (list_ascii_of_string (NilEmpty.string_of_uint d)).
Proof.
  induction d; simpl; constructor; try assumption; reflexivity.
Qed.

Lemma nilzero_string_of_uint_no_letter d :
  Forall no_letter (list_ascii_of_string (NilZero.string_of_uint d)).
Proof.
  destruct d; try apply string_of_uint_no_letter.
  repeat constructor; reflexivity.
Qed.

Lemma str_int_no_letter z :
  Forall no_letter (list_ascii_of_string (str (VInt z))).
Proof.
  cbn [str]. unfold NilZero.string_of_int.
  destruct (Z.to_int z); cbn [list_ascii_of_string].
  - apply nilzero_string_of_uint_no_letter.
  - constructor; [reflexivity
                 | apply nilzero_string_of_uint_no_letter].
Qed.

Lemma lower_no_letter s :
  Forall no_letter (list_ascii_of_string s) -> Text.lower s = s.
Proof.
  induction s as [|c s IH]; [reflexivity|].
  cbn [list_ascii_of_string Text.lower]. intros H. inversion H as [|? ? Hc Hs]; subst.
  rewrite (IH Hs). f_equal. unfold Text.lower_char.
  unfold no_letter in Hc. apply andb_true_iff in Hc. destruct Hc as [_ Hc].
  apply Nat.ltb_lt in Hc.
  destruct (Nat.leb_spec 65 (nat_of_ascii c)); [lia | reflexivity].
Qed.

Lemma contains_no_letter c n s :
  ~ no_letter c ->
  Forall no_letter (list_ascii_of_string s) ->
  Text.contains (String c n) s = false.
Proof.
  intros Hc Hs. apply not_contains_Substring. intros (pre & post & ->).
  rewrite !list_ascii_of_string_app in Hs. cbn [list_ascii_of_string] in Hs.
  apply Forall_app in Hs. destruct Hs as [_ Hs].
  simpl in Hs. inversion Hs; subst. contradiction.
Qed.

Lemma clean_status_no_letter s :
  Forall no_letter (list_ascii_of_string s) ->
  Service.clean_status (VStr s) = NOT_STARTED /\
  Simple.clean_status (VStr s) = NOT_STARTED.
Proof.
  intros H. rewrite service_clean_status_untrimmed.
  unfold Simple.clean_status. cbn [str]. cbv zeta.
  rewrite (lower_no_letter s H).
  rewrite !contains_no_letter; try assumption;
    try (intros Hl; discriminate Hl).
  split; reflexivity.
Qed.

(** The status of a cell does not depend on whether its text is taken from
    the cell or from the column as [astype(str)] writes it. *)
Lemma clean_status_of_column_text c x :
  In x c ->
  Service.clean_status (VStr (text_in c x)) = Service.clean_status x /\
  Simple.clean_status (VStr (text_in c x)) = Simple.clean_status x.
Proof.
  intros Hin. unfold text_in. destruct (float_column c) eqn:F.
  - pose proof (float_column_cells c x F Hin) as Hx.
    destruct x as [s|z|b| |]; try contradiction.
    + assert (Forall no_letter (list_ascii_of_string (str (VInt z) ++ ".0")))
        as H1.
      { rewrite list_ascii_of_string_app. apply Forall_app. split.
        - apply str_int_no_letter.
        - repeat constructor; reflexivity. }
      destruct (clean_status_no_letter _ H1) as [-> ->].
      destruct (clean_status_no_letter _ (str_int_no_letter z)) as [E1 E2].
      split; symmetry; [exact E1 | exact E2].
    + split; reflexivity.
    + split; reflexivity.
  - split; reflexivity.
Qed.

Lemma no_letter_not_blank ch : no_letter ch -> Text.blank ch = false.
Proof.
  unfold no_letter, Text.blank, Text.is_space.
  set (n := nat_of_ascii ch). rewrite andb_true_iff, !Nat.ltb_lt. intros [H1 H2].
  rewrite !orb_false_iff, !andb_false_iff, !Nat.leb_gt. lia.
Qed.

(** Trimming leaves a text without blank bytes as it is. *)
Lemma strip_no_blank s :
  Forall (fun c => Text.blank c = false) (list_ascii_of_string s) ->
  Text.strip s = s.
Proof.
  intros H. destruct (strip_split s) as (ws1 & ws2 & Hs & S1 & S2).
  rewrite Hs in H. apply Forall_app in H. destruct H as [H1 H].
  apply Forall_app in H. destruct H as [_ H2].
  assert (forall ws, Forall (fun c => Text.blank c = true) ws ->
                     Forall (fun c => Text.blank c = false) ws -> ws = [])
    as Hnil.
  { intros [|w ws] A B; [reflexivity|].
    inversion A; inversion B; congruence. }
  rewrite (Hnil ws1 S1 H1), (Hnil ws2 S2 H2), app_nil_r in Hs.
  simpl in Hs. apply (f_equal string_of_list_ascii) in Hs.
  rewrite !string_of_list_ascii_of_string in Hs. now symmetry.
Qed.

Lemma str_int_not_empty z : str (VInt z) <> EmptyString.
Proof.
  cbn [str]. unfold NilZero.string_of_int.
  destruct (Z.to_int z) as [d|d]; [|discriminate].
  destruct d; discriminate.
Qed.

(** In the URL variant a number is a completion date unless it is zero,
    whether its text is that of an integer or that of a float. *)
Lemma service_is_completed_number z :
  Service.is_completed (VInt z) = VBool (negb (z =? 0)) /\
  Text.mem (Text.strip (str (VInt z) ++ ".0")) Spec.sentinels = false.
Proof.
  assert (forall s,
             s <> EmptyString ->
             Forall no_letter (list_ascii_of_string s) ->
             Text.mem (Text.strip s) Spec.sentinels = false) as H.
  { intros s Hne Hs. rewrite strip_no_blank.
    - destruct s as [|c s]; [congruence|].
      inversion Hs as [|? ? Hc _]; subst.
      unfold Text.mem, Spec.sentinels. cbn [existsb String.eqb].
      assert (forall d, (65 <=? nat_of_ascii d)%nat = true ->
                        Ascii.eqb c d = false) as Hd.
      { intros d Hd. destruct (Ascii.eqb_spec c d) as [->|]; [|reflexivity].
        unfold no_letter in Hc. apply andb_true_iff in Hc.
        destruct Hc as [_ Hc]. apply Nat.ltb_lt in Hc.
        apply Nat.leb_le in Hd. lia. }
      rewrite !Hd by reflexivity. reflexivity.
    - eapply Forall_impl; [|exact Hs]. apply no_letter_not_blank. }
  split.
  - unfold Service.is_completed. cbn [truthy].
    change [""; "nan"; "None"; "NaT"] with Spec.sentinels.
    rewrite (H _ (str_int_not_empty z) (str_int_no_letter z)).
    now rewrite andb_true_r.
  - apply H.
    + destruct (str (VInt z)); discriminate.
    + rewrite list_ascii_of_string_app. apply Forall_app. split.
      * apply str_int_no_letter.
      * repeat constructor; reflexivity.
Qed.
